(** * Contact form and todo list: a shallow embedding of the two scripts

    The repository holds two browser scripts: the contact form
    (validation, message history) and the todo list (search, filter), the
    latter in two copies that differ in one statement.  Both keep one list
    in memory and mirror it as JSON text under a fixed localStorage key.

    Conventions of the embedding:
    - a JavaScript string is a [string]; each [ascii] is one code unit, read
      as the code point U+0000..U+00FF it numbers (Latin-1), which is closed
      under [trim], [toLowerCase] and the regular expression used here;
    - a value produced by [JSON.parse] is a [value]; the numbers the scripts
      store are integers (epoch milliseconds), so numbers are [Z];
    - platform functions whose results the scripts only pass along
      ([JSON.parse], [JSON.stringify], string conversion, date parsing and
      formatting) are the fields of the class [Platform], and so is the
      order [Array.prototype.sort] leaves when its comparator is not a
      consistent one, which ECMAScript leaves to the engine;
    - an exception that a statement can raise is a [Throw]; an exception
      no handler catches ends the event handler in [Uncaught], keeping the
      state reached so far;
    - [console.error] and the timers of [debounce] are not part of the state. *)

From Stdlib Require Import ZArith Lia Ascii String List Bool DecimalString.
From Stdlib Require Import Sorting.Sorted Sorting.Permutation.
From stdpp Require Import base strings gmap.
Import ListNotations.
Open Scope string_scope.
Set Warnings "-register-all".

(* ================================================================== *)
(** * Part I: definitions                                              *)
(* ================================================================== *)

(** ** Strings *)
Module JsString.

Definition code (c : ascii) : N := N_of_ascii c.

(** WhiteSpace and LineTerminator code points below U+0100: TAB, LF, VT,
    FF, CR, SPACE and NO-BREAK SPACE.  [String.prototype.trim] strips
    them and the class [\s] matches them. *)
Definition isWhiteSpace (c : ascii) : bool :=
  let n := code c in
  ((9 <=? n) && (n <=? 13) || (n =? 32) || (n =? 160))%N.

(** One code unit of [toLowerCase]: A..Z, and U+00C0..U+00DE except the
    multiplication sign U+00D7, move up by 32. *)
Definition lowerChar (c : ascii) : ascii :=
  let n := code c in
  if ((65 <=? n) && (n <=? 90) || (192 <=? n) && (n <=? 222) && negb (n =? 215))%N
  then ascii_of_N (n + 32) else c.

Fixpoint toLowerCase (s : string) : string :=
  match s with
  | EmptyString => EmptyString
  | String c s' => String (lowerChar c) (toLowerCase s')
  end.

Fixpoint trimStart (s : string) : string :=
  match s with
  | EmptyString => EmptyString
  | String c s' => if isWhiteSpace c then trimStart s' else s
  end.

Fixpoint trimEnd (s : string) : string :=
  match s with
  | EmptyString => EmptyString
  | String c s' =>
      match trimEnd s' with
      | EmptyString => if isWhiteSpace c then EmptyString else String c EmptyString
      | r => String c r
      end
  end.

Definition trim (s : string) : string := trimEnd (trimStart s).

(** [s.startsWith(q)] *)
Fixpoint startsWith (s q : string) {struct q} : bool :=
  match q, s with
  | EmptyString, _ => true
  | String _ _, EmptyString => false
  | String a q', String b s' => Ascii.eqb a b && startsWith s' q'
  end.

(** [s.includes(q)]: [q] occurs in [s] as a contiguous run of code units. *)
Fixpoint includes (s q : string) : bool :=
  startsWith s q ||
  match s with
  | EmptyString => false
  | String _ s' => includes s' q
  end.

(** [s.replaceAll(pat, rep)] for a pattern of one code unit and a
    replacement without [$], the only form the scripts use. *)
Fixpoint replaceAll (pat : ascii) (rep : string) (s : string) : string :=
  match s with
  | EmptyString => EmptyString
  | String c s' =>
      if Ascii.eqb c pat then rep +:+ replaceAll pat rep s'
      else String c (replaceAll pat rep s')
  end.

(** A string is truthy when it is not empty. *)
Definition nonEmpty (s : string) : bool :=
  match s with EmptyString => false | _ => true end.

Fixpoint allChars (p : ascii -> bool) (s : string) : bool :=
  match s with
  | EmptyString => true
  | String c s' => p c && allChars p s'
  end.

End JsString.

(** ** Regular expressions

The only regular expression in the scripts is anchored at both ends and
has neither groups nor back-references, so [re.test(v)] decides whether
the whole of [v] belongs to the language of the expression.  Matching is
by derivatives. *)
Module Regex.

Inductive regex : Type :=
  | Void                          (* matches nothing *)
  | Eps                           (* the empty string *)
  | Class (p : ascii -> bool)     (* one code unit of a class *)
  | Cat (r1 r2 : regex)
  | Alt (r1 r2 : regex)
  | Star (r : regex).

(** [r+] *)
Definition Plus (r : regex) : regex := Cat r (Star r).

(** a literal code unit *)
Definition Chr (c : ascii) : regex := Class (Ascii.eqb c).

Fixpoint nullable (r : regex) : bool :=
  match r with
  | Void => false
  | Eps => true
  | Class _ => false
  | Cat r1 r2 => nullable r1 && nullable r2
  | Alt r1 r2 => nullable r1 || nullable r2
  | Star _ => true
  end.

Fixpoint deriv (c : ascii) (r : regex) : regex :=
  match r with
  | Void => Void
  | Eps => Void
  | Class p => if p c then Eps else Void
  | Cat r1 r2 =>
      if nullable r1 then Alt (Cat (deriv c r1) r2) (deriv c r2)
      else Cat (deriv c r1) r2
  | Alt r1 r2 => Alt (deriv c r1) (deriv c r2)
  | Star r1 => Cat (deriv c r1) (Star r1)
  end.

(** [/^r$/.test(s)] *)
Fixpoint test (r : regex) (s : string) : bool :=
  match s with
  | EmptyString => nullable r
  | String c s' => test (deriv c r) s'
  end.

(** The language of an expression, declaratively. *)
Inductive Lang : regex -> string -> Prop :=
  | LEps : Lang Eps EmptyString
  | LClass p c : p c = true -> Lang (Class p) (String c EmptyString)
  | LCat r1 r2 s1 s2 : Lang r1 s1 -> Lang r2 s2 -> Lang (Cat r1 r2) (s1 +:+ s2)
  | LAltL r1 r2 s : Lang r1 s -> Lang (Alt r1 r2) s
  | LAltR r1 r2 s : Lang r2 s -> Lang (Alt r1 r2) s
  | LStarNil r : Lang (Star r) EmptyString
  | LStarCons r s1 s2 : Lang r s1 -> Lang (Star r) s2 -> Lang (Star r) (s1 +:+ s2).

End Regex.

(** ** Values, exceptions and the platform *)

(** What [JSON.parse] can return. *)
Inductive value : Type :=
| VNull
| VBool (b : bool)
| VNum (n : Z)
| VStr (s : string)
| VArr (elems : list value)
| VObj (fields : list (string * value)).

Inductive Exn : Type := TypeError | SyntaxError | StorageError.

Inductive Result (A : Type) : Type :=
| Return (a : A)
| Throw (e : Exn).
Arguments Return {A} a.
Arguments Throw {A} e.

Definition bind {A B : Type} (r : Result A) (k : A -> Result B) : Result B :=
  match r with
  | Return a => k a
  | Throw e => Throw e
  end.

(** [try { body } catch (err) { handler }] *)
Definition try_catch {A : Type} (body : Result A) (handler : Exn -> Result A) : Result A :=
  match body with
  | Return a => Return a
  | Throw e => handler e
  end.

Notation "'let*' x ':=' r 'in' k" := (bind r (fun x => k))
  (at level 10, x name, r at level 100, k at level 200).

Fixpoint filterM {A : Type} (p : A -> Result bool) (l : list A) : Result (list A) :=
  match l with
  | [] => Return []
  | x :: l' =>
      let* b := p x in
      let* rest := filterM p l' in
      Return (if b then x :: rest else rest)
  end.

Fixpoint mapM {A B : Type} (f : A -> Result B) (l : list A) : Result (list B) :=
  match l with
  | [] => Return []
  | x :: l' =>
      let* y := f x in
      let* rest := mapM f l' in
      Return (y :: rest)
  end.

(** The platform functions the scripts call and whose results they only
  pass along.  [None] stands for [undefined] in an argument and for NaN
  in a time value or in the result of a comparator. *)
Class Platform : Type := {
  JSON_parse : string -> Result value;
  JSON_stringify : value -> string;
  ToString : option value -> string;
  ToString_string : forall s, ToString (Some (VStr s)) = s;
  (** the time value of [new Date(x)] *)
  Date_time : option value -> option Z;
  (** [new Date(x).toLocaleString(undefined, {...})] *)
  Date_toLocaleString : option value -> string;
  (** what [Array.prototype.sort] leaves when its comparator is not a
      consistent one: ECMAScript leaves that order to the engine.  The
      comparator is given by its results. *)
  Array_sort_engine : (value -> value -> option Z) -> list value -> list value;
  (** whatever the comparator, a sort only moves the elements *)
  Array_sort_engine_permutes :
    forall cmp l, Permutation (Array_sort_engine cmp l) l
}.

Module Js.

(** ToBoolean; [None] is [undefined]. *)
Definition truthy (v : option value) : bool :=
  match v with
  | None | Some VNull => false
  | Some (VBool b) => b
  | Some (VNum n) => negb (n =? 0)%Z
  | Some (VStr s) => JsString.nonEmpty s
  | Some (VArr _) | Some (VObj _) => true
  end.

Fixpoint lookupField (k : string) (fields : list (string * value)) : option value :=
  match fields with
  | [] => None
  | (k', v) :: rest => if String.eqb k' k then Some v else lookupField k rest
  end.

(** [v.k] for the property names the scripts read ([id], [text],
    [completed], [createdAt], [name], [email], [message], [sentAt]):
    reading from [null] raises, an object yields its field or
    [undefined], every other value yields [undefined]. *)
Definition get (v : value) (k : string) : Result (option value) :=
  match v with
  | VNull => Throw TypeError
  | VObj fields => Return (lookupField k fields)
  | _ => Return None
  end.

(** [obj.k = v]: an existing property keeps its place, a new one goes
    last. *)
Fixpoint setField (k : string) (v : value) (fields : list (string * value))
    : list (string * value) :=
  match fields with
  | [] => [(k, v)]
  | (k', v') :: rest =>
      if String.eqb k' k then (k', v) :: rest else (k', v') :: setField k v rest
  end.

(** [x === s] and [x !== s] against a string. *)
Definition strictEqStr (x : option value) (s : string) : bool :=
  match x with
  | Some (VStr s') => String.eqb s' s
  | _ => false
  end.

(** [arr.slice()]; strings have a [slice] too, other values do not. *)
Definition slice (v : value) : Result value :=
  match v with
  | VArr l => Return (VArr l)
  | VStr s => Return (VStr s)
  | _ => Throw TypeError
  end.

(** [arr.filter(p)]: only arrays have the method. *)
Definition filter (v : value) (p : value -> Result bool) : Result value :=
  match v with
  | VArr l => let* l' := filterM p l in Return (VArr l')
  | _ => Throw TypeError
  end.

(** [arr.unshift(x)] *)
Definition unshift (v : value) (x : value) : Result value :=
  match v with
  | VArr l => Return (VArr (x :: l))
  | _ => Throw TypeError
  end.

(** [arr.sort(cmp)]; [cmp a b] is [None] for NaN.

    ECMAScript fixes the result for a consistent comparator only: it is
    then the one stable sorted order.  A comparator is consistent on the
    elements when every comparison of two of them is a number (not NaN)
    with a =CF a, symmetry and transitivity of =CF, and transitivity of
    <CF and of >CF ([consistent]).  For any other comparator the order
    is the engine's ([Array_sort_engine]); see [sort].

    A comparator that raises ends the sort with its exception.  The
    comparator of the scripts raises on a [null] element, whatever the
    other one, and an engine compares every element of an array of two
    or more at least once, as the insertion below does: the sort raises
    when the insertion does. *)

(** ECMAScript's SortCompare: the comparator is called, and a result
    that is NaN is returned as +0. *)
Definition sortCompare (cmp : value -> value -> Result (option Z)) (x y : value)
    : Result Z :=
  let* v := cmp x y in
  Return (match v with
          | Some n => n
          | None => 0%Z
          end).

(** The stable sorted order, by insertion from the right: an element
    goes in front of the first one it does not exceed.  The list is the
    result of [sort] for a consistent comparator only; for any other,
    [sort] takes from the insertion whether a comparison raises, and the
    order from the engine. *)
Fixpoint insertBy (cmp : value -> value -> Result (option Z)) (x : value)
    (sorted : list value) : Result (list value) :=
  match sorted with
  | [] => Return [x]
  | y :: rest =>
      let* c := sortCompare cmp x y in
      if (c <=? 0)%Z
      then Return (x :: y :: rest)
      else let* rest' := insertBy cmp x rest in Return (y :: rest')
  end.

Fixpoint sortBy (cmp : value -> value -> Result (option Z)) (l : list value)
    : Result (list value) :=
  match l with
  | [] => Return []
  | x :: l' => let* s := sortBy cmp l' in insertBy cmp x s
  end.

(** The result of one comparison when it is a number. *)
Definition verdict (cmp : value -> value -> Result (option Z)) (a b : value) : option Z :=
  match cmp a b with
  | Return (Some n) => Some n
  | _ => None
  end.

(** The requirements of a consistent comparator at [a], [b] and [c]. *)
Definition consistentAt (cmp : value -> value -> Result (option Z)) (a b c : value)
    : bool :=
  match verdict cmp a a, verdict cmp a b, verdict cmp b a,
        verdict cmp b c, verdict cmp a c with
  | Some aa, Some ab, Some ba, Some bc, Some ac =>
      ((aa =? 0)
       && implb (ab =? 0) (ba =? 0)
       && implb ((ab =? 0) && (bc =? 0)) (ac =? 0)
       && implb ((ab <? 0) && (bc <? 0)) (ac <? 0)
       && implb ((0 <? ab) && (0 <? bc)) (0 <? ac))%Z
  | _, _, _, _, _ => false
  end.

Definition consistent (cmp : value -> value -> Result (option Z)) (l : list value)
    : bool :=
  List.forallb
    (fun a => List.forallb (fun b => List.forallb (consistentAt cmp a b) l) l) l.

Section Sort.
Context {P : Platform}.

(** The insertion tells whether a comparison raises; its list is the
    result when the comparator is consistent on the elements, and the
    engine's order is the result when it is not. *)
Definition sort (v : value) (cmp : value -> value -> Result (option Z)) : Result value :=
  match v with
  | VArr l =>
      let* sorted := sortBy cmp l in
      Return (VArr (if consistent cmp l then sorted
                    else Array_sort_engine (verdict cmp) l))
  | _ => Throw TypeError
  end.

End Sort.

(** [s.replace(pat, rep)] for a one-unit pattern: the first occurrence. *)
Fixpoint replaceFirst (pat : ascii) (rep : string) (s : string) : string :=
  match s with
  | EmptyString => EmptyString
  | String c s' =>
      if Ascii.eqb c pat then rep +:+ s' else String c (replaceFirst pat rep s')
  end.

End Js.

(** ** The key-value store *)
Module Storage.

(** [entries] is what the store holds.  [getFails] tells whether reading
    raises (access denied); [setFails k v] tells whether writing [v]
    under [k] raises (quota exceeded, storage disabled).  A write that
    raises leaves the entries as they were. *)
Record localStorage : Type := {
    entries : gmap string string;
    getFails : bool;
    setFails : string -> string -> bool
  }.

Definition getItem (ls : localStorage) (k : string) : Result (option string) :=
  if getFails ls then Throw StorageError else Return (entries ls !! k).

Definition setItem (ls : localStorage) (k v : string) : Result localStorage :=
  if setFails ls k v then Throw StorageError
  else Return {| entries := <[k := v]> (entries ls);
                 getFails := getFails ls;
                 setFails := setFails ls |}.

End Storage.
Import Storage.

(** The text shown in a message element, its class, and the delay of the
  timer that clears it, when one is started. *)
Record Banner : Type := {
  bannerText : string;
  bannerClass : string;
  bannerAutoHide : option Z
}.

Definition noBanner : Banner :=
  {| bannerText := ""; bannerClass := ""; bannerAutoHide := None |}.

Definition dquote : ascii := ascii_of_nat 34.
Definition squote : ascii := ascii_of_nat 39.

(** [escapeHtml], the same function in both scripts. *)
Section EscapeHtml.
Context {P : Platform}.

(** [String(str ?? '')] *)
Definition stringOrEmpty (str : option value) : string :=
  match str with
  | None | Some VNull => ""
  | Some v => ToString (Some v)
  end.

Definition escapeHtml (str : option value) : string :=
  JsString.replaceAll squote "&#39;"
    (JsString.replaceAll dquote "&quot;"
      (JsString.replaceAll ">" "&gt;"
        (JsString.replaceAll "<" "&lt;"
          (JsString.replaceAll "&" "&amp;" (stringOrEmpty str))))).

(** [formatDate]: the first comma of the localized text becomes [" at"]. *)
Definition formatDate (x : option value) : string :=
  Js.replaceFirst "," " at" (Date_toLocaleString x).

End EscapeHtml.

(** ** The contact form (the script with [STORAGE_KEY = 'contact_messages']) *)
Module Contact.

Definition STORAGE_KEY : string := "contact_messages".

(** The result of a field validator. *)
Record Validation : Type := { valid : bool; message : string }.

(** The entity the submit handler builds. *)
Record ContactMessage : Type := {
    msg_id : string;
    msg_name : string;
    msg_email : string;
    msg_message : string;
    msg_sentAt : Z
  }.

(** The object literal [{ id, name, email, message, sentAt }]. *)
Definition message_value (m : ContactMessage) : value :=
  VObj [("id", VStr (msg_id m)); ("name", VStr (msg_name m));
        ("email", VStr (msg_email m)); ("message", VStr (msg_message m));
        ("sentAt", VNum (msg_sentAt m))].

(** What one entry of the rendered list interpolates. *)
Record MessageRow : Type := {
    row_id : string;        (* [data-id], not escaped *)
    row_from : string;      (* [escapeHtml(m.name)] *)
    row_email : string;     (* [escapeHtml(m.email)] *)
    row_sent : string;      (* [formatDate(m.sentAt)] *)
    row_body : string       (* [escapeHtml(m.message)] *)
  }.

(** [value] of an input element.  [String(value ?? '')] is the identity
    on it. *)
Definition validateName (value : string) : Validation :=
  let v := JsString.trim value in
  if (String.length v =? 0)%nat then {| valid := false; message := "Name is required." |}
  else if (String.length v <? 2)%nat
       then {| valid := false; message := "Name must have at least 2 characters." |}
       else {| valid := true; message := "" |}.

(** [[^\s@]] *)
Definition notSpaceAt (c : ascii) : bool :=
  negb (JsString.isWhiteSpace c) && negb (Ascii.eqb c "@").

(** [/^[^\s@]+@[^\s@]+\.[^\s@]+$/] *)
Definition re : Regex.regex :=
  Regex.Cat (Regex.Plus (Regex.Class notSpaceAt))
    (Regex.Cat (Regex.Chr "@")
      (Regex.Cat (Regex.Plus (Regex.Class notSpaceAt))
        (Regex.Cat (Regex.Chr ".")
          (Regex.Plus (Regex.Class notSpaceAt))))).

Definition validateEmail (value : string) : Validation :=
  let v := JsString.trim value in
  if (String.length v =? 0)%nat then {| valid := false; message := "Email is required." |}
  else if Regex.test re v then {| valid := true; message := "" |}
       else {| valid := false; message := "Enter a valid email." |}.

Definition validateMessage (value : string) : Validation :=
  let v := JsString.trim value in
  if (String.length v =? 0)%nat then {| valid := false; message := "Message is required." |}
  else if (String.length v <? 10)%nat
       then {| valid := false; message := "Message must be at least 10 characters." |}
       else {| valid := true; message := "" |}.

(** The page: the module-level variable [messages], the form, the
    elements the handlers write to, and the store.  [defaultName],
    [defaultEmail] and [defaultMessage] are the values [form.reset()]
    restores (set by the page's markup). *)
Record Page : Type := {
    messages : value;
    nameInput : string;
    emailInput : string;
    messageInput : string;
    nameError : string;
    emailError : string;
    messageError : string;
    defaultName : string;
    defaultEmail : string;
    defaultMessage : string;
    submitDisabled : bool;
    focused : option string;
    submitMessage : Banner;
    listView : list MessageRow;
    storage : localStorage
  }.

Inductive Outcome : Type :=
  | Done (st : Page)
  | Uncaught (e : Exn) (st : Page).

(** The page a handler leaves behind, however it ended. *)
Definition stateOf (o : Outcome) : Page :=
  match o with
  | Done st => st
  | Uncaught _ st => st
  end.

(** An in-memory list of messages, as the array it is. *)
Definition messageArray (l : list ContactMessage) : value :=
  VArr (List.map message_value l).

Definition set_messages (v : value) (st : Page) : Page :=
  {| messages := v; nameInput := nameInput st; emailInput := emailInput st;
     messageInput := messageInput st; nameError := nameError st;
     emailError := emailError st; messageError := messageError st;
     defaultName := defaultName st; defaultEmail := defaultEmail st;
     defaultMessage := defaultMessage st; submitDisabled := submitDisabled st;
     focused := focused st; submitMessage := submitMessage st;
     listView := listView st; storage := storage st |}.

Definition set_inputs (n e m : string) (st : Page) : Page :=
  {| messages := messages st; nameInput := n; emailInput := e;
     messageInput := m; nameError := nameError st;
     emailError := emailError st; messageError := messageError st;
     defaultName := defaultName st; defaultEmail := defaultEmail st;
     defaultMessage := defaultMessage st; submitDisabled := submitDisabled st;
     focused := focused st; submitMessage := submitMessage st;
     listView := listView st; storage := storage st |}.

Definition set_errors (n e m : string) (st : Page) : Page :=
  {| messages := messages st; nameInput := nameInput st; emailInput := emailInput st;
     messageInput := messageInput st; nameError := n;
     emailError := e; messageError := m;
     defaultName := defaultName st; defaultEmail := defaultEmail st;
     defaultMessage := defaultMessage st; submitDisabled := submitDisabled st;
     focused := focused st; submitMessage := submitMessage st;
     listView := listView st; storage := storage st |}.

Definition set_submitDisabled (b : bool) (st : Page) : Page :=
  {| messages := messages st; nameInput := nameInput st; emailInput := emailInput st;
     messageInput := messageInput st; nameError := nameError st;
     emailError := emailError st; messageError := messageError st;
     defaultName := defaultName st; defaultEmail := defaultEmail st;
     defaultMessage := defaultMessage st; submitDisabled := b;
     focused := focused st; submitMessage := submitMessage st;
     listView := listView st; storage := storage st |}.

Definition set_focused (f : option string) (st : Page) : Page :=
  {| messages := messages st; nameInput := nameInput st; emailInput := emailInput st;
     messageInput := messageInput st; nameError := nameError st;
     emailError := emailError st; messageError := messageError st;
     defaultName := defaultName st; defaultEmail := defaultEmail st;
     defaultMessage := defaultMessage st; submitDisabled := submitDisabled st;
     focused := f; submitMessage := submitMessage st;
     listView := listView st; storage := storage st |}.

Definition set_submitMessage (b : Banner) (st : Page) : Page :=
  {| messages := messages st; nameInput := nameInput st; emailInput := emailInput st;
     messageInput := messageInput st; nameError := nameError st;
     emailError := emailError st; messageError := messageError st;
     defaultName := defaultName st; defaultEmail := defaultEmail st;
     defaultMessage := defaultMessage st; submitDisabled := submitDisabled st;
     focused := focused st; submitMessage := b;
     listView := listView st; storage := storage st |}.

Definition set_listView (rows : list MessageRow) (st : Page) : Page :=
  {| messages := messages st; nameInput := nameInput st; emailInput := emailInput st;
     messageInput := messageInput st; nameError := nameError st;
     emailError := emailError st; messageError := messageError st;
     defaultName := defaultName st; defaultEmail := defaultEmail st;
     defaultMessage := defaultMessage st; submitDisabled := submitDisabled st;
     focused := focused st; submitMessage := submitMessage st;
     listView := rows; storage := storage st |}.

Definition set_storage (ls : localStorage) (st : Page) : Page :=
  {| messages := messages st; nameInput := nameInput st; emailInput := emailInput st;
     messageInput := messageInput st; nameError := nameError st;
     emailError := emailError st; messageError := messageError st;
     defaultName := defaultName st; defaultEmail := defaultEmail st;
     defaultMessage := defaultMessage st; submitDisabled := submitDisabled st;
     focused := focused st; submitMessage := submitMessage st;
     listView := listView st; storage := ls |}.

Section Script.
Context {P : Platform}.

Definition loadMessages (ls : localStorage) : Result value :=
  try_catch
    (let* raw := getItem ls STORAGE_KEY in
     match raw with
     | Some text => if JsString.nonEmpty text then JSON_parse text else Return (VArr [])
     | None => Return (VArr [])
     end)
    (fun err => Return (VArr [])).

(** Returns the success flag and the store after the attempt. *)
Definition saveMessages (ls : localStorage) (msgs : value) : Result (bool * localStorage) :=
  try_catch
    (let* ls' := setItem ls STORAGE_KEY (JSON_stringify msgs) in
     Return (true, ls'))
    (fun err => Return (false, ls)).

(** [showGlobalMessage(text, { type, focus: true, autoHide })]; every
    call in the script passes all three options, with [focus] true. *)
Definition showGlobalMessage (text type : string) (autoHide : Z) (st : Page) : Page :=
  set_focused (Some "submit-message")
    (set_submitMessage
       {| bannerText := text;
          bannerClass := if String.eqb type "success" then "success" else "";
          bannerAutoHide := if (autoHide =? 0)%Z then None else Some autoHide |}
       st).

Definition renderRow (m : value) : Result MessageRow :=
  let* id := Js.get m "id" in
  let* name := Js.get m "name" in
  let* email := Js.get m "email" in
  let* sentAt := Js.get m "sentAt" in
  let* body := Js.get m "message" in
  Return {| row_id := ToString id; row_from := escapeHtml name;
            row_email := escapeHtml email; row_sent := formatDate sentAt;
            row_body := escapeHtml body |}.

(** [renderMessagesList(messages)].  An empty [listView] stands for the
    paragraph "No messages yet".  A falsy argument, an empty array and
    an object whose [length] is 0 take the first branch; in the second
    only an array has [map]. *)
Definition renderMessagesList (msgs : value) (st : Page) : Outcome :=
  if negb (Js.truthy (Some msgs)) then Done (set_listView [] st)
  else
    match msgs with
    | VArr [] => Done (set_listView [] st)
    | VArr l =>
        match mapM renderRow l with
        | Return rows => Done (set_listView rows st)
        | Throw e => Uncaught e st
        end
    | VObj fields =>
        match Js.lookupField "length" fields with
        | Some (VNum 0) => Done (set_listView [] st)
        | _ => Uncaught TypeError st
        end
    | _ => Uncaught TypeError st
    end.

(** The listener of the form's [submit] event.  [uuid] is the
    identifier the platform hands out ([crypto.randomUUID()], or the
    clock reading as text), [now] is [Date.now()]. *)
Definition onSubmit (uuid : string) (now : Z) (st : Page) : Outcome :=
  let Name := validateName (nameInput st) in
  let Email := validateEmail (emailInput st) in
  let Message := validateMessage (messageInput st) in
  let st := set_errors (if valid Name then "" else message Name)
                       (if valid Email then "" else message Email)
                       (if valid Message then "" else message Message) st in
  if negb (valid Name) then Done (set_focused (Some "name") st)
  else if negb (valid Email) then Done (set_focused (Some "email") st)
  else if negb (valid Message) then Done (set_focused (Some "message") st)
  else
    let newMessage :=
      message_value {| msg_id := uuid;
                       msg_name := JsString.trim (nameInput st);
                       msg_email := JsString.trim (emailInput st);
                       msg_message := JsString.trim (messageInput st);
                       msg_sentAt := now |} in
    match Js.unshift (messages st) newMessage with
    | Throw e => Uncaught e st
    | Return msgs =>
        let st := set_submitDisabled true (set_messages msgs st) in
        match saveMessages (storage st) msgs with
        | Throw e => Uncaught e st
        | Return (ok, ls) =>
            let st := set_storage ls st in
            if negb ok then
              let st := set_submitDisabled false st in
              let st := showGlobalMessage
                          "Could not save message locally. Please check browser settings."
                          "error" 4000 st in
              match loadMessages (storage st) with
              | Throw e => Uncaught e st
              | Return reloaded =>
                  renderMessagesList reloaded (set_messages reloaded st)
              end
            else
              match renderMessagesList msgs st with
              | Uncaught e st => Uncaught e st
              | Done st =>
                  let st := set_inputs (defaultName st) (defaultEmail st)
                                       (defaultMessage st) st in
                  let st := set_errors "" "" "" st in
                  let st := showGlobalMessage "Message submitted!" "success" 3000 st in
                  Done (set_submitDisabled false st)
              end
        end
    end.

(** [m => m.id !== id] *)
Definition idDiffers (id : string) (m : value) : Result bool :=
  let* mid := Js.get m "id" in Return (negb (Js.strictEqStr mid id)).

(** The click listener of the list.  [deleteBtn] is the result of
    [e.target.closest('.delete-btn')], holding the button's
    [dataset.id]; [confirmed] is the answer to the [confirm] prompt. *)
Definition onListClick (deleteBtn : option (option string)) (confirmed : bool)
    (st : Page) : Outcome :=
  match deleteBtn with
  | None => Done st
  | Some None => Done st
  | Some (Some id) =>
      if negb (JsString.nonEmpty id) then Done st
      else if negb confirmed then Done st
      else
        match Js.filter (messages st) (idDiffers id) with
        | Throw e => Uncaught e st
        | Return msgs =>
            let st := set_messages msgs st in
            match saveMessages (storage st) msgs with
            | Throw e => Uncaught e st
            | Return (ok, ls) =>
                let st := set_storage ls st in
                if negb ok then
                  let st := showGlobalMessage "Could not delete message (storage error)."
                                              "error" 3000 st in
                  match loadMessages (storage st) with
                  | Throw e => Uncaught e st
                  | Return reloaded =>
                      renderMessagesList reloaded (set_messages reloaded st)
                  end
                else renderMessagesList msgs st
            end
        end
  end.

(** The three validated fields of the form. *)
Inductive Field : Type := NameField | EmailField | MessageField.

Definition fieldValue (f : Field) (st : Page) : string :=
  match f with
  | NameField => nameInput st
  | EmailField => emailInput st
  | MessageField => messageInput st
  end.

Definition validateField (f : Field) (value : string) : Validation :=
  match f with
  | NameField => validateName value
  | EmailField => validateEmail value
  | MessageField => validateMessage value
  end.

(** [showFieldError(inputEl, message)]: the text of the field's error
    element. *)
Definition showFieldError (f : Field) (msg : string) (st : Page) : Page :=
  match f with
  | NameField => set_errors msg (emailError st) (messageError st) st
  | EmailField => set_errors (nameError st) msg (messageError st) st
  | MessageField => set_errors (nameError st) (emailError st) msg st
  end.

Definition clearFieldError (f : Field) (st : Page) : Page :=
  showFieldError f "" st.

(** The body shared by the three debounced validators and the three
    [blur] listeners: validate the field and show its message. *)
Definition validateAndShow (f : Field) (st : Page) : Page :=
  let v := validateField f (fieldValue f st) in
  showFieldError f (if valid v then "" else message v) st.

(** The [blur] listener of a field. *)
Definition onBlur (f : Field) (st : Page) : Page := validateAndShow f st.

(** The [input] listener of a field, the field holding [typed] by then:
    the error is cleared at once; the debounced validator, started here,
    runs [validateAndShow] when its timer expires. *)
Definition onInput (f : Field) (typed : string) (st : Page) : Page :=
  let st := match f with
            | NameField => set_inputs typed (emailInput st) (messageInput st) st
            | EmailField => set_inputs (nameInput st) typed (messageInput st) st
            | MessageField => set_inputs (nameInput st) (emailInput st) typed st
            end in
  clearFieldError f st.

(** The statements run when the script is loaded, on the page as the
    markup gives it: [let messages = loadMessages();
    renderMessagesList(messages);].  The listeners are added by the
    statements that follow: after [Done] the page listens to the events;
    after [Uncaught] the script has stopped before adding any listener,
    and the page it leaves runs nothing (see [session]). *)
Definition init (markup : Page) : Outcome :=
  match loadMessages (storage markup) with
  | Throw e => Uncaught e markup
  | Return loaded => renderMessagesList loaded (set_messages loaded markup)
  end.

(** What the browser can deliver to the listeners of the page. *)
Inductive Event : Type :=
| Submit (uuid : string) (now : Z)
| ListClick (deleteBtn : option (option string)) (confirmed : bool)
| Blur (f : Field)
| Input (f : Field) (typed : string)
| ValidatorExpired (f : Field).     (* the timer of a debounced validator *)

Definition handle (e : Event) (st : Page) : Outcome :=
  match e with
  | Submit uuid now => onSubmit uuid now st
  | ListClick deleteBtn confirmed => onListClick deleteBtn confirmed st
  | Blur f => Done (onBlur f st)
  | Input f typed => Done (onInput f typed st)
  | ValidatorExpired f => Done (validateAndShow f st)
  end.

(** Events one after the other.  A listener that raises leaves the page
    as it was at that point and the next event is delivered all the same;
    the exceptions nobody caught are collected. *)
Fixpoint run (es : list Event) (st : Page) : Page * list Exn :=
  match es with
  | [] => (st, [])
  | e :: es' =>
      match handle e st with
      | Done st' => run es' st'
      | Uncaught x st' => let (final, xs) := run es' st' in (final, x :: xs)
      end
  end.

(** The script loaded over the page [markup], then the events [es]: the
    page at the end and the exceptions nobody caught.  When the load
    raises no listener exists, and the events run nothing. *)
Definition session (markup : Page) (es : list Event) : Page * list Exn :=
  match init markup with
  | Done pg => run es pg
  | Uncaught e pg => (pg, [e])
  end.

End Script.
End Contact.

(** ** The todo list (the script with [STORAGE_KEY = 'todo_list_v1'])

The script exists in two copies.  They are the same statement for
statement, except that [applyFiltersAndSearch] of the commented copy
sorts its result before rendering and the copy under "Dynamic Todo List
with Search" does not. *)
Module Todo.

Inductive Copy : Type :=
  | SearchCopy      (* Dynamic Todo List with Search/script.js *)
  | SortingCopy.    (* the commented copy, with [results.sort] *)

Definition STORAGE_KEY : string := "todo_list_v1".
Definition SEARCH_DEBOUNCE_MS : Z := 400.

Record TodoItem : Type := {
    todo_id : string;
    todo_text : string;
    todo_completed : bool;
    todo_createdAt : string
  }.

(** The object literal [{ id, text, completed, createdAt }]. *)
Definition todo_value (t : TodoItem) : value :=
  VObj [("id", VStr (todo_id t)); ("text", VStr (todo_text t));
        ("completed", VBool (todo_completed t));
        ("createdAt", VStr (todo_createdAt t))].

(** The item an object of the list stands for: [todo_value] read back. *)
Definition itemOf (v : value) : TodoItem :=
  let field k := match v with
                 | VObj fields => Js.lookupField k fields
                 | _ => None
                 end in
  let text k := match field k with
                | Some (VStr s) => s
                | _ => ""
                end in
  {| todo_id := text "id"; todo_text := text "text";
     todo_completed := Js.truthy (field "completed");
     todo_createdAt := text "createdAt" |}.

(** What one entry of the rendered list interpolates. *)
Record TodoRow : Type := {
    row_id : string;        (* [data-id], not escaped *)
    row_checked : bool;     (* [t.completed ? 'checked' : ''] *)
    row_text : string;      (* [escapeHtml(t.text)] *)
    row_date : string       (* [formatDate(t.createdAt)] *)
  }.

(** The module-level variables, the two inputs, the elements the
    handlers write to, and the store. *)
Record App : Type := {
    todos : value;
    currentFilter : string;
    currentQuery : string;
    todoInput : string;
    searchInput : string;
    submitMsg : Banner;
    listView : list TodoRow;
    counter : nat * nat;        (* total, completed *)
    storage : localStorage
  }.

Inductive Outcome : Type :=
  | Done (st : App)
  | Uncaught (e : Exn) (st : App).

(** The state a handler leaves behind, however it ended. *)
Definition stateOf (o : Outcome) : App :=
  match o with
  | Done st => st
  | Uncaught _ st => st
  end.

(** An in-memory list of todo items, as the array it is. *)
Definition todoArray (l : list TodoItem) : value :=
  VArr (List.map todo_value l).

Definition set_todos (v : value) (st : App) : App :=
  {| todos := v; currentFilter := currentFilter st; currentQuery := currentQuery st;
     todoInput := todoInput st; searchInput := searchInput st;
     submitMsg := submitMsg st; listView := listView st; counter := counter st;
     storage := storage st |}.

Definition set_currentFilter (f : string) (st : App) : App :=
  {| todos := todos st; currentFilter := f; currentQuery := currentQuery st;
     todoInput := todoInput st; searchInput := searchInput st;
     submitMsg := submitMsg st; listView := listView st; counter := counter st;
     storage := storage st |}.

Definition set_currentQuery (q : string) (st : App) : App :=
  {| todos := todos st; currentFilter := currentFilter st; currentQuery := q;
     todoInput := todoInput st; searchInput := searchInput st;
     submitMsg := submitMsg st; listView := listView st; counter := counter st;
     storage := storage st |}.

Definition set_todoInput (s : string) (st : App) : App :=
  {| todos := todos st; currentFilter := currentFilter st; currentQuery := currentQuery st;
     todoInput := s; searchInput := searchInput st;
     submitMsg := submitMsg st; listView := listView st; counter := counter st;
     storage := storage st |}.

Definition set_submitMsg (b : Banner) (st : App) : App :=
  {| todos := todos st; currentFilter := currentFilter st; currentQuery := currentQuery st;
     todoInput := todoInput st; searchInput := searchInput st;
     submitMsg := b; listView := listView st; counter := counter st;
     storage := storage st |}.

Definition set_listView (rows : list TodoRow) (st : App) : App :=
  {| todos := todos st; currentFilter := currentFilter st; currentQuery := currentQuery st;
     todoInput := todoInput st; searchInput := searchInput st;
     submitMsg := submitMsg st; listView := rows; counter := counter st;
     storage := storage st |}.

Definition set_counter (c : nat * nat) (st : App) : App :=
  {| todos := todos st; currentFilter := currentFilter st; currentQuery := currentQuery st;
     todoInput := todoInput st; searchInput := searchInput st;
     submitMsg := submitMsg st; listView := listView st; counter := c;
     storage := storage st |}.

Definition set_storage (ls : localStorage) (st : App) : App :=
  {| todos := todos st; currentFilter := currentFilter st; currentQuery := currentQuery st;
     todoInput := todoInput st; searchInput := searchInput st;
     submitMsg := submitMsg st; listView := listView st; counter := counter st;
     storage := ls |}.

Definition set_searchInput (s : string) (st : App) : App :=
  {| todos := todos st; currentFilter := currentFilter st; currentQuery := currentQuery st;
     todoInput := todoInput st; searchInput := s;
     submitMsg := submitMsg st; listView := listView st; counter := counter st;
     storage := storage st |}.

(** What the click listener of the list finds under the pointer. *)
Inductive ClickTarget : Type :=
  | OnDelete (id : option string) (confirmed : bool)
  | OnToggle (id : option string) (checked : bool)
  | Elsewhere.

Section Script.
Context {P : Platform}.
Variable copy : Copy.

Definition loadTodos (ls : localStorage) : Result value :=
  try_catch
    (let* raw := getItem ls STORAGE_KEY in
     match raw with
     | Some text => if JsString.nonEmpty text then JSON_parse text else Return (VArr [])
     | None => Return (VArr [])
     end)
    (fun err => Return (VArr [])).

(** Returns the success flag and the store after the attempt. *)
Definition saveTodos (ls : localStorage) (items : value) : Result (bool * localStorage) :=
  try_catch
    (let* ls' := setItem ls STORAGE_KEY (JSON_stringify items) in
     Return (true, ls'))
    (fun err => Return (false, ls)).

(** [showSubmitMessage(text, { type })]: no call passes [autoHide], so
    no timer is started. *)
Definition showSubmitMessage (text type : string) (st : App) : App :=
  set_submitMsg
    {| bannerText := text;
       bannerClass := if String.eqb type "success" then "success" else "error";
       bannerAutoHide := None |}
    st.

Definition isCompleted (t : value) : Result bool :=
  let* c := Js.get t "completed" in Return (Js.truthy c).

Definition updateCounter (st : App) : Outcome :=
  match todos st with
  | VArr l =>
      match filterM isCompleted l with
      | Return completed => Done (set_counter (length l, length completed) st)
      | Throw e => Uncaught e st
      end
  | _ => Uncaught TypeError st
  end.

Definition renderRow (t : value) : Result TodoRow :=
  let* id := Js.get t "id" in
  let* completed := Js.get t "completed" in
  let* text := Js.get t "text" in
  let* createdAt := Js.get t "createdAt" in
  Return {| row_id := ToString id; row_checked := Js.truthy completed;
            row_text := escapeHtml text; row_date := formatDate createdAt |}.

(** [renderTodoList(items)]; an empty [listView] stands for the
    paragraph "No todos found.". *)
Definition renderTodoList (items : value) (st : App) : Outcome :=
  if negb (Js.truthy (Some items)) then updateCounter (set_listView [] st)
  else
    match items with
    | VArr [] => updateCounter (set_listView [] st)
    | VArr l =>
        match mapM renderRow l with
        | Return rows => updateCounter (set_listView rows st)
        | Throw e => Uncaught e st
        end
    | VObj fields =>
        match Js.lookupField "length" fields with
        | Some (VNum 0) => updateCounter (set_listView [] st)
        | _ => Uncaught TypeError st
        end
    | _ => Uncaught TypeError st
    end.

(** [t => t.text.toLowerCase().includes(q)] *)
Definition textIncludes (q : string) (t : value) : Result bool :=
  let* text := Js.get t "text" in
  match text with
  | Some (VStr s) => Return (JsString.includes (JsString.toLowerCase s) q)
  | _ => Throw TypeError
  end.

(** [(a,b) => new Date(b.createdAt) - new Date(a.createdAt)] *)
Definition compareCreatedAt (a b : value) : Result (option Z) :=
  let* cb := Js.get b "createdAt" in
  let* ca := Js.get a "createdAt" in
  Return (match Date_time cb, Date_time ca with
          | Some tb, Some ta => Some (tb - ta)%Z
          | _, _ => None
          end).

(** The value of the local variable [results] of
    [applyFiltersAndSearch] when it is handed to [renderTodoList]. *)
Definition results (st : App) : Result value :=
  let q := JsString.toLowerCase (JsString.trim (currentQuery st)) in
  let* results := Js.slice (todos st) in
  let* results :=
    if String.eqb (currentFilter st) "active"
    then Js.filter results (fun t => let* c := isCompleted t in Return (negb c))
    else if String.eqb (currentFilter st) "completed"
         then Js.filter results isCompleted
         else Return results in
  let* results :=
    if (0 <? String.length q)%nat then Js.filter results (textIncludes q)
    else Return results in
  match copy with
  | SortingCopy => Js.sort results compareCreatedAt
  | SearchCopy => Return results
  end.

Definition applyFiltersAndSearch (st : App) : Outcome :=
  match results st with
  | Throw e => Uncaught e st
  | Return r => renderTodoList r st
  end.

(** The listener of the form's [submit] event.  [uuid] is the
    identifier the platform hands out, [now] is
    [new Date().toISOString()]. *)
Definition onSubmit (uuid now : string) (st : App) : Outcome :=
  let v := JsString.trim (todoInput st) in
  if negb (JsString.nonEmpty v)
  then Done (showSubmitMessage "Please enter a todo." "error" st)
  else if (String.length v <? 3)%nat
  then Done (showSubmitMessage "Todo must be at least 3 characters." "error" st)
  else
    let newTodo := todo_value {| todo_id := uuid; todo_text := v;
                                 todo_completed := false; todo_createdAt := now |} in
    match Js.unshift (todos st) newTodo with
    | Throw e => Uncaught e st
    | Return items =>
        let st := set_todos items st in
        match saveTodos (storage st) items with
        | Throw e => Uncaught e st
        | Return (ok, ls) =>
            let st := set_storage ls st in
            if negb ok then
              let st := showSubmitMessage
                          "Could not save todo locally. Check storage settings."
                          "error" st in
              match loadTodos (storage st) with
              | Throw e => Uncaught e st
              | Return reloaded => applyFiltersAndSearch (set_todos reloaded st)
              end
            else
              let st := set_todoInput "" st in
              let st := showSubmitMessage "Todo added!" "success" st in
              applyFiltersAndSearch st
        end
    end.

(** [t => t.id !== id] *)
Definition idDiffers (id : string) (t : value) : Result bool :=
  let* tid := Js.get t "id" in Return (negb (Js.strictEqStr tid id)).

(** [todos.find(x => x.id === id)] followed by [t.completed = b]: the
    first element with that identifier is updated in place. *)
Fixpoint toggleFirst (id : string) (b : bool) (l : list value)
    : Result (option (list value)) :=
  match l with
  | [] => Return None
  | x :: rest =>
      let* xid := Js.get x "id" in
      if Js.strictEqStr xid id then
        match x with
        | VObj fields => Return (Some (VObj (Js.setField "completed" (VBool b) fields) :: rest))
        | _ => Return (Some (x :: rest))
        end
      else
        let* r := toggleFirst id b rest in
        Return (match r with Some rest' => Some (x :: rest') | None => None end)
  end.

(** The click listener of the list. *)
Definition onListClick (target : ClickTarget) (st : App) : Outcome :=
  match target with
  | OnDelete None _ => Done st
  | OnDelete (Some id) confirmed =>
      if negb (JsString.nonEmpty id) then Done st
      else if negb confirmed then Done st
      else
        match Js.filter (todos st) (idDiffers id) with
        | Throw e => Uncaught e st
        | Return items =>
            let st := set_todos items st in
            match saveTodos (storage st) items with
            | Throw e => Uncaught e st
            | Return (ok, ls) =>
                let st := set_storage ls st in
                if negb ok then
                  let st := showSubmitMessage "Could not delete todo (storage error)."
                                              "error" st in
                  match loadTodos (storage st) with
                  | Throw e => Uncaught e st
                  | Return reloaded => applyFiltersAndSearch (set_todos reloaded st)
                  end
                else applyFiltersAndSearch st
            end
        end
  | OnToggle None _ => Done st
  | OnToggle (Some id) checked =>
      if negb (JsString.nonEmpty id) then Done st
      else
        match todos st with
        | VArr l =>
            match toggleFirst id checked l with
            | Throw e => Uncaught e st
            | Return None => Done st
            | Return (Some l') =>
                let st := set_todos (VArr l') st in
                match saveTodos (storage st) (VArr l') with
                | Throw e => Uncaught e st
                | Return (ok, ls) =>
                    let st := set_storage ls st in
                    if negb ok then
                      let st := showSubmitMessage "Could not update todo (storage error)."
                                                  "error" st in
                      match loadTodos (storage st) with
                      | Throw e => Uncaught e st
                      | Return reloaded => applyFiltersAndSearch (set_todos reloaded st)
                      end
                    else applyFiltersAndSearch st
                end
            end
        | _ => Uncaught TypeError st
        end
  | Elsewhere => Done st
  end.

(** A filter button: [currentFilter = btn.dataset.filter || 'all']. *)
Definition onFilterClick (datasetFilter : option string) (st : App) : Outcome :=
  let f := match datasetFilter with
           | Some f => if JsString.nonEmpty f then f else "all"
           | None => "all"
           end in
  applyFiltersAndSearch (set_currentFilter f st).

(** The debounced search, when its timer fires. *)
Definition debouncedSearch (st : App) : Outcome :=
  applyFiltersAndSearch (set_currentQuery (searchInput st) st).

(** The statements run when the script is loaded, on the page as the
    markup gives it: the three module-level variables are set, then
    [applyFiltersAndSearch()] is called. *)
Definition init (markup : App) : Outcome :=
  match loadTodos (storage markup) with
  | Throw e => Uncaught e markup
  | Return loaded =>
      applyFiltersAndSearch
        (set_currentQuery "" (set_currentFilter "all" (set_todos loaded markup)))
  end.

(** What the browser can deliver to the listeners of the page.  Typing
    into the todo field runs no listener; typing into the search field
    starts the debounced search, which runs when its timer expires. *)
Inductive Event : Type :=
| Submit (uuid now : string)
| ListClick (target : ClickTarget)
| FilterClick (datasetFilter : option string)
| TypeTodo (typed : string)
| TypeSearch (typed : string)
| SearchExpired.

Definition handle (e : Event) (st : App) : Outcome :=
  match e with
  | Submit uuid now => onSubmit uuid now st
  | ListClick target => onListClick target st
  | FilterClick datasetFilter => onFilterClick datasetFilter st
  | TypeTodo typed => Done (set_todoInput typed st)
  | TypeSearch typed => Done (set_searchInput typed st)
  | SearchExpired => debouncedSearch st
  end.

(** Events one after the other; see [Contact.run]. *)
Fixpoint run (es : list Event) (st : App) : App * list Exn :=
  match es with
  | [] => (st, [])
  | e :: es' =>
      match handle e st with
      | Done st' => run es' st'
      | Uncaught x st' => let (final, xs) := run es' st' in (final, x :: xs)
      end
  end.

End Script.
End Todo.

(** ** [debounce]

    The same function in the three scripts.  The closure keeps one timer;
    a call cancels it ([clearTimeout]) and starts another for [wait]
    milliseconds ([setTimeout]), whose expiry applies [fn] to the
    arguments of that call.  Time is a count of milliseconds; a timer
    expires no earlier than its delay after it was started. *)
Module Debounce.
Section Debounce.
Context {A : Type}.
Variable wait : Z.

(** [setTimeout] takes a negative delay for 0. *)
Definition delay : Z := Z.max 0 wait.

(** The clock, and the pending timer: when it is due and the arguments
    its callback holds. *)
Record Closure : Type := {
  clock : Z;
  timer : option (Z * A)
}.

Definition idle (t : Z) : Closure := {| clock := t; timer := None |}.

Inductive Event : Type :=
| Call (t : Z) (args : A)     (* the debounced function is called at [t] *)
| Expire (t : Z).             (* the pending timer expires at [t] *)

(** One event.  [None]: the event cannot happen (time running backwards,
    nothing pending, or the timer not yet due).  Otherwise the closure
    after it and, when [fn] was applied, its arguments. *)
Definition step (c : Closure) (e : Event) : option (Closure * option A) :=
  match e with
  | Call t args =>
      if (clock c <=? t)%Z
      then Some ({| clock := t; timer := Some ((t + delay)%Z, args) |}, None)
      else None
  | Expire t =>
      match timer c with
      | Some (due, args) =>
          if ((clock c <=? t) && (due <=? t))%Z
          then Some ({| clock := t; timer := None |}, Some args)
          else None
      | None => None
      end
  end.

(** A sequence of events: the applications of [fn] it causes, in order. *)
Fixpoint run (c : Closure) (es : list Event) : option (Closure * list A) :=
  match es with
  | [] => Some (c, [])
  | e :: es' =>
      match step c e with
      | None => None
      | Some (c', applied) =>
          match run c' es' with
          | None => None
          | Some (c'', rest) =>
              Some (c'', match applied with Some a => a :: rest | None => rest end)
          end
      end
  end.

(** The calls no other call cancelled: the arguments of every call that
    is directly followed by an expiry, in order. *)
Fixpoint fired (es : list Event) : list A :=
  match es with
  | [] => []
  | Call _ args :: es' =>
      match es' with
      | Expire _ :: _ => args :: fired es'
      | _ => fired es'
      end
  | Expire _ :: es' => fired es'
  end.

End Debounce.
End Debounce.

(** ** A platform to run the scripts on

One implementation of [Platform], used to evaluate the scripts on
concrete inputs.  Its JSON text covers integers as numbers and code
units below U+0100; its dates are the texts [toISOString] produces. *)
Module Reference.

Definition decimal (n : Z) : string :=
  DecimalString.NilZero.string_of_int (Z.to_int n).

Definition hexDigit (n : N) : ascii :=
  if (n <? 10)%N then ascii_of_N (48 + n) else ascii_of_N (87 + n).

Definition bs : ascii := "\".

(** One code unit inside a JSON string literal. *)
Definition printUnit (c : ascii) : string :=
  let n := JsString.code c in
  if Ascii.eqb c dquote then String bs (String dquote "")
  else if Ascii.eqb c bs then String bs (String bs "")
  else if (n =? 8)%N then "\b"
  else if (n =? 9)%N then "\t"
  else if (n =? 10)%N then "\n"
  else if (n =? 12)%N then "\f"
  else if (n =? 13)%N then "\r"
  else if (n <? 32)%N
       then "\u00" +:+ String (hexDigit (n / 16)) (String (hexDigit (n mod 16)) "")
       else String c "".

Fixpoint printUnits (s : string) : string :=
  match s with
  | EmptyString => EmptyString
  | String c s' => printUnit c +:+ printUnits s'
  end.

Definition quote (s : string) : string :=
  String dquote (printUnits s +:+ String dquote "").

Fixpoint stringify (v : value) : string :=
  match v with
  | VNull => "null"
  | VBool true => "true"
  | VBool false => "false"
  | VNum n => decimal n
  | VStr s => quote s
  | VArr l =>
      "[" +:+
      (fix elems (l : list value) : string :=
         match l with
         | [] => ""
         | x :: rest =>
             match rest with
             | [] => stringify x
             | _ => stringify x +:+ "," +:+ elems rest
             end
         end) l +:+ "]"
  | VObj fields =>
      "{" +:+
      (fix members (fs : list (string * value)) : string :=
         match fs with
         | [] => ""
         | (k, x) :: rest =>
             match rest with
             | [] => quote k +:+ ":" +:+ stringify x
             | _ => quote k +:+ ":" +:+ stringify x +:+ "," +:+ members rest
             end
         end) fields +:+ "}"
  end.

Definition isJsonSpace (c : ascii) : bool :=
  let n := JsString.code c in ((n =? 32) || (n =? 9) || (n =? 10) || (n =? 13))%N.

Fixpoint skipSpace (s : string) : string :=
  match s with
  | EmptyString => EmptyString
  | String c s' => if isJsonSpace c then skipSpace s' else s
  end.

Definition isDigit (c : ascii) : bool :=
  let n := JsString.code c in ((48 <=? n) && (n <=? 57))%N.

Fixpoint dropUnits (n : nat) (s : string) : string :=
  match n, s with
  | O, _ => s
  | S n', String _ s' => dropUnits n' s'
  | S _, EmptyString => EmptyString
  end.

(** The digits at the front of [s], as a number, their count, and the rest. *)
Fixpoint takeDigits (acc : Z) (count : nat) (s : string) : Z * nat * string :=
  match s with
  | String c s' =>
      if isDigit c
      then takeDigits (acc * 10 + Z.of_N (JsString.code c) - 48)%Z (S count) s'
      else (acc, count, s)
  | EmptyString => (acc, count, s)
  end.

Definition startsWith (c : ascii) (s : string) : bool :=
  match s with
  | String c' _ => Ascii.eqb c' c
  | EmptyString => false
  end.

(** An integer literal; a fraction or an exponent is not accepted. *)
Definition parseNumber (s : string) : option (value * string) :=
  let negative := startsWith "-" s in
  let s1 := if negative then dropUnits 1 s else s in
  let '(n, count, rest) := takeDigits 0 0 s1 in
  if (count =? 0)%nat then None
  else if startsWith "0" s1 && (1 <? count)%nat then None
  else if startsWith "." rest || startsWith "e" rest || startsWith "E" rest then None
  else Some (VNum (if negative then - n else n), rest).

Definition hexValue (c : ascii) : option N :=
  let n := JsString.code c in
  if isDigit c then Some (n - 48)%N
  else if ((97 <=? n) && (n <=? 102))%N then Some (n - 87)%N
  else if ((65 <=? n) && (n <=? 70))%N then Some (n - 55)%N
  else None.

Definition unescape (c : ascii) : option ascii :=
  if Ascii.eqb c dquote then Some dquote
  else if Ascii.eqb c bs then Some bs
  else if Ascii.eqb c "/" then Some "/"%char
  else if Ascii.eqb c "b" then Some (ascii_of_N 8)
  else if Ascii.eqb c "f" then Some (ascii_of_N 12)
  else if Ascii.eqb c "n" then Some (ascii_of_N 10)
  else if Ascii.eqb c "r" then Some (ascii_of_N 13)
  else if Ascii.eqb c "t" then Some (ascii_of_N 9)
  else None.

(** The rest of a string literal after its opening quote. *)
Fixpoint parseUnits (s : string) : option (string * string) :=
  match s with
  | EmptyString => None
  | String c s' =>
      if Ascii.eqb c dquote then Some (EmptyString, s')
      else if Ascii.eqb c bs then
        match s' with
        | String "u" (String "0" (String "0" (String h1 (String h2 s'')))) =>
            match hexValue h1, hexValue h2, parseUnits s'' with
            | Some a, Some b, Some (str, rest) =>
                Some (String (ascii_of_N (16 * a + b)) str, rest)
            | _, _, _ => None
            end
        | String e s'' =>
            match unescape e, parseUnits s'' with
            | Some c', Some (str, rest) => Some (String c' str, rest)
            | _, _ => None
            end
        | EmptyString => None
        end
      else if (JsString.code c <? 32)%N then None
      else
        match parseUnits s' with
        | Some (str, rest) => Some (String c str, rest)
        | None => None
        end
  end.

Fixpoint removeField (k : string) (fields : list (string * value))
    : list (string * value) :=
  match fields with
  | [] => []
  | (k', v) :: rest =>
      if String.eqb k' k then removeField k rest else (k', v) :: removeField k rest
  end.

Fixpoint parseValue (fuel : nat) (s : string) : option (value * string) :=
    match fuel with
    | O => None
    | S fuel' =>
        if JsString.startsWith s "null" then Some (VNull, dropUnits 4 s)
        else if JsString.startsWith s "true" then Some (VBool true, dropUnits 4 s)
        else if JsString.startsWith s "false" then Some (VBool false, dropUnits 5 s)
        else
          match s with
          | EmptyString => None
          | String c s' =>
              if Ascii.eqb c dquote then
                match parseUnits s' with
                | Some (str, rest) => Some (VStr str, rest)
                | None => None
                end
              else if Ascii.eqb c "[" then
                let s1 := skipSpace s' in
                if startsWith "]" s1 then Some (VArr [], dropUnits 1 s1)
                else
                  match parseElements fuel' s1 with
                  | Some (l, rest) => Some (VArr l, rest)
                  | None => None
                  end
              else if Ascii.eqb c "{" then
                let s1 := skipSpace s' in
                if startsWith "}" s1 then Some (VObj [], dropUnits 1 s1)
                else
                  match parseMembers fuel' s1 with
                  | Some (fs, rest) => Some (VObj fs, rest)
                  | None => None
                  end
              else parseNumber s
          end
    end
  with parseElements (fuel : nat) (s : string) : option (list value * string) :=
    match fuel with
    | O => None
    | S fuel' =>
        match parseValue fuel' s with
        | Some (v, rest) =>
            let rest := skipSpace rest in
            if startsWith "," rest then
              match parseElements fuel' (skipSpace (dropUnits 1 rest)) with
              | Some (l, rest') => Some (v :: l, rest')
              | None => None
              end
            else if startsWith "]" rest then Some ([v], dropUnits 1 rest)
            else None
        | None => None
        end
    end
  with parseMembers (fuel : nat) (s : string) : option (list (string * value) * string) :=
    match fuel with
    | O => None
    | S fuel' =>
        if startsWith dquote s then
          match parseUnits (dropUnits 1 s) with
          | Some (k, rest) =>
              let rest := skipSpace rest in
              if startsWith ":" rest then
                match parseValue fuel' (skipSpace (dropUnits 1 rest)) with
                | Some (v, rest) =>
                    let rest := skipSpace rest in
                    if startsWith "," rest then
                      match parseMembers fuel' (skipSpace (dropUnits 1 rest)) with
                      | Some (fs, rest') =>
                          (* a repeated key keeps its first place and
                             its last value *)
                          Some (match Js.lookupField k fs with
                                | Some v' => (k, v') :: removeField k fs
                                | None => (k, v) :: fs
                                end, rest')
                      | None => None
                      end
                    else if startsWith "}" rest then Some ([(k, v)], dropUnits 1 rest)
                    else None
                | None => None
                end
              else None
          | None => None
          end
        else None
    end.

Definition parse (text : string) : Result value :=
  match parseValue (2 * String.length text + 2) (skipSpace text) with
  | Some (v, rest) =>
      match skipSpace rest with
      | EmptyString => Return v
      | _ => Throw SyntaxError
      end
  | None => Throw SyntaxError
  end.

(** ToString of a value or of [undefined]. *)
Fixpoint toString (v : value) : string :=
  match v with
  | VNull => "null"
  | VBool true => "true"
  | VBool false => "false"
  | VNum n => decimal n
  | VStr s => s
  | VArr l =>
      (fix join (l : list value) : string :=
         match l with
         | [] => ""
         | x :: rest =>
             let here := match x with VNull => "" | _ => toString x end in
             match rest with
             | [] => here
             | _ => here +:+ "," +:+ join rest
             end
         end) l
  | VObj _ => "[object Object]"
  end.

Definition toStringU (x : option value) : string :=
  match x with
  | None => "undefined"
  | Some v => toString v
  end.

(** Two, three or four digits starting at position [i]. *)
Definition field (i len : nat) (s : string) : option Z :=
  let part := String.substring i len s in
  if JsString.allChars isDigit part && (String.length part =? len)%nat
  then let '(n, _, _) := takeDigits 0 0 part in Some n
  else None.

Definition daysFromCivil (y m d : Z) : Z :=
  let y' := if (m <=? 2)%Z then (y - 1)%Z else y in
  let era := (y' / 400)%Z in
  let yoe := (y' - era * 400)%Z in
  let mp := ((m + 9) mod 12)%Z in
  let doy := ((153 * mp + 2) / 5 + d - 1)%Z in
  let doe := (yoe * 365 + yoe / 4 - yoe / 100 + doy)%Z in
  (era * 146097 + doe - 719468)%Z.

Definition daysInMonth (y m : Z) : Z :=
  if (m =? 2)%Z then
    if ((y mod 4 =? 0) && (negb (y mod 100 =? 0) || (y mod 400 =? 0)))%Z then 29%Z else 28%Z
  else if ((m =? 4) || (m =? 6) || (m =? 9) || (m =? 11))%Z then 30%Z else 31%Z.

Definition separator (i : nat) (c : ascii) (s : string) : bool :=
  match String.get i s with
  | Some c' => Ascii.eqb c' c
  | None => false
  end.

(** The time value of a text of the form [YYYY-MM-DDTHH:mm:ss.sssZ]. *)
Definition isoTime (s : string) : option Z :=
  if (String.length s =? 24)%nat
     && separator 4 "-" s && separator 7 "-" s && separator 10 "T" s
     && separator 13 ":" s && separator 16 ":" s && separator 19 "." s
     && separator 23 "Z" s
  then
    match field 0 4 s, field 5 2 s, field 8 2 s, field 11 2 s, field 14 2 s,
          field 17 2 s, field 20 3 s with
    | Some y, Some mo, Some d, Some h, Some mi, Some sec, Some ms =>
        if ((1 <=? mo) && (mo <=? 12) && (1 <=? d) && (d <=? daysInMonth y mo)
            && (h <=? 23) && (mi <=? 59) && (sec <=? 59))%Z
        then Some ((((daysFromCivil y mo d * 24 + h) * 60 + mi) * 60 + sec) * 1000 + ms)%Z
        else None
    | _, _, _, _, _, _, _ => None
    end
  else None.

Definition timeValue (x : option value) : option Z :=
  match x with
  | Some (VStr s) => isoTime s
  | Some (VNum n) => Some n
  | _ => None
  end.

(** The reference locale writes a date as the text it was built from. *)
Definition toLocaleString (x : option value) : string := toStringU x.

(** The reference engine sorts as V8 sorts an array of fewer than 64
    elements (longer arrays are sorted the same way here, where V8 merges
    runs).  A comparison that is NaN counts as +0. *)
Definition order (cmp : value -> value -> option Z) (x y : value) : Z :=
  match cmp x y with
  | Some n => n
  | None => 0%Z
  end.

(** The run at the start of the array: from the second element on, as
    long as each element is below the one before (a descending run) or
    not below it (an ascending one).  [run] holds the run so far, last
    element first; the result is the run, in that order, and the
    elements after it. *)
Fixpoint runFrom (cmp : value -> value -> option Z) (descending : bool)
    (previous : value) (run rest : list value) : list value * list value :=
  match rest with
  | [] => (run, [])
  | current :: rest' =>
      let o := order cmp current previous in
      if (if descending then (0 <=? o)%Z else (o <? 0)%Z)
      then (run, rest)
      else runFrom cmp descending current (current :: run) rest'
  end.

(** The binary search of the insertion point of [pivot] in [sorted],
    between [left] and [right]. *)
Fixpoint insertionPoint (fuel : nat) (cmp : value -> value -> option Z)
    (pivot : value) (sorted : list value) (left right : nat) : nat :=
  match fuel with
  | O => left
  | S fuel' =>
      if (left <? right)%nat then
        let mid := (left + (right - left) / 2)%nat in
        match List.nth_error sorted mid with
        | Some x =>
            if (order cmp pivot x <? 0)%Z
            then insertionPoint fuel' cmp pivot sorted left mid
            else insertionPoint fuel' cmp pivot sorted (S mid) right
        | None => left
        end
      else left
  end.

Definition insertPivot (cmp : value -> value -> option Z) (sorted : list value)
    (pivot : value) : list value :=
  let k := insertionPoint (length sorted) cmp pivot sorted 0 (length sorted) in
  (List.firstn k sorted ++ pivot :: List.skipn k sorted)%list.

(** The run at the start, reversed when it is descending, then the
    other elements inserted one by one. *)
Definition engineSort (cmp : value -> value -> option Z) (l : list value)
    : list value :=
  match l with
  | a0 :: a1 :: rest =>
      let descending := (order cmp a1 a0 <? 0)%Z in
      let (run, others) := runFrom cmp descending a1 [a1; a0] rest in
      List.fold_left (insertPivot cmp) others
        (if descending then run else List.rev run)
  | _ => l
  end.

(** The reference engine only moves the elements. *)
Definition runFrom_permutes (cmp : value -> value -> option Z) (descending : bool)
    (rest : list value) :
  forall previous run,
    Permutation (fst (runFrom cmp descending previous run rest)
                   ++ snd (runFrom cmp descending previous run rest))%list
                (run ++ rest)%list.
Proof.
  induction rest as [|current rest IH]; intros previous run; cbn [runFrom].
  - apply Permutation_refl.
  - destruct (if descending then _ else _); [apply Permutation_refl |].
    eapply Permutation_trans; [apply IH |].
    cbn [List.app]. apply Permutation_middle.
Qed.

Definition insertPivot_permutes (cmp : value -> value -> option Z)
    (sorted : list value) (pivot : value) :
  Permutation (insertPivot cmp sorted pivot) (pivot :: sorted).
Proof.
  unfold insertPivot. apply Permutation_sym.
  eapply Permutation_trans; [| apply Permutation_middle].
  now rewrite List.firstn_skipn.
Qed.

Definition insertAll_permutes (cmp : value -> value -> option Z) (others : list value) :
  forall sorted,
    Permutation (List.fold_left (insertPivot cmp) others sorted)
                (sorted ++ others)%list.
Proof.
  induction others as [|pivot others IH]; intros sorted; cbn [List.fold_left].
  - rewrite List.app_nil_r. apply Permutation_refl.
  - eapply Permutation_trans; [apply IH |].
    eapply Permutation_trans;
      [apply Permutation_app_tail, insertPivot_permutes |].
    cbn [List.app]. apply Permutation_middle.
Qed.

Definition engineSort_permutes (cmp : value -> value -> option Z) (l : list value) :
  Permutation (engineSort cmp l) l.
Proof.
  destruct l as [|a0 [|a1 rest]]; try apply Permutation_refl.
  unfold engineSort.
  pose proof (runFrom_permutes cmp (order cmp a1 a0 <? 0)%Z rest a1 [a1; a0]) as Hrun.
  destruct (runFrom cmp (order cmp a1 a0 <? 0)%Z a1 [a1; a0] rest) as [run others].
  cbn [fst snd] in Hrun.
  eapply Permutation_trans; [apply insertAll_permutes |].
  eapply Permutation_trans;
    [apply Permutation_app_tail;
     instantiate (1 := run);
     destruct (order cmp a1 a0 <? 0)%Z;
     [apply Permutation_refl | apply Permutation_sym, Permutation_rev] |].
  eapply Permutation_trans; [exact Hrun |].
  cbn [List.app]. apply perm_swap.
Qed.

#[export] Instance platform : Platform :=
  {| JSON_parse := parse;
     JSON_stringify := stringify;
     ToString := toStringU;
     ToString_string := fun s => eq_refl;
     Date_time := timeValue;
     Date_toLocaleString := toLocaleString;
     Array_sort_engine := engineSort;
     Array_sort_engine_permutes := engineSort_permutes |}.

(** A store that holds [m] and accepts every read and write. *)
Definition working (m : gmap string string) : localStorage :=
  {| entries := m; getFails := false; setFails := fun _ _ => false |}.

(** A store that holds [m], can be read, and refuses every write. *)
Definition readOnly (m : gmap string string) : localStorage :=
  {| entries := m; getFails := false; setFails := fun _ _ => true |}.

(** A store that cannot be accessed at all. *)
Definition denied : localStorage :=
  {| entries := ∅; getFails := true; setFails := fun _ _ => true |}.

End Reference.

(** ** The specification's wording

Definitions written after the specification's sentences, to be compared
with the scripts. *)
Module Spec.

(** "nonspace": any code unit that is not white space. *)
Definition nonspace (c : ascii) : bool := negb (JsString.isWhiteSpace c).

(** The pattern [nonspace+@nonspace+.nonspace+]. *)
Definition statedEmailPattern : Regex.regex :=
  Regex.Cat (Regex.Plus (Regex.Class nonspace))
    (Regex.Cat (Regex.Chr "@")
      (Regex.Cat (Regex.Plus (Regex.Class nonspace))
        (Regex.Cat (Regex.Chr ".")
          (Regex.Plus (Regex.Class nonspace))))).

(** What follows the ['&'] of the five entities. *)
Definition entityTails : list string := ["amp;"; "lt;"; "gt;"; "quot;"; "#39;"].

Definition startsEntity (s : string) : bool :=
  List.existsb (fun tail => JsString.startsWith s tail) entityTails.

(** The four code units that must not reach the markup. *)
Definition forbidden (c : ascii) : bool :=
  Ascii.eqb c "<" || Ascii.eqb c ">" || Ascii.eqb c dquote || Ascii.eqb c squote.

(** The five replacements of [escapeHtml], in its order, on a string. *)
Definition passes (s : string) : string :=
  JsString.replaceAll squote "&#39;"
    (JsString.replaceAll dquote "&quot;"
      (JsString.replaceAll ">" "&gt;"
        (JsString.replaceAll "<" "&lt;"
          (JsString.replaceAll "&" "&amp;" s)))).

(** No forbidden code unit, and every ['&'] starts an entity. *)
Fixpoint wellEscaped (s : string) : bool :=
  match s with
  | EmptyString => true
  | String c s' =>
      negb (forbidden c)
      && (if Ascii.eqb c "&" then startsEntity s' else true)
      && wellEscaped s'
  end.

(** The three filter modes. *)
Inductive FilterMode : Type := All | Active | Completed.

Definition modeName (m : FilterMode) : string :=
  match m with
  | All => "all"
  | Active => "active"
  | Completed => "completed"
  end.

(** Step 1: keep items per the completion-state filter mode. *)
Definition keptByMode (m : FilterMode) (t : Todo.TodoItem) : bool :=
  match m with
  | All => true
  | Active => negb (Todo.todo_completed t)
  | Completed => Todo.todo_completed t
  end.

(** [text] contains [q] as a substring, letter case aside. *)
Definition containsCI (text q : string) : Prop :=
  exists pre post,
    JsString.toLowerCase text = pre +:+ JsString.toLowerCase q +:+ post.

Definition containsCIb (text q : string) : bool :=
  JsString.includes (JsString.toLowerCase text) (JsString.toLowerCase q).

(** Step 2: if the query is non-empty after trimming, keep only the
    items whose text contains the trimmed query. *)
Definition keptByQuery (query : string) (t : Todo.TodoItem) : bool :=
  let q := JsString.trim query in
  if JsString.nonEmpty q then containsCIb (Todo.todo_text t) q else true.

Section Derive.
Context {P : Platform}.

(** The creation timestamp of an item, when its text is a date. *)
Definition createdTime (t : Todo.TodoItem) : option Z :=
  Date_time (Some (VStr (Todo.todo_createdAt t))).

(** [a] may stand in front of [b]: it is not older. *)
Definition notOlder (a b : Todo.TodoItem) : bool :=
  match createdTime a, createdTime b with
  | Some ta, Some tb => (tb <=? ta)%Z
  | _, _ => true
  end.

Fixpoint insertNewest (x : Todo.TodoItem) (sorted : list Todo.TodoItem)
    : list Todo.TodoItem :=
  match sorted with
  | [] => [x]
  | y :: rest => if notOlder x y then x :: y :: rest else y :: insertNewest x rest
  end.

(** Step 3: sort by creation timestamp descending. *)
Definition sortNewest (l : list Todo.TodoItem) : list Todo.TodoItem :=
  List.fold_right insertNewest [] l.

(** Steps 1 and 2. *)
Definition survivors (items : list Todo.TodoItem) (m : FilterMode) (query : string)
    : list Todo.TodoItem :=
  List.filter (keptByQuery query) (List.filter (keptByMode m) items).

(** [derive(allItems, filterMode, query)] *)
Definition derive (items : list Todo.TodoItem) (m : FilterMode) (query : string)
    : list Todo.TodoItem :=
  sortNewest (survivors items m query).

(** Both items carry a date and [b] was not created after [a]. *)
Definition notAfter (a b : Todo.TodoItem) : Prop :=
  exists ta tb,
    createdTime a = Some ta /\ createdTime b = Some tb /\ (tb <= ta)%Z.

(** Newest first: every item is followed only by items that were not
    created after it. *)
Definition newestFirst (l : list Todo.TodoItem) : Prop :=
  StronglySorted notAfter l.

(** [t] was created at the instant [z]. *)
Definition createdAtInstant (z : Z) (t : Todo.TodoItem) : bool :=
  match createdTime t with
  | Some z' => (z' =? z)%Z
  | None => false
  end.

Definition hasDate (t : Todo.TodoItem) : Prop :=
  exists z, createdTime t = Some z.

(** "The persisted state": the list the text stored under [key]
    denotes, the empty list when the store cannot be read, holds no text
    under the key, or holds a text that does not parse (the empty text
    is no JSON text). *)
Definition persisted (key : string) (ls : localStorage) : value :=
  if getFails ls then VArr []
  else match entries ls !! key with
       | None | Some EmptyString => VArr []
       | Some text => match JSON_parse text with
                      | Return v => v
                      | Throw _ => VArr []
                      end
       end.

End Derive.
End Spec.

(** ** The scripts on lists of entities

What the scripts compute when the in-memory value is an array of
entities, written on the entities themselves. *)
Module OnEntities.
Section OnEntities.
Context {P : Platform}.

(** The row shown for an item. *)
Definition rowOf (t : Todo.TodoItem) : Todo.TodoRow :=
  {| Todo.row_id := Todo.todo_id t;
     Todo.row_checked := Todo.todo_completed t;
     Todo.row_text := escapeHtml (Some (VStr (Todo.todo_text t)));
     Todo.row_date := formatDate (Some (VStr (Todo.todo_createdAt t))) |}.

(** The row shown for a message. *)
Definition messageRowOf (m : Contact.ContactMessage) : Contact.MessageRow :=
  {| Contact.row_id := Contact.msg_id m;
     Contact.row_from := escapeHtml (Some (VStr (Contact.msg_name m)));
     Contact.row_email := escapeHtml (Some (VStr (Contact.msg_email m)));
     Contact.row_sent := formatDate (Some (VNum (Contact.msg_sentAt m)));
     Contact.row_body := escapeHtml (Some (VStr (Contact.msg_message m))) |}.

(** Every item carries a creation date. *)
Definition allDated (l : list Todo.TodoItem) : bool :=
  List.forallb (fun t => match Spec.createdTime t with
                         | Some _ => true
                         | None => false
                         end) l.

(** [results.sort((a,b) => new Date(b.createdAt) - new Date(a.createdAt))]
    on a list of items: newest first, items of one instant in their old
    order, when every item carries a date; otherwise a comparison gives
    NaN and the order is the engine's. *)
Definition sortedByScript (l : list Todo.TodoItem) : list Todo.TodoItem :=
  if allDated l then Spec.sortNewest l
  else List.map Todo.itemOf
         (Array_sort_engine (Js.verdict Todo.compareCreatedAt)
            (List.map Todo.todo_value l)).

(** The statements of [applyFiltersAndSearch] up to the call of
  [renderTodoList], on a list of items. *)
Definition scriptResults (copy : Todo.Copy) (filter query : string)
    (l : list Todo.TodoItem) : list Todo.TodoItem :=
  let q := JsString.toLowerCase (JsString.trim query) in
  let r1 := if String.eqb filter "active"
            then List.filter (fun t => negb (Todo.todo_completed t)) l
            else if String.eqb filter "completed"
                 then List.filter Todo.todo_completed l
                 else l in
  let r2 := if (0 <? String.length q)%nat
            then List.filter
                   (fun t => JsString.includes (JsString.toLowerCase (Todo.todo_text t)) q) r1
            else r1 in
  match copy with
  | Todo.SortingCopy => sortedByScript r2
  | Todo.SearchCopy => r2
  end.

(** [todos.find(x => x.id === id)] then [t.completed = b], on a list of
    items: the first item with the identifier gets the flag. *)
Fixpoint toggleItems (id : string) (b : bool) (l : list Todo.TodoItem)
    : option (list Todo.TodoItem) :=
  match l with
  | [] => None
  | t :: rest =>
      if String.eqb (Todo.todo_id t) id
      then Some ({| Todo.todo_id := Todo.todo_id t;
                    Todo.todo_text := Todo.todo_text t;
                    Todo.todo_completed := b;
                    Todo.todo_createdAt := Todo.todo_createdAt t |} :: rest)
      else match toggleItems id b rest with
           | Some rest' => Some (t :: rest')
           | None => None
           end
  end.

(** The data invariant of a stored message: the three texts are trimmed,
    the name has 2 code units or more, the email matches the pattern, the
    message has 10 or more. *)
Definition wellFormedMessage (m : Contact.ContactMessage) : Prop :=
  JsString.trim (Contact.msg_name m) = Contact.msg_name m
  /\ JsString.trim (Contact.msg_email m) = Contact.msg_email m
  /\ JsString.trim (Contact.msg_message m) = Contact.msg_message m
  /\ (2 <= String.length (Contact.msg_name m))%nat
  /\ Regex.test Contact.re (Contact.msg_email m) = true
  /\ (10 <= String.length (Contact.msg_message m))%nat.

(** The data invariant of a todo item at its creation: a trimmed text of
    3 code units or more, not completed. *)
Definition wellFormedTodo (t : Todo.TodoItem) : Prop :=
  JsString.trim (Todo.todo_text t) = Todo.todo_text t
  /\ (3 <= String.length (Todo.todo_text t))%nat.

(** What the todo state [st'] is after a handler, started in [st], has
    saved the list [l'] and rendered: the list, the store with the text
    under the key, the rows of the items [scriptResults] derives from
    the list, in its order, the counter over the whole list; the filter,
    the query and the search field are as before. *)
Definition savedAndShown (copy : Todo.Copy) (st st' : Todo.App)
    (l' : list Todo.TodoItem) : Prop :=
  Todo.todos st' = Todo.todoArray l'
  /\ Todo.storage st'
     = {| entries := <[Todo.STORAGE_KEY := JSON_stringify (Todo.todoArray l')]>
                       (entries (Todo.storage st));
          getFails := getFails (Todo.storage st);
          setFails := setFails (Todo.storage st) |}
  /\ Todo.listView st'
     = List.map rowOf
         (scriptResults copy (Todo.currentFilter st) (Todo.currentQuery st) l')
  /\ Todo.counter st' = (length l', length (List.filter Todo.todo_completed l'))
  /\ Todo.currentFilter st' = Todo.currentFilter st
  /\ Todo.currentQuery st' = Todo.currentQuery st
  /\ Todo.searchInput st' = Todo.searchInput st.

(** The list in memory is an array of well-formed messages and the store
    accepts every write. *)
Definition contactKept (pg : Contact.Page) : Prop :=
  (exists l, Contact.messages pg = Contact.messageArray l
             /\ Forall wellFormedMessage l)
  /\ forall k v, setFails (Contact.storage pg) k v = false.

(** The list in memory is an array of well-formed todo items and the
    store accepts every write. *)
Definition todoKept (st : Todo.App) : Prop :=
  (exists l, Todo.todos st = Todo.todoArray l /\ Forall wellFormedTodo l)
  /\ forall k v, setFails (Todo.storage st) k v = false.

(** The platform gives [v] back from its own text, which is not empty. *)
Definition roundTrips (v : value) : Prop :=
  JsString.nonEmpty (JSON_stringify v) = true
  /\ JSON_parse (JSON_stringify v) = Return v.

(** The store can be read and loading from it returns the value in
    memory: a reload of the page would start from the same list. *)
Definition todoInSync (st : Todo.App) : Prop :=
  getFails (Todo.storage st) = false
  /\ Todo.loadTodos (Todo.storage st) = Return (Todo.todos st).

Definition contactInSync (pg : Contact.Page) : Prop :=
  getFails (Contact.storage pg) = false
  /\ Contact.loadMessages (Contact.storage pg) = Return (Contact.messages pg).

End OnEntities.
End OnEntities.

(** ** Concrete states

The inputs on which the closed examples of Part II run the scripts. *)
Module Examples.

Definition older : Todo.TodoItem :=
  {| Todo.todo_id := "id-1"; Todo.todo_text := "Buy Milk";
     Todo.todo_completed := true;
     Todo.todo_createdAt := "2024-01-15T10:30:00.000Z" |}.

Definition newer : Todo.TodoItem :=
  {| Todo.todo_id := "id-2"; Todo.todo_text := "Write report";
     Todo.todo_completed := false;
     Todo.todo_createdAt := "2024-01-16T09:00:00.000Z" |}.

Definition newest : Todo.TodoItem :=
  {| Todo.todo_id := "id-3"; Todo.todo_text := "Call home";
     Todo.todo_completed := false;
     Todo.todo_createdAt := "2024-01-17T08:00:00.000Z" |}.

(** An item whose [createdAt] is not the text of a date. *)
Definition undated : Todo.TodoItem :=
  {| Todo.todo_id := "id-0"; Todo.todo_text := "Old import";
     Todo.todo_completed := false;
     Todo.todo_createdAt := "garbage" |}.

(** A todo list holding [items], with [input] typed into the form, over
  the store [ls]. *)
Definition app (items : list Todo.TodoItem) (input : string) (ls : localStorage)
    : Todo.App :=
  {| Todo.todos := Todo.todoArray items; Todo.currentFilter := "all";
     Todo.currentQuery := ""; Todo.todoInput := input; Todo.searchInput := "";
     Todo.submitMsg := noBanner; Todo.listView := []; Todo.counter := (0, 0)%nat;
     Todo.storage := ls |}.

(** The entries of a store in which [items] were saved. *)
Definition savedTodos (items : list Todo.TodoItem) : gmap string string :=
  <[Todo.STORAGE_KEY := Reference.stringify (Todo.todoArray items)]> ∅.

Definition hello : Contact.ContactMessage :=
  {| Contact.msg_id := "id-7"; Contact.msg_name := "Bo";
     Contact.msg_email := "bo@x.org"; Contact.msg_message := "An earlier message";
     Contact.msg_sentAt := 1705314600000 |}.

(** A contact page holding [msgs], with the three fields filled in, over
  the store [ls]; the form's default values are empty. *)
Definition page (msgs : list Contact.ContactMessage) (name email message : string)
    (ls : localStorage) : Contact.Page :=
  {| Contact.messages := Contact.messageArray msgs;
     Contact.nameInput := name; Contact.emailInput := email;
     Contact.messageInput := message;
     Contact.nameError := ""; Contact.emailError := ""; Contact.messageError := "";
     Contact.defaultName := ""; Contact.defaultEmail := ""; Contact.defaultMessage := "";
     Contact.submitDisabled := false; Contact.focused := None;
     Contact.submitMessage := noBanner; Contact.listView := [];
     Contact.storage := ls |}.

Definition savedMessages (msgs : list Contact.ContactMessage) : gmap string string :=
  <[Contact.STORAGE_KEY := Reference.stringify (Contact.messageArray msgs)]> ∅.

End Examples.

(* ================================================================== *)
(** * Part II: properties                                              *)
(* ================================================================== *)

#[local] Arguments String.append !_ _ / : simpl nomatch.

(** ** The scripts on concrete inputs *)

Example trim_strips_both_ends : JsString.trim "  a b  " = "a b".
Proof. reflexivity. Qed.

Example lower_case_latin1 : JsString.toLowerCase "HeLLo" = "hello".
Proof. reflexivity. Qed.

Example includes_empty_query : JsString.includes "abc" "" = true.
Proof. reflexivity. Qed.

Example name_too_short :
  Contact.validateName " A " =
  {| Contact.valid := false;
     Contact.message := "Name must have at least 2 characters." |}.
Proof. reflexivity. Qed.

Example email_accepted : Contact.valid (Contact.validateEmail " a@b.co ") = true.
Proof. reflexivity. Qed.

Example email_inner_space_rejected :
  Contact.valid (Contact.validateEmail "a b@c.d") = false.
Proof. reflexivity. Qed.

Example email_without_dot_rejected :
  Contact.valid (Contact.validateEmail "a@b") = false.
Proof. reflexivity. Qed.

Example escape_markup :
  escapeHtml (P := Reference.platform) (Some (VStr "<a href='x'>Tom & Co</a>"))
  = "&lt;a href=&#39;x&#39;&gt;Tom &amp; Co&lt;/a&gt;".
Proof. reflexivity. Qed.

Example escape_twice_escapes_again :
  escapeHtml (P := Reference.platform) (Some (VStr "&amp;")) = "&amp;amp;".
Proof. reflexivity. Qed.

Example iso_time_of_readme_date :
  Reference.isoTime "2024-01-15T10:30:00.000Z" = Some 1705314600000%Z.
Proof. vm_compute. reflexivity. Qed.

Example stored_list_parses_back :
  Reference.parse
    (Reference.stringify (Todo.todoArray [Examples.newer; Examples.older]))
  = Return (Todo.todoArray [Examples.newer; Examples.older]).
Proof. vm_compute. reflexivity. Qed.

Example submit_prepends_and_saves :
  match Todo.onSubmit (P := Reference.platform) Todo.SearchCopy
          "id-3" "2024-01-17T08:00:00.000Z"
          (Examples.app [Examples.newer; Examples.older] " Call Ann "
             (Reference.working ∅)) with
  | Todo.Done st =>
      Todo.todos st
      = Todo.todoArray
          [ {| Todo.todo_id := "id-3"; Todo.todo_text := "Call Ann";
               Todo.todo_completed := false;
               Todo.todo_createdAt := "2024-01-17T08:00:00.000Z" |};
            Examples.newer; Examples.older ]
      /\ Todo.todoInput st = ""
      /\ Todo.counter st = (3, 1)%nat
      /\ Todo.loadTodos (P := Reference.platform) (Todo.storage st)
         = Return (Todo.todos st)
  | Todo.Uncaught _ _ => False
  end.
Proof. vm_compute. repeat split; reflexivity. Qed.

Example toggle_then_active_hides :
  match Todo.onListClick (P := Reference.platform) Todo.SearchCopy
          (Todo.OnToggle (Some "id-2") true)
          (Todo.set_currentFilter "active"
             (Examples.app [Examples.newer; Examples.older] ""
                (Reference.working ∅))) with
  | Todo.Done st => Todo.listView st = [] /\ Todo.counter st = (2, 2)%nat
  | Todo.Uncaught _ _ => False
  end.
Proof. vm_compute. split; reflexivity. Qed.


(** ** Facts about strings *)
Section StringFacts.

Lemma append_nil_r (s : string) : s +:+ "" = s.
Proof. induction s as [|c s IH]; simpl; [reflexivity | now rewrite IH]. Qed.

Lemma append_assoc (s1 s2 s3 : string) : (s1 +:+ s2) +:+ s3 = s1 +:+ (s2 +:+ s3).
Proof. induction s1 as [|c s1 IH]; simpl; [reflexivity | now rewrite IH]. Qed.

Lemma append_eq_nil (s1 s2 : string) : s1 +:+ s2 = "" -> s1 = "" /\ s2 = "".
Proof. destruct s1; simpl; intros H; [auto | discriminate]. Qed.

(** Where a split of [String c s] can fall. *)
Lemma append_eq_cons (s1 s2 : string) (c : ascii) (s : string) :
  s1 +:+ s2 = String c s ->
  (s1 = "" /\ s2 = String c s) \/ (exists s1', s1 = String c s1' /\ s = s1' +:+ s2).
Proof.
  destruct s1 as [|c1 s1]; simpl; intros H.
  - left; auto.
  - right. inversion H; subst. eauto.
Qed.

Lemma length_append (s1 s2 : string) :
  String.length (s1 +:+ s2) = (String.length s1 + String.length s2)%nat.
Proof. induction s1 as [|c s1 IH]; simpl; [reflexivity | now rewrite IH]. Qed.

Lemma prefix_append (q s : string) :
  JsString.startsWith s q = true <-> exists post, s = q +:+ post.
Proof.
  revert s. induction q as [|c q IH]; intros s; simpl.
  - destruct s; split; eauto.
  - destruct s as [|c' s]; [split; [discriminate | intros [post H]; discriminate] |].
    simpl. rewrite andb_true_iff, IH, Ascii.eqb_eq. split.
    + intros [-> [post ->]]. eauto.
    + intros [post H]. inversion H; subst. eauto.
Qed.

(** [includes] finds exactly the contiguous occurrences. *)
Lemma includes_spec (s q : string) :
  JsString.includes s q = true <-> exists pre post, s = pre +:+ q +:+ post.
Proof.
  induction s as [|c s IH]; cbn [JsString.includes].
  - rewrite orb_false_r. rewrite prefix_append. split.
    + intros [post H]. exists "", post. exact H.
    + intros (pre & post & H). symmetry in H.
      apply append_eq_nil in H as [-> H]. exists post. now rewrite H.
  - rewrite orb_true_iff, IH, prefix_append. split.
    + intros [[post H] | (pre & post & H)].
      * exists "", post. exact H.
      * exists (String c pre), post. simpl. now rewrite H.
    + intros (pre & post & H). destruct pre as [|c' pre]; simpl in H.
      * left. eauto.
      * right. inversion H; subst. eauto.
Qed.

Lemma allChars_append (p : ascii -> bool) (s1 s2 : string) :
  JsString.allChars p (s1 +:+ s2) = JsString.allChars p s1 && JsString.allChars p s2.
Proof. induction s1 as [|c s1 IH]; simpl; [reflexivity | now rewrite IH, andb_assoc]. Qed.

Lemma nonEmpty_length (s : string) :
  JsString.nonEmpty s = (0 <? String.length s)%nat.
Proof. destruct s; reflexivity. Qed.

Lemma replaceAll_append (pat : ascii) (rep s1 s2 : string) :
  JsString.replaceAll pat rep (s1 +:+ s2)
  = JsString.replaceAll pat rep s1 +:+ JsString.replaceAll pat rep s2.
Proof.
  induction s1 as [|c s1 IH]; simpl; [reflexivity |].
  destruct (Ascii.eqb c pat); simpl; rewrite IH; [now rewrite append_assoc | reflexivity].
Qed.

End StringFacts.

(** ** The matcher decides the language *)
Section RegexFacts.
Import Regex.

Lemma nullable_Lang (r : regex) : nullable r = true <-> Lang r "".
Proof.
  split.
  - induction r; simpl; intros H; try discriminate.
    + constructor.
    + apply andb_true_iff in H as [H1 H2].
      change "" with ("" +:+ ""). constructor; auto.
    + apply orb_true_iff in H as [H|H]; [apply LAltL | apply LAltR]; auto.
    + constructor.
  - intros H. remember "" as s eqn:Hs.
    induction H; simpl; try discriminate; try reflexivity.
    + apply append_eq_nil in Hs as [-> ->]. now rewrite IHLang1, IHLang2.
    + rewrite IHLang; auto.
    + rewrite IHLang; auto. apply orb_true_r.
Qed.

Lemma deriv_sound (c : ascii) (r : regex) :
  forall s, Lang (deriv c r) s -> Lang r (String c s).
Proof.
  induction r; simpl; intros s H.
  - inversion H.
  - inversion H.
  - destruct (p c) eqn:Hp; inversion H; subst. now constructor.
  - destruct (nullable r1) eqn:Hn.
    + inversion H; subst.
      * match goal with Hc : Lang (Cat _ _) _ |- _ => inversion Hc; subst end.
        change (String c (s1 +:+ s2)) with (String c s1 +:+ s2).
        constructor; auto.
      * change (String c s) with ("" +:+ String c s).
        constructor; [now apply nullable_Lang | auto].
    + inversion H; subst.
      change (String c (s1 +:+ s2)) with (String c s1 +:+ s2).
      constructor; auto.
  - inversion H; subst; [apply LAltL | apply LAltR]; auto.
  - inversion H; subst.
    change (String c (s1 +:+ s2)) with (String c s1 +:+ s2).
    constructor; auto.
Qed.

Lemma deriv_complete (c : ascii) (r : regex) (w : string) :
  Lang r w -> forall s, w = String c s -> Lang (deriv c r) s.
Proof.
  induction 1; intros tl Hw; simpl; try discriminate.
  - inversion Hw; subst. rewrite H. constructor.
  - apply append_eq_cons in Hw as [[-> ->] | (s1' & -> & ->)].
    + assert (Hn : nullable r1 = true) by now apply nullable_Lang.
      rewrite Hn. apply LAltR. auto.
    + destruct (nullable r1); [apply LAltL |]; constructor; auto.
  - apply LAltL; auto.
  - apply LAltR; auto.
  - apply append_eq_cons in Hw as [[-> ->] | (s1' & -> & ->)].
    + apply IHLang2. reflexivity.
    + constructor; auto.
Qed.

Theorem test_Lang (r : regex) (s : string) : test r s = true <-> Lang r s.
Proof.
  revert r. induction s as [|c s IH]; intros r; simpl.
  - apply nullable_Lang.
  - rewrite IH. split; [apply deriv_sound | intros H; eapply deriv_complete; eauto].
Qed.

Lemma Lang_Chr (c : ascii) (s : string) : Lang (Chr c) s <-> s = String c "".
Proof.
  unfold Chr. split.
  - intros H. inversion H; subst.
    match goal with Hc : Ascii.eqb _ _ = true |- _ => apply Ascii.eqb_eq in Hc; now subst end.
  - intros ->. constructor. apply Ascii.eqb_refl.
Qed.

Lemma Lang_Star_Class (p : ascii -> bool) (r : regex) (s : string) :
  Lang r s -> r = Star (Class p) -> JsString.allChars p s = true.
Proof.
  induction 1; intros Hr; try discriminate; [reflexivity |].
  inversion Hr; subst. rewrite allChars_append, IHLang2 by reflexivity.
  match goal with Hc : Lang (Class _) _ |- _ => inversion Hc; subst end.
  simpl. match goal with Hp : p _ = true |- _ => now rewrite Hp end.
Qed.

Lemma Star_Class_Lang (p : ascii -> bool) (s : string) :
  JsString.allChars p s = true -> Lang (Star (Class p)) s.
Proof.
  induction s as [|c s IH]; simpl; intros H; [constructor |].
  apply andb_true_iff in H as [Hc Hs].
  change (String c s) with (String c "" +:+ s).
  constructor; [now constructor | auto].
Qed.

(** [[p]+]: a non-empty string all of whose code units are in the class. *)
Lemma Lang_Plus_Class (p : ascii -> bool) (s : string) :
  Lang (Plus (Class p)) s <-> s <> "" /\ JsString.allChars p s = true.
Proof.
  unfold Plus. split.
  - intros H. inversion H; subst.
    match goal with Hc : Lang (Class _) _ |- _ => inversion Hc; subst end.
    split; [discriminate |]. simpl.
    match goal with Hp : p _ = true |- _ => rewrite Hp end.
    eapply Lang_Star_Class; eauto.
  - intros [Hne H]. destruct s as [|c s]; [congruence |]. simpl in H.
    apply andb_true_iff in H as [Hc Hs].
    change (String c s) with (String c "" +:+ s).
    constructor; [now constructor | now apply Star_Class_Lang].
Qed.

End RegexFacts.

(** ** The email validator *)
Section EmailFacts.
Import Regex.

(** The expression in [validateEmail] accepts exactly the strings
    [l@d.t] whose three parts are non-empty and hold neither white space
    nor [@]. *)
Lemma re_Lang (v : string) :
  Lang Contact.re v <->
  exists l d t,
    v = l +:+ "@" +:+ d +:+ "." +:+ t
    /\ l <> "" /\ d <> "" /\ t <> ""
    /\ JsString.allChars Contact.notSpaceAt l = true
    /\ JsString.allChars Contact.notSpaceAt d = true
    /\ JsString.allChars Contact.notSpaceAt t = true.
Proof.
  unfold Contact.re. split.
  - intros H.
    inversion H as [| |? ? l r1 Hl H1| | | |]; subst; clear H.
    inversion H1 as [| |? ? a r2 Ha H2| | | |]; subst; clear H1.
    inversion H2 as [| |? ? d r3 Hd H3| | | |]; subst; clear H2.
    inversion H3 as [| |? ? b t Hb Ht| | | |]; subst; clear H3.
    apply Lang_Chr in Ha, Hb. subst.
    apply Lang_Plus_Class in Hl as [? ?], Hd as [? ?], Ht as [? ?].
    exists l, d, t. repeat split; auto.
  - intros (l & d & t & -> & Hl & Hd & Ht & Al & Ad & At).
    constructor; [apply Lang_Plus_Class; auto |].
    change ("@" +:+ d +:+ "." +:+ t) with (String "@" "" +:+ (d +:+ "." +:+ t)).
    constructor; [now apply Lang_Chr |].
    constructor; [apply Lang_Plus_Class; auto |].
    change ("." +:+ t) with (String "." "" +:+ t).
    constructor; [now apply Lang_Chr | apply Lang_Plus_Class; auto].
Qed.

Lemma validateEmail_valid (value : string) :
  Contact.valid (Contact.validateEmail value) = true
  <-> Lang Contact.re (JsString.trim value).
Proof.
  unfold Contact.validateEmail.
  destruct (String.length (JsString.trim value) =? 0)%nat eqn:Hlen; simpl.
  - split; [discriminate |]. intros H.
    apply Nat.eqb_eq in Hlen.
    destruct (JsString.trim value); [| discriminate].
    apply nullable_Lang in H. discriminate.
  - destruct (test Contact.re (JsString.trim value)) eqn:Ht; simpl.
    + split; [intros _; now apply test_Lang | reflexivity].
    + split; [discriminate |]. intros H. apply test_Lang in H. congruence.
Qed.

End EmailFacts.

(** C2, as the specification words it, fails: ["a@b@c.d"] is
  [nonspace+@nonspace+.nonspace+] (with [a@b] for the first part) and the
  validator rejects it. *)
Lemma C2_stated_pattern_counterexample :
  ~ (Contact.valid (Contact.validateEmail "a@b@c.d") = true
     <-> Regex.Lang Spec.statedEmailPattern (JsString.trim "a@b@c.d")).
Proof.
  intros [_ H].
  assert (Hm : Regex.Lang Spec.statedEmailPattern (JsString.trim "a@b@c.d"))
    by (apply test_Lang; vm_compute; reflexivity).
  specialize (H Hm). vm_compute in H. discriminate.
Qed.

(** C2, amended: for every raw email input, the validator accepts it if and
  only if the trimmed value is [l@d.t] where [l], [d] and [t] are
  non-empty and contain neither white space nor ['@'] (so the value
  holds exactly one ['@']). *)
Theorem C2_validateEmail_accepts (value : string) :
  Contact.valid (Contact.validateEmail value) = true
  <-> exists l d t,
        JsString.trim value = l +:+ "@" +:+ d +:+ "." +:+ t
        /\ l <> "" /\ d <> "" /\ t <> ""
        /\ JsString.allChars Contact.notSpaceAt l = true
        /\ JsString.allChars Contact.notSpaceAt d = true
        /\ JsString.allChars Contact.notSpaceAt t = true.
Proof. rewrite validateEmail_valid. apply re_Lang. Qed.

(** ** Escaping *)
Section EscapeFacts.
Context {P : Platform}.

Lemma replaceAll_cons_ne (pat c : ascii) (rep s : string) :
  Ascii.eqb c pat = false ->
  JsString.replaceAll pat rep (String c s) = String c (JsString.replaceAll pat rep s).
Proof. intros H. cbn [JsString.replaceAll]. now rewrite H. Qed.

(** The five code units [escapeHtml] rewrites, then any other one. *)
Ltac by_unit c :=
  destruct (Ascii.eqb_spec c "&") as [->|?];
  [| destruct (Ascii.eqb_spec c "<") as [->|?];
     [| destruct (Ascii.eqb_spec c ">") as [->|?];
        [| destruct (Ascii.eqb_spec c dquote) as [->|?];
           [| destruct (Ascii.eqb_spec c squote) as [->|?]]]]];
  repeat match goal with H : _ <> _ |- _ => apply Ascii.eqb_neq in H end.

Lemma passes_cons (c : ascii) (s : string) :
  Spec.passes (String c s) =
  (if Ascii.eqb c "&" then "&amp;"
   else if Ascii.eqb c "<" then "&lt;"
   else if Ascii.eqb c ">" then "&gt;"
   else if Ascii.eqb c dquote then "&quot;"
   else if Ascii.eqb c squote then "&#39;"
   else String c "") +:+ Spec.passes s.
Proof.
  unfold Spec.passes. by_unit c; try reflexivity.
  now rewrite !replaceAll_cons_ne by assumption.
Qed.

Lemma passes_wellEscaped (s : string) : Spec.wellEscaped (Spec.passes s) = true.
Proof.
  induction s as [|c s IH]; [reflexivity |].
  rewrite passes_cons.
  by_unit c; try (simpl; rewrite IH; reflexivity).
  simpl. unfold Spec.forbidden.
  repeat match goal with H : Ascii.eqb c _ = false |- _ => rewrite H; clear H end.
  now rewrite IH.
Qed.

Lemma wellEscaped_at (out pre : string) (c : ascii) (post : string) :
  Spec.wellEscaped out = true -> out = pre +:+ String c post ->
  Spec.forbidden c = false
  /\ (c = "&"%char -> Spec.startsEntity post = true).
Proof.
  revert out. induction pre as [|a pre IH]; intros out Hw ->; simpl in Hw.
  - apply andb_true_iff in Hw as [Hw _]. apply andb_true_iff in Hw as [Hf Ha].
    split; [now apply negb_true_iff |].
    intros ->. exact Ha.
  - apply andb_true_iff in Hw as [_ Hw]. eapply IH; eauto.
Qed.

Lemma startsEntity_tail (post : string) :
  Spec.startsEntity post = true ->
  exists tail rest, In tail Spec.entityTails /\ post = tail +:+ rest.
Proof.
  unfold Spec.startsEntity. rewrite existsb_exists.
  intros (tail & Hin & Hp). apply prefix_append in Hp as [rest ->]. eauto.
Qed.

End EscapeFacts.

(** C9: for every input, the text [escapeHtml] returns holds none of
  ['<'], ['>'], the double quote and the single quote, and each ['&'] in
  it is the start of one of [&amp;], [&lt;], [&gt;], [&quot;], [&#39;]. *)
Theorem C9_escapeHtml_output {P : Platform} (str : option value) :
  forall pre c post,
    escapeHtml str = pre +:+ String c post ->
    c <> "<"%char /\ c <> ">"%char /\ c <> dquote /\ c <> squote
    /\ (c = "&"%char ->
        exists tail rest, In tail Spec.entityTails /\ post = tail +:+ rest).
Proof.
  intros pre c post Hout.
  destruct (wellEscaped_at (escapeHtml str) pre c post) as [Hf Ha];
    [apply (passes_wellEscaped (stringOrEmpty str)) | exact Hout |].
  unfold Spec.forbidden in Hf.
  apply orb_false_iff in Hf as [Hf H4]. apply orb_false_iff in Hf as [Hf H3].
  apply orb_false_iff in Hf as [H1 H2].
  apply Ascii.eqb_neq in H1, H2, H3, H4.
  repeat split; auto.
  intros Hc. apply startsEntity_tail. auto.
Qed.

Lemma C9_escapeHtml_output_witness :
  escapeHtml (P := Reference.platform) (Some (VStr "<b>")) = "" +:+ String "&" "lt;b&gt;"
  /\ ("&"%char <> "<"%char /\ "&"%char <> ">"%char /\ "&"%char <> dquote
      /\ "&"%char <> squote
      /\ ("&"%char = "&"%char ->
          exists tail rest, In tail Spec.entityTails /\ "lt;b&gt;" = tail +:+ rest)).
Proof.
  split; [reflexivity |].
  apply (C9_escapeHtml_output (P := Reference.platform) (Some (VStr "<b>")) "" "&" "lt;b&gt;").
  reflexivity.
Defined.

(** ** The persistence adapter *)
Section AdapterFacts.
Context {P : Platform}.

Lemma loadTodos_total (ls : localStorage) : exists v, Todo.loadTodos ls = Return v.
Proof.
  unfold Todo.loadTodos, getItem.
  destruct (getFails ls); simpl; [eauto |].
  destruct (entries ls !! Todo.STORAGE_KEY) as [text|]; simpl; [| eauto].
  destruct (JsString.nonEmpty text); simpl; [| eauto].
  destruct (JSON_parse text); simpl; eauto.
Qed.

Lemma loadMessages_total (ls : localStorage) : exists v, Contact.loadMessages ls = Return v.
Proof.
  unfold Contact.loadMessages, getItem.
  destruct (getFails ls); simpl; [eauto |].
  destruct (entries ls !! Contact.STORAGE_KEY) as [text|]; simpl; [| eauto].
  destruct (JsString.nonEmpty text); simpl; [| eauto].
  destruct (JSON_parse text); simpl; eauto.
Qed.

(** What [saveTodos] returns, by the outcome of the write. *)
Lemma saveTodos_cases (ls : localStorage) (items : value) :
  (setFails ls Todo.STORAGE_KEY (JSON_stringify items) = true
   /\ Todo.saveTodos ls items = Return (false, ls))
  \/ (setFails ls Todo.STORAGE_KEY (JSON_stringify items) = false
      /\ exists ls', setItem ls Todo.STORAGE_KEY (JSON_stringify items) = Return ls'
                     /\ Todo.saveTodos ls items = Return (true, ls')).
Proof.
  unfold Todo.saveTodos, setItem.
  destruct (setFails ls Todo.STORAGE_KEY (JSON_stringify items)); simpl; eauto.
Qed.

Lemma saveMessages_cases (ls : localStorage) (msgs : value) :
  (setFails ls Contact.STORAGE_KEY (JSON_stringify msgs) = true
   /\ Contact.saveMessages ls msgs = Return (false, ls))
  \/ (setFails ls Contact.STORAGE_KEY (JSON_stringify msgs) = false
      /\ exists ls', setItem ls Contact.STORAGE_KEY (JSON_stringify msgs) = Return ls'
                     /\ Contact.saveMessages ls msgs = Return (true, ls')).
Proof.
  unfold Contact.saveMessages, setItem.
  destruct (setFails ls Contact.STORAGE_KEY (JSON_stringify msgs)); simpl; eauto.
Qed.

(** What [load] returns is the persisted state. *)
Lemma loadTodos_persisted (ls : localStorage) :
  Todo.loadTodos ls = Return (Spec.persisted Todo.STORAGE_KEY ls).
Proof.
  unfold Todo.loadTodos, Spec.persisted, getItem.
  destruct (getFails ls); [reflexivity |]. cbn [bind].
  destruct (entries ls !! Todo.STORAGE_KEY) as [[|c text]|]; try reflexivity.
  cbn [JsString.nonEmpty]. now destruct (JSON_parse (String c text)).
Qed.

Lemma loadMessages_persisted (ls : localStorage) :
  Contact.loadMessages ls = Return (Spec.persisted Contact.STORAGE_KEY ls).
Proof.
  unfold Contact.loadMessages, Spec.persisted, getItem.
  destruct (getFails ls); [reflexivity |]. cbn [bind].
  destruct (entries ls !! Contact.STORAGE_KEY) as [[|c text]|]; try reflexivity.
  cbn [JsString.nonEmpty]. now destruct (JSON_parse (String c text)).
Qed.

(** The persisted state of a readable store that holds the text of [v],
    on a platform that gives [v] back from it. *)
Lemma persisted_saved (key : string) (ls : localStorage) (v : value) :
  getFails ls = false ->
  entries ls !! key = Some (JSON_stringify v) ->
  OnEntities.roundTrips v ->
  Spec.persisted key ls = v.
Proof.
  intros Hg He [Hne Hp]. unfold Spec.persisted. rewrite Hg, He.
  destruct (JSON_stringify v) as [|c text]; [discriminate |]. now rewrite Hp.
Qed.

End AdapterFacts.

(** C3: whatever the store holds, [loadTodos] returns (it never raises),
  and it returns the empty array when reading raises, when the key is
  absent, and when the stored text does not parse; [saveTodos] returns
  (it never raises), with [false] exactly when the write raises and
  [true] exactly when it succeeds, the store then holding the text. *)
Theorem C3_load_and_save {P : Platform} (ls : localStorage) :
  (exists v, Todo.loadTodos ls = Return v)
  /\ (getFails ls = true -> Todo.loadTodos ls = Return (VArr []))
  /\ (getFails ls = false -> entries ls !! Todo.STORAGE_KEY = None ->
      Todo.loadTodos ls = Return (VArr []))
  /\ (forall text e,
        getFails ls = false -> entries ls !! Todo.STORAGE_KEY = Some text ->
        JSON_parse text = Throw e -> Todo.loadTodos ls = Return (VArr []))
  /\ (forall items,
        exists ok ls',
          Todo.saveTodos ls items = Return (ok, ls')
          /\ (ok = false <->
              exists e, setItem ls Todo.STORAGE_KEY (JSON_stringify items) = Throw e)
          /\ (ok = true <->
              setItem ls Todo.STORAGE_KEY (JSON_stringify items) = Return ls')).
Proof.
  split; [apply loadTodos_total |].
  split; [intros Hg; unfold Todo.loadTodos, getItem; now rewrite Hg |].
  split; [intros Hg Hk; unfold Todo.loadTodos, getItem; now rewrite Hg, Hk |].
  split.
  - intros text e Hg Hk Hp. unfold Todo.loadTodos, getItem. rewrite Hg, Hk. simpl.
    destruct (JsString.nonEmpty text); simpl; [now rewrite Hp | reflexivity].
  - intros items.
    destruct (saveTodos_cases ls items) as [[Hf Hs] | [Hf (ls' & Hset & Hs)]].
    + exists false, ls. split; [exact Hs |].
      unfold setItem. rewrite Hf. split; split; eauto; discriminate.
    + exists true, ls'. split; [exact Hs |].
      rewrite Hset. split; split; auto; try discriminate.
      intros [e He]. discriminate.
Qed.

(** C10: when the text stored under the key is not empty and parses,
  [loadTodos] and [loadMessages] return the parsed value as it is; when
  that value is not an array (the texts "5" and "{}" parse to such
  values), what they return is not the empty array. *)
Theorem C10_load_returns_parsed {P : Platform} (ls : localStorage) (text : string)
    (v : value) :
  getFails ls = false ->
  JsString.nonEmpty text = true ->
  JSON_parse text = Return v ->
  (forall l, v <> VArr l) ->
  (entries ls !! Todo.STORAGE_KEY = Some text ->
   Todo.loadTodos ls = Return v /\ Todo.loadTodos ls <> Return (VArr []))
  /\ (entries ls !! Contact.STORAGE_KEY = Some text ->
      Contact.loadMessages ls = Return v /\ Contact.loadMessages ls <> Return (VArr [])).
Proof.
  intros Hg Hne Hp Hv. split; intros Hk.
  - assert (H : Todo.loadTodos ls = Return v).
    { unfold Todo.loadTodos, getItem. rewrite Hg, Hk. simpl. now rewrite Hne, Hp. }
    split; [exact H |]. rewrite H. intros Heq. inversion Heq. eapply Hv; eauto.
  - assert (H : Contact.loadMessages ls = Return v).
    { unfold Contact.loadMessages, getItem. rewrite Hg, Hk. simpl. now rewrite Hne, Hp. }
    split; [exact H |]. rewrite H. intros Heq. inversion Heq. eapply Hv; eauto.
Qed.

Lemma C10_load_returns_parsed_witness :
  let ls := Reference.working
              (<[Todo.STORAGE_KEY := "5"]> (<[Contact.STORAGE_KEY := "5"]> ∅)) in
  (getFails ls = false /\ JsString.nonEmpty "5" = true
   /\ JSON_parse (Platform := Reference.platform) "5" = Return (VNum 5)
   /\ (forall l, VNum 5 <> VArr l))
  /\ ((entries ls !! Todo.STORAGE_KEY = Some "5" ->
       Todo.loadTodos (P := Reference.platform) ls = Return (VNum 5)
       /\ Todo.loadTodos (P := Reference.platform) ls <> Return (VArr []))
      /\ (entries ls !! Contact.STORAGE_KEY = Some "5" ->
          Contact.loadMessages (P := Reference.platform) ls = Return (VNum 5)
          /\ Contact.loadMessages (P := Reference.platform) ls <> Return (VArr []))).
Proof.
  intros ls.
  assert (Hv : forall l, VNum 5 <> VArr l) by (intros l; discriminate).
  split; [split; [reflexivity | split; [reflexivity | split; [reflexivity | exact Hv]]] |].
  apply (C10_load_returns_parsed (P := Reference.platform) ls "5" (VNum 5));
    [reflexivity | reflexivity | reflexivity | exact Hv].
Defined.

Example load_from_denied_store :
  Todo.loadTodos (P := Reference.platform) Reference.denied = Return (VArr [])
  /\ Todo.saveTodos (P := Reference.platform) Reference.denied
       (Todo.todoArray [Examples.newer])
     = Return (false, Reference.denied).
Proof. split; reflexivity. Qed.

Example load_unparsable_text :
  Todo.loadTodos (P := Reference.platform)
    (Reference.working (<[Todo.STORAGE_KEY := "[1,"]> ∅)) = Return (VArr []).
Proof. vm_compute. reflexivity. Qed.

(** Another stored text that parses to something other than an array. *)
Example load_object :
  Todo.loadTodos (P := Reference.platform)
    (Reference.working (<[Todo.STORAGE_KEY := "{}"]> ∅)) = Return (VObj []).
Proof. vm_compute. reflexivity. Qed.

(** ** Arrays of entities *)
Section ListFacts.

Lemma filterM_map {A B : Type} (f : A -> B) (p : B -> Result bool) (q : A -> bool)
    (l : list A) :
  (forall x, In x l -> p (f x) = Return (q x)) ->
  filterM p (List.map f l) = Return (List.map f (List.filter q l)).
Proof.
  induction l as [|x l IH]; intros H; simpl; [reflexivity |].
  rewrite (H x) by (left; reflexivity). simpl.
  rewrite IH by (intros y Hy; apply H; right; exact Hy). simpl.
  destruct (q x); reflexivity.
Qed.

Lemma mapM_map {A B C : Type} (f : A -> B) (g : B -> Result C) (h : A -> C)
    (l : list A) :
  (forall x, g (f x) = Return (h x)) ->
  mapM g (List.map f l) = Return (List.map h l).
Proof.
  intros H. induction l as [|x l IH]; simpl; [reflexivity |].
  now rewrite H, IH.
Qed.

Lemma filter_all {A : Type} (q : A -> bool) (l : list A) :
  (forall x, In x l -> q x = true) -> List.filter q l = l.
Proof.
  induction l as [|x l IH]; intros H; simpl; [reflexivity |].
  rewrite (H x) by (left; reflexivity).
  rewrite IH by (intros y Hy; apply H; right; exact Hy). reflexivity.
Qed.

End ListFacts.

(** ** The todo list on lists of items *)
Section TodoFacts.
Context {P : Platform}.
Variable copy : Todo.Copy.

Lemma idDiffers_item (id : string) (t : Todo.TodoItem) :
  Todo.idDiffers id (Todo.todo_value t) = Return (negb (String.eqb (Todo.todo_id t) id)).
Proof. reflexivity. Qed.

Lemma isCompleted_item (t : Todo.TodoItem) :
  Todo.isCompleted (Todo.todo_value t) = Return (Todo.todo_completed t).
Proof. reflexivity. Qed.

Lemma textIncludes_item (q : string) (t : Todo.TodoItem) :
  Todo.textIncludes q (Todo.todo_value t)
  = Return (JsString.includes (JsString.toLowerCase (Todo.todo_text t)) q).
Proof. reflexivity. Qed.

Lemma renderRow_item (t : Todo.TodoItem) :
  Todo.renderRow (Todo.todo_value t) = Return (OnEntities.rowOf t).
Proof.
  unfold Todo.renderRow, OnEntities.rowOf. simpl. now rewrite ToString_string.
Qed.

(** Deleting by identifier, on a list of items. *)
Lemma remove_items (id : string) (l : list Todo.TodoItem) :
  Js.filter (Todo.todoArray l) (Todo.idDiffers id)
  = Return (Todo.todoArray
              (List.filter (fun t => negb (String.eqb (Todo.todo_id t) id)) l)).
Proof.
  unfold Js.filter, Todo.todoArray.
  rewrite (filterM_map Todo.todo_value (Todo.idDiffers id)
             (fun t => negb (String.eqb (Todo.todo_id t) id))); [reflexivity |].
  intros t _. apply idDiffers_item.
Qed.

Lemma updateCounter_items (st : Todo.App) (l : list Todo.TodoItem) :
  Todo.todos st = Todo.todoArray l ->
  Todo.updateCounter st
  = Todo.Done (Todo.set_counter
                 (length l, length (List.filter Todo.todo_completed l)) st).
Proof.
  intros H. unfold Todo.updateCounter. rewrite H. unfold Todo.todoArray.
  rewrite (filterM_map Todo.todo_value Todo.isCompleted Todo.todo_completed)
    by (intros t _; apply isCompleted_item).
  now rewrite !length_map.
Qed.

Lemma renderTodoList_items (st : Todo.App) (l shown : list Todo.TodoItem) :
  Todo.todos st = Todo.todoArray l ->
  Todo.renderTodoList (Todo.todoArray shown) st
  = Todo.Done (Todo.set_counter
                 (length l, length (List.filter Todo.todo_completed l))
                 (Todo.set_listView (List.map OnEntities.rowOf shown) st)).
Proof.
  intros H. unfold Todo.renderTodoList, Todo.todoArray. simpl.
  destruct shown as [|t shown].
  - simpl. now apply updateCounter_items.
  - change (Todo.todo_value t :: List.map Todo.todo_value shown)
      with (List.map Todo.todo_value (t :: shown)).
    rewrite (mapM_map Todo.todo_value Todo.renderRow OnEntities.rowOf) by apply renderRow_item.
    now apply updateCounter_items.
Qed.

End TodoFacts.

Section DeriveFacts.
Context {P : Platform}.

Lemma compareCreatedAt_items (a b : Todo.TodoItem) :
  Todo.compareCreatedAt (Todo.todo_value a) (Todo.todo_value b)
  = Return (match Spec.createdTime b, Spec.createdTime a with
            | Some tb, Some ta => Some (tb - ta)%Z
            | _, _ => None
            end).
Proof. reflexivity. Qed.

Lemma insertBy_items (x : Todo.TodoItem) (l : list Todo.TodoItem) :
  Js.insertBy Todo.compareCreatedAt (Todo.todo_value x) (List.map Todo.todo_value l)
  = Return (List.map Todo.todo_value (Spec.insertNewest x l)).
Proof.
  induction l as [|y l IH]; [reflexivity |].
  cbn [List.map Js.insertBy Spec.insertNewest].
  unfold Js.sortCompare. rewrite compareCreatedAt_items.
  unfold Spec.notOlder. cbn [bind].
  destruct (Spec.createdTime x) as [ta|], (Spec.createdTime y) as [tb|];
    try reflexivity.
  replace (tb - ta <=? 0)%Z with (tb <=? ta)%Z
    by (destruct (Z.leb_spec tb ta), (Z.leb_spec (tb - ta) 0); lia).
  destruct (tb <=? ta)%Z; [reflexivity |].
  rewrite IH. reflexivity.
Qed.

Lemma sortBy_items (l : list Todo.TodoItem) :
  Js.sortBy Todo.compareCreatedAt (List.map Todo.todo_value l)
  = Return (List.map Todo.todo_value (Spec.sortNewest l)).
Proof.
  induction l as [|x l IH]; [reflexivity |].
  cbn [List.map Js.sortBy]. rewrite IH. cbn [bind].
  apply insertBy_items.
Qed.

Lemma itemOf_value (t : Todo.TodoItem) : Todo.itemOf (Todo.todo_value t) = t.
Proof. now destruct t. Qed.

Lemma itemOf_values (l : list Todo.TodoItem) :
  List.map Todo.itemOf (List.map Todo.todo_value l) = l.
Proof.
  rewrite List.map_map. rewrite <- (List.map_id l) at 2.
  apply List.map_ext. intros t. apply itemOf_value.
Qed.

Lemma verdict_items (a b : Todo.TodoItem) :
  Js.verdict Todo.compareCreatedAt (Todo.todo_value a) (Todo.todo_value b)
  = match Spec.createdTime b, Spec.createdTime a with
    | Some tb, Some ta => Some (tb - ta)%Z
    | _, _ => None
    end.
Proof.
  unfold Js.verdict. rewrite compareCreatedAt_items.
  now destruct (Spec.createdTime b), (Spec.createdTime a).
Qed.

(** A difference of time values is a consistent comparator. *)
Lemma consistent_differences (ta tb tc : Z) :
  ((ta - ta =? 0)
   && implb (tb - ta =? 0) (ta - tb =? 0)
   && implb ((tb - ta =? 0) && (tc - tb =? 0)) (tc - ta =? 0)
   && implb ((tb - ta <? 0) && (tc - tb <? 0)) (tc - ta <? 0)
   && implb ((0 <? tb - ta) && (0 <? tc - tb)) (0 <? tc - ta))%Z = true.
Proof.
  repeat match goal with
         | |- context [(?x =? ?y)%Z] => destruct (Z.eqb_spec x y)
         | |- context [(?x <? ?y)%Z] => destruct (Z.ltb_spec x y)
         end; cbn; try reflexivity; lia.
Qed.

(** The comparator of the script is consistent on a list of items
    exactly when every item carries a date. *)
Lemma consistent_items (l : list Todo.TodoItem) :
  Js.consistent Todo.compareCreatedAt (List.map Todo.todo_value l)
  = OnEntities.allDated l.
Proof.
  destruct (OnEntities.allDated l) eqn:Hd.
  - unfold OnEntities.allDated in Hd.
    assert (Ht : forall v, In v (List.map Todo.todo_value l) ->
                 exists t z, v = Todo.todo_value t /\ Spec.createdTime t = Some z).
    { intros v Hv. apply List.in_map_iff in Hv as (t & <- & Hin).
      apply (proj1 (List.forallb_forall _ _) Hd) in Hin.
      destruct (Spec.createdTime t) as [z|] eqn:Hz; [eauto | discriminate]. }
    unfold Js.consistent.
    apply List.forallb_forall. intros a Ha.
    apply List.forallb_forall. intros b Hb.
    apply List.forallb_forall. intros c Hc.
    destruct (Ht a Ha) as (ia & ta & -> & Hta).
    destruct (Ht b Hb) as (ib & tb & -> & Htb).
    destruct (Ht c Hc) as (ic & tc & -> & Htc).
    unfold Js.consistentAt. rewrite !verdict_items, Hta, Htb, Htc.
    apply consistent_differences.
  - destruct (Js.consistent Todo.compareCreatedAt (List.map Todo.todo_value l)) eqn:Hc;
      [| reflexivity].
    rewrite <- Hd. symmetry. unfold OnEntities.allDated.
    apply List.forallb_forall. intros t Hin.
    unfold Js.consistent in Hc.
    assert (Hv : In (Todo.todo_value t) (List.map Todo.todo_value l))
      by now apply List.in_map.
    pose proof (proj1 (List.forallb_forall _ _) Hc _ Hv) as H1.
    pose proof (proj1 (List.forallb_forall _ _) H1 _ Hv) as H2.
    pose proof (proj1 (List.forallb_forall _ _) H2 _ Hv) as H3.
    unfold Js.consistentAt in H3. rewrite !verdict_items in H3.
    now destruct (Spec.createdTime t).
Qed.

(** What the engine leaves of an array of items is an array of items. *)
Lemma engine_items (cmp : value -> value -> option Z) (l : list Todo.TodoItem) :
  List.map Todo.todo_value
    (List.map Todo.itemOf (Array_sort_engine cmp (List.map Todo.todo_value l)))
  = Array_sort_engine cmp (List.map Todo.todo_value l).
Proof.
  rewrite List.map_map.
  rewrite <- (List.map_id (Array_sort_engine cmp (List.map Todo.todo_value l))) at 2.
  apply List.map_ext_in. intros v Hv.
  apply (Permutation_in _ (Array_sort_engine_permutes cmp _)) in Hv.
  apply List.in_map_iff in Hv as (t & <- & _). now rewrite itemOf_value.
Qed.

Lemma sort_items (l : list Todo.TodoItem) :
  Js.sort (VArr (List.map Todo.todo_value l)) Todo.compareCreatedAt
  = Return (Todo.todoArray (OnEntities.sortedByScript l)).
Proof.
  unfold Js.sort. rewrite sortBy_items. cbn [bind]. rewrite consistent_items.
  unfold OnEntities.sortedByScript, Todo.todoArray.
  destruct (OnEntities.allDated l); [reflexivity |]. now rewrite engine_items.
Qed.

Lemma results_items (copy : Todo.Copy) (st : Todo.App) (l : list Todo.TodoItem) :
  Todo.todos st = Todo.todoArray l ->
  Todo.results copy st
  = Return (Todo.todoArray
              (OnEntities.scriptResults copy (Todo.currentFilter st) (Todo.currentQuery st) l)).
Proof.
  intros H. unfold Todo.results, OnEntities.scriptResults. rewrite H.
  unfold Todo.todoArray at 1. cbn [Js.slice bind].
  set (q := JsString.toLowerCase (JsString.trim (Todo.currentQuery st))).
  assert (H1 : exists r1,
    (if String.eqb (Todo.currentFilter st) "active"
     then Js.filter (VArr (List.map Todo.todo_value l))
            (fun t => let* c := Todo.isCompleted t in Return (negb c))
     else if String.eqb (Todo.currentFilter st) "completed"
          then Js.filter (VArr (List.map Todo.todo_value l)) Todo.isCompleted
          else Return (VArr (List.map Todo.todo_value l)))
    = Return (VArr (List.map Todo.todo_value r1))
    /\ r1 = (if String.eqb (Todo.currentFilter st) "active"
             then List.filter (fun t => negb (Todo.todo_completed t)) l
             else if String.eqb (Todo.currentFilter st) "completed"
                  then List.filter Todo.todo_completed l
                  else l)).
  { eexists. split; [| reflexivity].
    destruct (String.eqb (Todo.currentFilter st) "active").
    - unfold Js.filter.
      rewrite (filterM_map Todo.todo_value _ (fun t => negb (Todo.todo_completed t)));
        [reflexivity | intros t _; reflexivity].
    - destruct (String.eqb (Todo.currentFilter st) "completed"); [| reflexivity].
      unfold Js.filter.
      rewrite (filterM_map Todo.todo_value _ Todo.todo_completed);
        [reflexivity | intros t _; reflexivity]. }
  destruct H1 as (r1 & -> & <-). cbn [bind].
  destruct (0 <? String.length q)%nat.
  - unfold Js.filter.
    rewrite (filterM_map Todo.todo_value _
               (fun t => JsString.includes (JsString.toLowerCase (Todo.todo_text t)) q))
      by (intros t _; apply textIncludes_item).
    cbn [bind]. destruct copy; [reflexivity |].
    now rewrite sort_items.
  - cbn [bind]. destruct copy; [reflexivity |].
    now rewrite sort_items.
Qed.

(** On a list of items [applyFiltersAndSearch] ends normally; it changes
  the view and the counter and nothing else. *)
Lemma applyFiltersAndSearch_items (copy : Todo.Copy) (st : Todo.App)
    (l : list Todo.TodoItem) :
  Todo.todos st = Todo.todoArray l ->
  Todo.applyFiltersAndSearch copy st
  = Todo.Done
      (Todo.set_counter
         (length l, length (List.filter Todo.todo_completed l))
         (Todo.set_listView
            (List.map OnEntities.rowOf
               (OnEntities.scriptResults copy (Todo.currentFilter st) (Todo.currentQuery st) l))
            st)).
Proof.
  intros H. unfold Todo.applyFiltersAndSearch.
  rewrite (results_items copy st l H). now apply renderTodoList_items.
Qed.

Lemma updateCounter_shape (s : Todo.App) :
  (exists c, Todo.updateCounter s = Todo.Done (Todo.set_counter c s))
  \/ (exists e, Todo.updateCounter s = Todo.Uncaught e s).
Proof.
  unfold Todo.updateCounter.
  destruct (Todo.todos s) as [| | | |els|]; eauto.
  destruct (filterM Todo.isCompleted els); eauto.
Qed.

(** However it ends, [applyFiltersAndSearch] touches the view and the
  counter only. *)
Lemma applyFiltersAndSearch_shape (copy : Todo.Copy) (st : Todo.App) :
  exists rows c,
    Todo.stateOf (Todo.applyFiltersAndSearch copy st)
    = Todo.set_counter c (Todo.set_listView rows st).
Proof.
  assert (Hid : Todo.set_counter (Todo.counter st) (Todo.set_listView (Todo.listView st) st)
                = st) by (destruct st; reflexivity).
  assert (Hv : forall rows,
    exists c, Todo.stateOf (Todo.updateCounter (Todo.set_listView rows st))
              = Todo.set_counter c (Todo.set_listView rows st)).
  { intros rows.
    destruct (updateCounter_shape (Todo.set_listView rows st)) as [[c ->] | [e ->]];
      simpl; [eauto |].
    exists (Todo.counter st). destruct st; reflexivity. }
  assert (Hu : forall rows, exists rows' c,
    Todo.stateOf (Todo.updateCounter (Todo.set_listView rows st))
    = Todo.set_counter c (Todo.set_listView rows' st)).
  { intros rows. destruct (Hv rows) as [c Hc]. eauto. }
  assert (Hs : exists rows' c, st = Todo.set_counter c (Todo.set_listView rows' st))
    by (exists (Todo.listView st), (Todo.counter st); now rewrite Hid).
  unfold Todo.applyFiltersAndSearch.
  destruct (Todo.results copy st) as [r|e]; simpl; [| exact Hs].
  unfold Todo.renderTodoList.
  destruct (negb (Js.truthy (Some r))); [apply Hu |].
  destruct r as [| | | |els|fields]; simpl; try exact Hs.
  - destruct els as [|v els]; [apply Hu |].
    destruct (mapM Todo.renderRow (v :: els)) as [rows|]; simpl; [apply Hu | exact Hs].
  - destruct (Js.lookupField "length" fields) as [[| |[| |]| | |]|]; simpl;
      try exact Hs. apply Hu.
Qed.

(** Whatever the in-memory value is, [applyFiltersAndSearch] leaves the
  list, the store, the inputs and the message as they were. *)
Lemma applyFiltersAndSearch_frame (copy : Todo.Copy) (st : Todo.App) :
  let st' := Todo.stateOf (Todo.applyFiltersAndSearch copy st) in
  Todo.todos st' = Todo.todos st
  /\ Todo.storage st' = Todo.storage st
  /\ Todo.submitMsg st' = Todo.submitMsg st
  /\ Todo.todoInput st' = Todo.todoInput st
  /\ Todo.currentFilter st' = Todo.currentFilter st
  /\ Todo.currentQuery st' = Todo.currentQuery st.
Proof.
  destruct (applyFiltersAndSearch_shape copy st) as (rows & c & H).
  simpl. rewrite H. repeat split; reflexivity.
Qed.

End DeriveFacts.

(** ** The contact form on lists of messages *)
Section ContactFacts.
Context {P : Platform}.

Lemma renderRow_message (m : Contact.ContactMessage) :
  Contact.renderRow (Contact.message_value m) = Return (OnEntities.messageRowOf m).
Proof.
  unfold Contact.renderRow, OnEntities.messageRowOf. simpl. now rewrite ToString_string.
Qed.

Lemma renderMessagesList_messages (st : Contact.Page) (l : list Contact.ContactMessage) :
  Contact.renderMessagesList (Contact.messageArray l) st
  = Contact.Done (Contact.set_listView (List.map OnEntities.messageRowOf l) st).
Proof.
  unfold Contact.renderMessagesList, Contact.messageArray. simpl.
  destruct l as [|m l]; [reflexivity |].
  change (Contact.message_value m :: List.map Contact.message_value l)
    with (List.map Contact.message_value (m :: l)).
  now rewrite (mapM_map Contact.message_value Contact.renderRow OnEntities.messageRowOf)
    by apply renderRow_message.
Qed.

(** However it ends, [renderMessagesList] touches the view only. *)
Lemma renderMessagesList_shape (v : value) (st : Contact.Page) :
  exists rows,
    Contact.stateOf (Contact.renderMessagesList v st) = Contact.set_listView rows st.
Proof.
  assert (Hs : exists rows, st = Contact.set_listView rows st)
    by (exists (Contact.listView st); destruct st; reflexivity).
  unfold Contact.renderMessagesList.
  destruct (negb (Js.truthy (Some v))); simpl; [eauto |].
  destruct v as [| | | |els|fields]; simpl; try exact Hs.
  - destruct els as [|x els]; [simpl; eauto |].
    destruct (mapM Contact.renderRow (x :: els)) as [rows|]; simpl; [eauto | exact Hs].
  - destruct (Js.lookupField "length" fields) as [[| |[| |]| | |]|]; simpl;
      try exact Hs. eauto.
Qed.

Lemma remove_messages (id : string) (l : list Contact.ContactMessage) :
  Js.filter (Contact.messageArray l) (Contact.idDiffers id)
  = Return (Contact.messageArray
              (List.filter (fun m => negb (String.eqb (Contact.msg_id m) id)) l)).
Proof.
  unfold Js.filter, Contact.messageArray.
  rewrite (filterM_map Contact.message_value (Contact.idDiffers id)
             (fun m => negb (String.eqb (Contact.msg_id m) id))); [reflexivity |].
  intros m _. reflexivity.
Qed.

End ContactFacts.

(** C7: whatever the in-memory list and the store, when the trimmed todo
  text is not empty and shorter than 3 the submit handler ends with the
  message "Todo must be at least 3 characters." and leaves the in-memory
  list and the store (hence the persisted list) as they were. *)
Theorem C7_short_todo_rejected {P : Platform} (copy : Todo.Copy) (st : Todo.App)
    (uuid now : string) :
  (0 < String.length (JsString.trim (Todo.todoInput st)) < 3)%nat ->
  exists st',
    Todo.onSubmit copy uuid now st = Todo.Done st'
    /\ bannerText (Todo.submitMsg st') = "Todo must be at least 3 characters."
    /\ bannerClass (Todo.submitMsg st') = "error"
    /\ Todo.todos st' = Todo.todos st
    /\ Todo.storage st' = Todo.storage st
    /\ Todo.loadTodos (Todo.storage st') = Todo.loadTodos (Todo.storage st).
Proof.
  intros [Hpos Hlt]. unfold Todo.onSubmit.
  rewrite nonEmpty_length.
  destruct (Nat.ltb_spec 0 (String.length (JsString.trim (Todo.todoInput st)))) as [_|?];
    [| lia].
  destruct (Nat.ltb_spec (String.length (JsString.trim (Todo.todoInput st))) 3) as [_|?];
    [| lia].
  simpl. eexists. split; [reflexivity |]. repeat split; reflexivity.
Qed.

Lemma C7_short_todo_rejected_witness :
  let st := Examples.app [Examples.newer; Examples.older] " ok "
              (Reference.working
                 (Examples.savedTodos [Examples.newer; Examples.older])) in
  (0 < String.length (JsString.trim (Todo.todoInput st)) < 3)%nat
  /\ exists st',
      Todo.onSubmit (P := Reference.platform) Todo.SearchCopy
        "id-3" "2024-01-17T08:00:00.000Z" st = Todo.Done st'
      /\ bannerText (Todo.submitMsg st') = "Todo must be at least 3 characters."
      /\ bannerClass (Todo.submitMsg st') = "error"
      /\ Todo.todos st' = Todo.todos st
      /\ Todo.storage st' = Todo.storage st
      /\ Todo.loadTodos (P := Reference.platform) (Todo.storage st')
         = Todo.loadTodos (P := Reference.platform) (Todo.storage st).
Proof.
  intros st.
  assert (H : (0 < String.length (JsString.trim (Todo.todoInput st)) < 3)%nat)
    by (vm_compute; lia).
  split; [exact H |].
  exact (C7_short_todo_rejected (P := Reference.platform) Todo.SearchCopy st
           "id-3" "2024-01-17T08:00:00.000Z" H).
Defined.

(** C8: removing by an identifier that no item of the list carries
  returns the list itself, in the todo list and in the contact form. *)
Theorem C8_delete_unknown_id {P : Platform} (id : string) :
  (forall l : list Todo.TodoItem,
      (forall t, In t l -> Todo.todo_id t <> id) ->
      Js.filter (Todo.todoArray l) (Todo.idDiffers id) = Return (Todo.todoArray l))
  /\ (forall l : list Contact.ContactMessage,
        (forall m, In m l -> Contact.msg_id m <> id) ->
        Js.filter (Contact.messageArray l) (Contact.idDiffers id)
        = Return (Contact.messageArray l)).
Proof.
  split; intros l H.
  - rewrite remove_items. rewrite filter_all; [reflexivity |].
    intros t Ht. apply negb_true_iff. apply String.eqb_neq. now apply H.
  - rewrite remove_messages. rewrite filter_all; [reflexivity |].
    intros m Hm. apply negb_true_iff. apply String.eqb_neq. now apply H.
Qed.

Lemma C8_delete_unknown_id_witness :
  (forall t, In t [Examples.newer; Examples.older] -> Todo.todo_id t <> "id-9")
  /\ Js.filter (Todo.todoArray [Examples.newer; Examples.older])
       (Todo.idDiffers "id-9")
     = Return (Todo.todoArray [Examples.newer; Examples.older]).
Proof.
  assert (H : forall t, In t [Examples.newer; Examples.older] -> Todo.todo_id t <> "id-9").
  { intros t [<- | [<- | []]]; discriminate. }
  split; [exact H |].
  exact (proj1 (C8_delete_unknown_id (P := Reference.platform) "id-9")
           [Examples.newer; Examples.older] H).
Defined.

(** C4: in both scripts, when a delete is confirmed and the write of the
  shortened list raises, the handler leaves in memory the persisted
  state, which is what [load] returns from the store, the store being as
  it was before the delete, and shows the error message.  When the store
  can be read and holds the text of a list [saved] that the platform
  gives back from it, the list in memory is [saved] again: the item is
  back. *)
Theorem C4_delete_write_failure {P : Platform} (id : string) :
  (forall (copy : Todo.Copy) (st : Todo.App) (l : list Todo.TodoItem),
      Todo.todos st = Todo.todoArray l ->
      JsString.nonEmpty id = true ->
      setFails (Todo.storage st) Todo.STORAGE_KEY
        (JSON_stringify
           (Todo.todoArray
              (List.filter (fun t => negb (String.eqb (Todo.todo_id t) id)) l))) = true ->
      exists reloaded,
        Todo.loadTodos (Todo.storage st) = Return reloaded
        /\ reloaded = Spec.persisted Todo.STORAGE_KEY (Todo.storage st)
        /\ let st' := Todo.stateOf
                        (Todo.onListClick copy (Todo.OnDelete (Some id) true) st) in
           Todo.todos st' = reloaded
           /\ Todo.storage st' = Todo.storage st
           /\ bannerText (Todo.submitMsg st') = "Could not delete todo (storage error)."
           /\ forall saved : list Todo.TodoItem,
                getFails (Todo.storage st) = false ->
                entries (Todo.storage st) !! Todo.STORAGE_KEY
                = Some (JSON_stringify (Todo.todoArray saved)) ->
                OnEntities.roundTrips (Todo.todoArray saved) ->
                Todo.todos st' = Todo.todoArray saved)
  /\ (forall (pg : Contact.Page) (l : list Contact.ContactMessage),
        Contact.messages pg = Contact.messageArray l ->
        JsString.nonEmpty id = true ->
        setFails (Contact.storage pg) Contact.STORAGE_KEY
          (JSON_stringify
             (Contact.messageArray
                (List.filter (fun m => negb (String.eqb (Contact.msg_id m) id)) l))) = true ->
        exists reloaded,
          Contact.loadMessages (Contact.storage pg) = Return reloaded
          /\ reloaded = Spec.persisted Contact.STORAGE_KEY (Contact.storage pg)
          /\ let pg' := Contact.stateOf
                          (Contact.onListClick (Some (Some id)) true pg) in
             Contact.messages pg' = reloaded
             /\ Contact.storage pg' = Contact.storage pg
             /\ bannerText (Contact.submitMessage pg')
                = "Could not delete message (storage error)."
             /\ forall saved : list Contact.ContactMessage,
                  getFails (Contact.storage pg) = false ->
                  entries (Contact.storage pg) !! Contact.STORAGE_KEY
                  = Some (JSON_stringify (Contact.messageArray saved)) ->
                  OnEntities.roundTrips (Contact.messageArray saved) ->
                  Contact.messages pg' = Contact.messageArray saved).
Proof.
  split.
  - intros copy st l Hl Hid Hfail.
    pose proof (loadTodos_persisted (Todo.storage st)) as Hload.
    exists (Spec.persisted Todo.STORAGE_KEY (Todo.storage st)).
    split; [exact Hload |]. split; [reflexivity |].
    unfold Todo.onListClick. rewrite Hid, Hl, remove_items. cbn [negb].
    destruct (saveTodos_cases (Todo.storage st)
                (Todo.todoArray
                   (List.filter (fun t => negb (String.eqb (Todo.todo_id t) id)) l)))
      as [[_ Hs] | [Hok _]]; [| congruence].
    cbn [Todo.storage Todo.set_todos]. rewrite Hs. cbn [negb].
    cbn [Todo.storage Todo.set_storage Todo.showSubmitMessage Todo.set_submitMsg].
    rewrite Hload.
    match goal with |- context [Todo.applyFiltersAndSearch copy ?s] =>
      destruct (applyFiltersAndSearch_frame copy s) as (Ht & Hst & Hm & _)
    end.
    cbn zeta in Ht, Hst, Hm. cbn zeta. rewrite Ht, Hst, Hm.
    split; [reflexivity |]. split; [reflexivity |]. split; [reflexivity |].
    intros saved Hg He Hrt. cbn [Todo.todos Todo.set_todos].
    now apply persisted_saved.
  - intros pg l Hl Hid Hfail.
    pose proof (loadMessages_persisted (Contact.storage pg)) as Hload.
    exists (Spec.persisted Contact.STORAGE_KEY (Contact.storage pg)).
    split; [exact Hload |]. split; [reflexivity |].
    unfold Contact.onListClick. rewrite Hid, Hl, remove_messages. cbn [negb].
    destruct (saveMessages_cases (Contact.storage pg)
                (Contact.messageArray
                   (List.filter (fun m => negb (String.eqb (Contact.msg_id m) id)) l)))
      as [[_ Hs] | [Hok _]]; [| congruence].
    cbn [Contact.storage Contact.set_messages]. rewrite Hs. cbn [negb].
    cbn [Contact.storage Contact.set_storage Contact.showGlobalMessage
         Contact.set_submitMessage Contact.set_focused].
    rewrite Hload.
    match goal with |- context [Contact.renderMessagesList ?r ?s] =>
      destruct (renderMessagesList_shape r s) as [rows Hr]
    end.
    cbn zeta. rewrite Hr.
    split; [reflexivity |]. split; [reflexivity |]. split; [reflexivity |].
    intros saved Hg He Hrt. cbn [Contact.messages Contact.set_messages Contact.set_listView].
    now apply persisted_saved.
Qed.

Lemma C4_delete_write_failure_witness :
  let st := Examples.app [Examples.newer; Examples.older] ""
              (Reference.readOnly
                 (Examples.savedTodos [Examples.newer; Examples.older])) in
  (Todo.todos st = Todo.todoArray [Examples.newer; Examples.older]
   /\ JsString.nonEmpty "id-1" = true
   /\ setFails (Todo.storage st) Todo.STORAGE_KEY
        (JSON_stringify (Platform := Reference.platform)
           (Todo.todoArray
              (List.filter (fun t => negb (String.eqb (Todo.todo_id t) "id-1"))
                 [Examples.newer; Examples.older]))) = true)
  /\ let st' := Todo.stateOf
                  (Todo.onListClick (P := Reference.platform) Todo.SearchCopy
                     (Todo.OnDelete (Some "id-1") true) st) in
     Todo.todos st' = Todo.todoArray [Examples.newer; Examples.older]
     /\ Todo.storage st' = Todo.storage st
     /\ bannerText (Todo.submitMsg st') = "Could not delete todo (storage error).".
Proof.
  intros st.
  split; [split; [reflexivity | split; reflexivity] |].
  destruct (proj1 (C4_delete_write_failure (P := Reference.platform) "id-1")
              Todo.SearchCopy st [Examples.newer; Examples.older]
              eq_refl eq_refl eq_refl)
    as (reloaded & _ & _ & _ & Hs & Hb & Hsaved).
  split; [| split; [exact Hs | exact Hb]].
  apply Hsaved; [reflexivity | reflexivity |].
  split; vm_compute; reflexivity.
Defined.

(** On the reference platform the list that comes back is the stored one:
  both items are in memory again. *)
Example delete_failure_reverts :
  Todo.todos
    (Todo.stateOf
       (Todo.onListClick (P := Reference.platform) Todo.SearchCopy
          (Todo.OnDelete (Some "id-1") true)
          (Examples.app [Examples.newer; Examples.older] ""
             (Reference.readOnly
                (Examples.savedTodos [Examples.newer; Examples.older])))))
  = Todo.todoArray [Examples.newer; Examples.older].
Proof. vm_compute. reflexivity. Qed.

(** C5, as the specification words it, fails when the store refuses the
  write: the valid submission "Al", "a@b.co", "Hello there!!" is then
  neither kept in the list nor persisted, and the fields are not reset. *)
Lemma C5_submit_counterexample :
  let pg := Examples.page [Examples.hello] "Al" "a@b.co" "Hello there!!"
              (Reference.readOnly (Examples.savedMessages [Examples.hello])) in
  let new := {| Contact.msg_id := "id-8"; Contact.msg_name := "Al";
                Contact.msg_email := "a@b.co"; Contact.msg_message := "Hello there!!";
                Contact.msg_sentAt := 1705400000000 |} in
  let pg' := Contact.stateOf
               (Contact.onSubmit (P := Reference.platform) "id-8" 1705400000000 pg) in
  Contact.valid (Contact.validateName "Al") = true
  /\ Contact.valid (Contact.validateEmail "a@b.co") = true
  /\ Contact.valid (Contact.validateMessage "Hello there!!") = true
  /\ Contact.messages pg' <> Contact.messageArray [new; Examples.hello]
  /\ entries (Contact.storage pg') !! Contact.STORAGE_KEY
     <> Some (Reference.stringify (Contact.messageArray [new; Examples.hello]))
  /\ Contact.nameInput pg' <> Contact.defaultName pg.
Proof.
  vm_compute. repeat split; discriminate.
Qed.

(** C5, amended: for every submission whose fields all validate, the
  submit handler builds the entity from the trimmed field values and,
  when the write of the new list succeeds, leaves the in-memory list
  with the entity in front of the unchanged earlier items, the store
  holding the text of that list, and the input fields reset; when the
  write raises, it leaves the list as re-loaded from the store and the
  fields as typed, and shows the error message. *)
Theorem C5_submit_valid {P : Platform} :
  (forall (pg : Contact.Page) (l : list Contact.ContactMessage) (uuid : string) (now : Z),
      Contact.messages pg = Contact.messageArray l ->
      Contact.valid (Contact.validateName (Contact.nameInput pg)) = true ->
      Contact.valid (Contact.validateEmail (Contact.emailInput pg)) = true ->
      Contact.valid (Contact.validateMessage (Contact.messageInput pg)) = true ->
      let new := {| Contact.msg_id := uuid;
                    Contact.msg_name := JsString.trim (Contact.nameInput pg);
                    Contact.msg_email := JsString.trim (Contact.emailInput pg);
                    Contact.msg_message := JsString.trim (Contact.messageInput pg);
                    Contact.msg_sentAt := now |} in
      let text := JSON_stringify (Contact.messageArray (new :: l)) in
      (setFails (Contact.storage pg) Contact.STORAGE_KEY text = false ->
       exists pg',
         Contact.onSubmit uuid now pg = Contact.Done pg'
         /\ Contact.messages pg' = Contact.messageArray (new :: l)
         /\ entries (Contact.storage pg')
            = <[Contact.STORAGE_KEY := text]> (entries (Contact.storage pg))
         /\ Contact.nameInput pg' = Contact.defaultName pg
         /\ Contact.emailInput pg' = Contact.defaultEmail pg
         /\ Contact.messageInput pg' = Contact.defaultMessage pg
         /\ bannerText (Contact.submitMessage pg') = "Message submitted!")
      /\ (setFails (Contact.storage pg) Contact.STORAGE_KEY text = true ->
          exists reloaded,
            Contact.loadMessages (Contact.storage pg) = Return reloaded
            /\ let pg' := Contact.stateOf (Contact.onSubmit uuid now pg) in
               Contact.messages pg' = reloaded
               /\ Contact.storage pg' = Contact.storage pg
               /\ Contact.nameInput pg' = Contact.nameInput pg
               /\ Contact.emailInput pg' = Contact.emailInput pg
               /\ Contact.messageInput pg' = Contact.messageInput pg
               /\ bannerText (Contact.submitMessage pg')
                  = "Could not save message locally. Please check browser settings."))
  /\ (forall (copy : Todo.Copy) (st : Todo.App) (l : list Todo.TodoItem) (uuid now : string),
        Todo.todos st = Todo.todoArray l ->
        (3 <= String.length (JsString.trim (Todo.todoInput st)))%nat ->
        let new := {| Todo.todo_id := uuid;
                      Todo.todo_text := JsString.trim (Todo.todoInput st);
                      Todo.todo_completed := false;
                      Todo.todo_createdAt := now |} in
        let text := JSON_stringify (Todo.todoArray (new :: l)) in
        (setFails (Todo.storage st) Todo.STORAGE_KEY text = false ->
         exists st',
           Todo.onSubmit copy uuid now st = Todo.Done st'
           /\ Todo.todos st' = Todo.todoArray (new :: l)
           /\ entries (Todo.storage st')
              = <[Todo.STORAGE_KEY := text]> (entries (Todo.storage st))
           /\ Todo.todoInput st' = ""
           /\ bannerText (Todo.submitMsg st') = "Todo added!")
        /\ (setFails (Todo.storage st) Todo.STORAGE_KEY text = true ->
            exists reloaded,
              Todo.loadTodos (Todo.storage st) = Return reloaded
              /\ let st' := Todo.stateOf (Todo.onSubmit copy uuid now st) in
                 Todo.todos st' = reloaded
                 /\ Todo.storage st' = Todo.storage st
                 /\ Todo.todoInput st' = Todo.todoInput st
                 /\ bannerText (Todo.submitMsg st')
                    = "Could not save todo locally. Check storage settings.")).
Proof.
  split.
  - intros pg l uuid now Hl Hn He Hm new text.
    unfold Contact.onSubmit. rewrite Hn, He, Hm. cbn [negb].
    cbn [Contact.messages Contact.set_errors Contact.nameInput Contact.emailInput
         Contact.messageInput].
    rewrite Hl. cbn [Js.unshift Contact.messageArray].
    change (VArr (Contact.message_value
                    {| Contact.msg_id := uuid;
                       Contact.msg_name := JsString.trim (Contact.nameInput pg);
                       Contact.msg_email := JsString.trim (Contact.emailInput pg);
                       Contact.msg_message := JsString.trim (Contact.messageInput pg);
                       Contact.msg_sentAt := now |} :: List.map Contact.message_value l))
      with (Contact.messageArray (new :: l)).
    cbn [Contact.storage Contact.set_submitDisabled Contact.set_messages
         Contact.set_errors].
    split; intros Hset.
    + destruct (saveMessages_cases (Contact.storage pg) (Contact.messageArray (new :: l)))
        as [[Hf _] | [_ (ls' & Hw & Hs)]]; [unfold text in Hset; congruence |].
      rewrite Hs. cbn [negb]. rewrite renderMessagesList_messages.
      eexists. split; [reflexivity |].
      unfold setItem in Hw. fold text in Hw. rewrite Hset in Hw. inversion Hw; subst ls'.
      repeat split; reflexivity.
    + destruct (loadMessages_total (Contact.storage pg)) as [reloaded Hload].
      exists reloaded. split; [exact Hload |].
      destruct (saveMessages_cases (Contact.storage pg) (Contact.messageArray (new :: l)))
        as [[_ Hs] | [Hf _]]; [| unfold text in Hset; congruence].
      rewrite Hs. cbn [negb].
      cbn [Contact.storage Contact.set_storage Contact.showGlobalMessage
           Contact.set_submitMessage Contact.set_focused Contact.set_submitDisabled].
      rewrite Hload.
      match goal with |- context [Contact.renderMessagesList reloaded ?s] =>
        destruct (renderMessagesList_shape reloaded s) as [rows Hr]
      end.
      cbn zeta. rewrite Hr. repeat split; reflexivity.
  - intros copy st l uuid now Hl Hlen new text.
    unfold Todo.onSubmit. rewrite nonEmpty_length.
    destruct (Nat.ltb_spec 0 (String.length (JsString.trim (Todo.todoInput st)))) as [_|?];
      [| lia].
    destruct (Nat.ltb_spec (String.length (JsString.trim (Todo.todoInput st))) 3) as [?|_];
      [lia |].
    cbn [negb]. rewrite Hl. cbn [Js.unshift Todo.todoArray].
    change (VArr (Todo.todo_value
                    {| Todo.todo_id := uuid;
                       Todo.todo_text := JsString.trim (Todo.todoInput st);
                       Todo.todo_completed := false;
                       Todo.todo_createdAt := now |} :: List.map Todo.todo_value l))
      with (Todo.todoArray (new :: l)).
    cbn [Todo.storage Todo.set_todos].
    split; intros Hset.
    + destruct (saveTodos_cases (Todo.storage st) (Todo.todoArray (new :: l)))
        as [[Hf _] | [_ (ls' & Hw & Hs)]]; [unfold text in Hset; congruence |].
      rewrite Hs. cbn [negb].
      rewrite (applyFiltersAndSearch_items copy _ (new :: l)) by reflexivity.
      eexists. split; [reflexivity |].
      unfold setItem in Hw. fold text in Hw. rewrite Hset in Hw. inversion Hw; subst ls'.
      repeat split; reflexivity.
    + destruct (loadTodos_total (Todo.storage st)) as [reloaded Hload].
      exists reloaded. split; [exact Hload |].
      destruct (saveTodos_cases (Todo.storage st) (Todo.todoArray (new :: l)))
        as [[_ Hs] | [Hf _]]; [| unfold text in Hset; congruence].
      rewrite Hs. cbn [negb].
      cbn [Todo.storage Todo.set_storage Todo.showSubmitMessage Todo.set_submitMsg].
      rewrite Hload.
      match goal with |- context [Todo.applyFiltersAndSearch copy ?s] =>
        destruct (applyFiltersAndSearch_frame copy s) as (Ht & Hst & Hm & Hi & _)
      end.
      cbn zeta in Ht, Hst, Hm, Hi. cbn zeta. rewrite Ht, Hst, Hm, Hi.
      repeat split; reflexivity.
Qed.

(** ** Sorting newest first *)
Section SortFacts.
Context {P : Platform}.

Lemma insertNewest_perm (x : Todo.TodoItem) (l : list Todo.TodoItem) :
  Permutation (Spec.insertNewest x l) (x :: l).
Proof.
  induction l as [|y l IH]; simpl; [apply Permutation_refl |].
  destruct (Spec.notOlder x y); [apply Permutation_refl |].
  eapply perm_trans; [apply perm_skip, IH | apply perm_swap].
Qed.

Lemma sortNewest_perm (l : list Todo.TodoItem) : Permutation (Spec.sortNewest l) l.
Proof.
  induction l as [|x l IH]; simpl; [constructor |].
  eapply perm_trans; [apply insertNewest_perm | now apply perm_skip].
Qed.

Lemma notAfter_trans (a b c : Todo.TodoItem) :
  Spec.notAfter a b -> Spec.notAfter b c -> Spec.notAfter a c.
Proof.
  intros (ta & tb & Ha & Hb & Hab) (tb' & tc & Hb' & Hc & Hbc).
  rewrite Hb in Hb'. inversion Hb'; subst tb'.
  exists ta, tc. repeat split; auto. lia.
Qed.

Lemma notOlder_true (x y : Todo.TodoItem) :
  Spec.hasDate x -> Spec.hasDate y -> Spec.notOlder x y = true -> Spec.notAfter x y.
Proof.
  intros [tx Hx] [ty Hy]. unfold Spec.notOlder. rewrite Hx, Hy. intros H.
  exists tx, ty. repeat split; auto. now apply Z.leb_le.
Qed.

Lemma notOlder_false (x y : Todo.TodoItem) :
  Spec.hasDate x -> Spec.hasDate y -> Spec.notOlder x y = false -> Spec.notAfter y x.
Proof.
  intros [tx Hx] [ty Hy]. unfold Spec.notOlder. rewrite Hx, Hy. intros H.
  exists ty, tx. repeat split; auto. apply Z.leb_gt in H. lia.
Qed.

Lemma insertNewest_sorted (x : Todo.TodoItem) (l : list Todo.TodoItem) :
  Spec.hasDate x -> Forall Spec.hasDate l ->
  Spec.newestFirst l -> Spec.newestFirst (Spec.insertNewest x l).
Proof.
  intros Hx. unfold Spec.newestFirst.
  induction l as [|y l IH]; intros Hd Hs; simpl.
  - constructor; constructor.
  - apply List.Forall_cons_iff in Hd as [Hy Hd].
    apply StronglySorted_inv in Hs as [Hs Hall].
    destruct (Spec.notOlder x y) eqn:Hc.
    + assert (Hxy : Spec.notAfter x y) by now apply notOlder_true.
      constructor; [constructor; assumption |].
      constructor; [exact Hxy |].
      eapply List.Forall_impl; [| exact Hall]. intros z. now apply notAfter_trans.
    + assert (Hyx : Spec.notAfter y x) by now apply notOlder_false.
      constructor; [now apply IH |].
      eapply Permutation_Forall; [symmetry; apply insertNewest_perm |].
      now constructor.
Qed.

Lemma sortNewest_sorted (l : list Todo.TodoItem) :
  Forall Spec.hasDate l -> Spec.newestFirst (Spec.sortNewest l).
Proof.
  induction l as [|x l IH]; intros Hd; simpl; [constructor |].
  apply List.Forall_cons_iff in Hd as [Hx Hd].
  apply insertNewest_sorted; auto.
  eapply Permutation_Forall; [symmetry; apply sortNewest_perm | exact Hd].
Qed.

(** Items created at the same instant keep their order. *)
Lemma insertNewest_stable (z : Z) (x : Todo.TodoItem) (l : list Todo.TodoItem) :
  List.filter (Spec.createdAtInstant z) (Spec.insertNewest x l)
  = List.filter (Spec.createdAtInstant z) (x :: l).
Proof.
  induction l as [|y l IH]; [reflexivity |].
  cbn [Spec.insertNewest]. destruct (Spec.notOlder x y) eqn:Hc; [reflexivity |].
  cbn [List.filter] in *. rewrite IH.
  unfold Spec.notOlder in Hc. unfold Spec.createdAtInstant.
  destruct (Spec.createdTime x) as [tx|]; [| discriminate].
  destruct (Spec.createdTime y) as [ty|]; [| discriminate].
  apply Z.leb_gt in Hc.
  destruct (Z.eqb_spec tx z), (Z.eqb_spec ty z); try reflexivity. lia.
Qed.

Lemma sortNewest_stable (z : Z) (l : list Todo.TodoItem) :
  List.filter (Spec.createdAtInstant z) (Spec.sortNewest l)
  = List.filter (Spec.createdAtInstant z) l.
Proof.
  induction l as [|x l IH]; [reflexivity |].
  cbn [Spec.sortNewest List.fold_right]. rewrite insertNewest_stable.
  cbn [List.filter]. fold (Spec.sortNewest l). now rewrite IH.
Qed.

(** A list that is newest first is left as it is. *)
Lemma sortNewest_id (l : list Todo.TodoItem) :
  Spec.newestFirst l -> Spec.sortNewest l = l.
Proof.
  unfold Spec.newestFirst. induction 1 as [|x l Hs IH Hall]; simpl; [reflexivity |].
  rewrite IH. destruct l as [|y l]; [reflexivity |]. simpl.
  apply List.Forall_cons_iff in Hall as [(tx & ty & Hx & Hy & Hle) _].
  unfold Spec.notOlder. rewrite Hx, Hy.
  now destruct (Z.leb_spec ty tx); [| lia].
Qed.

Lemma filter_newestFirst (f : Todo.TodoItem -> bool) (l : list Todo.TodoItem) :
  Spec.newestFirst l -> Spec.newestFirst (List.filter f l).
Proof.
  unfold Spec.newestFirst. induction 1 as [|x l Hs IH Hall]; simpl; [constructor |].
  destruct (f x); [| exact IH].
  constructor; [exact IH |].
  apply List.Forall_forall. intros y Hy. apply filter_In in Hy as [Hy _].
  eapply List.Forall_forall in Hall; eauto.
Qed.

Lemma length_toLowerCase (s : string) :
  String.length (JsString.toLowerCase s) = String.length s.
Proof. induction s as [|c s IH]; simpl; [reflexivity | now rewrite IH]. Qed.

Lemma filter_true {A : Type} (l : list A) : List.filter (fun _ => true) l = l.
Proof. apply filter_all. reflexivity. Qed.

Lemma allDated_hasDate (l : list Todo.TodoItem) :
  OnEntities.allDated l = true <-> Forall Spec.hasDate l.
Proof.
  unfold OnEntities.allDated. rewrite List.forallb_forall, List.Forall_forall.
  split; intros H t Ht; specialize (H t Ht); unfold Spec.hasDate in *.
  - destruct (Spec.createdTime t) as [z|]; [eauto | discriminate].
  - now destruct H as [z ->].
Qed.

(** With a date on every item the sort of the script is the
    specification's. *)
Lemma sortedByScript_dated (l : list Todo.TodoItem) :
  Forall Spec.hasDate l -> OnEntities.sortedByScript l = Spec.sortNewest l.
Proof.
  intros H. apply allDated_hasDate in H. unfold OnEntities.sortedByScript.
  now rewrite H.
Qed.

(** Whatever the dates and the engine, it only moves the items. *)
Lemma sortedByScript_perm (l : list Todo.TodoItem) :
  Permutation (OnEntities.sortedByScript l) l.
Proof.
  unfold OnEntities.sortedByScript.
  destruct (OnEntities.allDated l); [apply sortNewest_perm |].
  rewrite <- (itemOf_values l) at 2.
  apply Permutation_map, Array_sort_engine_permutes.
Qed.

(** The statements of the script are the specification's steps 1 and 2,
  followed by the sort in the copy that has one. *)
Lemma scriptResults_steps (copy : Todo.Copy) (m : Spec.FilterMode) (query : string)
    (l : list Todo.TodoItem) :
  OnEntities.scriptResults copy (Spec.modeName m) query l
  = match copy with
    | Todo.SortingCopy => OnEntities.sortedByScript (Spec.survivors l m query)
    | Todo.SearchCopy => Spec.survivors l m query
    end.
Proof.
  unfold OnEntities.scriptResults, Spec.survivors.
  assert (H1 : (if String.eqb (Spec.modeName m) "active"
                then List.filter (fun t => negb (Todo.todo_completed t)) l
                else if String.eqb (Spec.modeName m) "completed"
                     then List.filter Todo.todo_completed l
                     else l)
               = List.filter (Spec.keptByMode m) l).
  { destruct m; simpl; [now rewrite filter_true | reflexivity | reflexivity]. }
  rewrite H1.
  assert (H2 : forall r,
    (if (0 <? String.length (JsString.toLowerCase (JsString.trim query)))%nat
     then List.filter
            (fun t => JsString.includes (JsString.toLowerCase (Todo.todo_text t))
                        (JsString.toLowerCase (JsString.trim query))) r
     else r)
    = List.filter (Spec.keptByQuery query) r).
  { intros r. rewrite length_toLowerCase, <- nonEmpty_length.
    unfold Spec.keptByQuery, Spec.containsCIb.
    destruct (JsString.nonEmpty (JsString.trim query)); [reflexivity |].
    now rewrite filter_true. }
  rewrite H2. reflexivity.
Qed.

End SortFacts.

(** ** The derivation of the visible list *)
Section VisibleFacts.
Context {P : Platform}.

Lemma containsCIb_spec (text q : string) :
  Spec.containsCIb text q = true <-> Spec.containsCI text q.
Proof. unfold Spec.containsCIb, Spec.containsCI. apply includes_spec. Qed.

Lemma keptByQuery_spec (query : string) (t : Todo.TodoItem) :
  Spec.keptByQuery query t = true
  <-> (JsString.nonEmpty (JsString.trim query) = true ->
       Spec.containsCI (Todo.todo_text t) (JsString.trim query)).
Proof.
  unfold Spec.keptByQuery, Spec.containsCIb, Spec.containsCI.
  destruct (JsString.nonEmpty (JsString.trim query)).
  - rewrite includes_spec. split; [intros H _; exact H | intros H; now apply H].
  - split; [discriminate | reflexivity].
Qed.

Lemma survivors_In (l : list Todo.TodoItem) (m : Spec.FilterMode) (query : string)
    (t : Todo.TodoItem) :
  In t (Spec.survivors l m query)
  <-> In t l /\ Spec.keptByMode m t = true
      /\ (JsString.nonEmpty (JsString.trim query) = true ->
          Spec.containsCI (Todo.todo_text t) (JsString.trim query)).
Proof.
  unfold Spec.survivors. rewrite !filter_In, keptByQuery_spec. tauto.
Qed.

Lemma survivors_hasDate (l : list Todo.TodoItem) (m : Spec.FilterMode) (query : string) :
  Forall Spec.hasDate l -> Forall Spec.hasDate (Spec.survivors l m query).
Proof.
  intros H. apply List.Forall_forall. intros t Ht.
  apply survivors_In in Ht as [Ht _].
  eapply List.Forall_forall in H; eauto.
Qed.

Lemma survivors_newestFirst (l : list Todo.TodoItem) (m : Spec.FilterMode)
    (query : string) :
  Spec.newestFirst l -> Spec.newestFirst (Spec.survivors l m query).
Proof. intros H. unfold Spec.survivors. now do 2 apply filter_newestFirst. Qed.

End VisibleFacts.

(** C1, as the specification words it, fails in two ways.  The copy of
  the script that has no [results.sort] hands the items over in list
  order: with the older item first in memory, mode [all] and an empty
  query, the older item comes first, where steps 1 to 3 put the newer
  one first.  The copy that sorts compares time values: next to an item
  whose [createdAt] is not the text of a date every comparison is NaN,
  the comparator is not a consistent one and the order is the engine's.
  On the list older, undated, newer the two comparisons of neighbours
  are NaN, which counts as +0: the reference engine takes the array for
  one ascending run, as V8 does, and an insertion leaves it too, so the
  older item is shown in front of the newer one, created later. *)
Lemma C1_unsorted_counterexample :
  (Todo.results (P := Reference.platform) Todo.SearchCopy
     (Examples.app [Examples.older; Examples.newer] "" (Reference.working ∅))
   = Return (Todo.todoArray [Examples.older; Examples.newer])
   /\ Spec.derive (P := Reference.platform) [Examples.older; Examples.newer] Spec.All ""
      = [Examples.newer; Examples.older]
   /\ Todo.results (P := Reference.platform) Todo.SearchCopy
        (Examples.app [Examples.older; Examples.newer] "" (Reference.working ∅))
      <> Return (Todo.todoArray
                   (Spec.derive (P := Reference.platform)
                      [Examples.older; Examples.newer] Spec.All ""))
   /\ ~ Spec.newestFirst (P := Reference.platform) [Examples.older; Examples.newer])
  /\ (Todo.compareCreatedAt (P := Reference.platform)
        (Todo.todo_value Examples.undated) (Todo.todo_value Examples.older)
      = Return None
      /\ Js.consistent (Todo.compareCreatedAt (P := Reference.platform))
           (List.map Todo.todo_value
              [Examples.older; Examples.undated; Examples.newer]) = false
      /\ Js.sortBy (Todo.compareCreatedAt (P := Reference.platform))
           (List.map Todo.todo_value
              [Examples.older; Examples.undated; Examples.newer])
         = Return (List.map Todo.todo_value
                     [Examples.older; Examples.undated; Examples.newer])
      /\ Todo.results (P := Reference.platform) Todo.SortingCopy
           (Examples.app [Examples.older; Examples.undated; Examples.newer] ""
              (Reference.working ∅))
         = Return (Todo.todoArray [Examples.older; Examples.undated; Examples.newer])
      /\ Spec.createdTime (P := Reference.platform) Examples.older = Some 1705314600000%Z
      /\ Spec.createdTime (P := Reference.platform) Examples.newer = Some 1705395600000%Z
      /\ (1705314600000 < 1705395600000)%Z).
Proof.
  split.
  - split; [vm_compute; reflexivity |].
    split; [vm_compute; reflexivity |].
    split; [vm_compute; discriminate |].
    intros H. apply StronglySorted_inv in H as [_ H].
    apply List.Forall_cons_iff in H as [(ta & tb & Ha & Hb & Hle) _].
    vm_compute in Ha, Hb. inversion Ha; inversion Hb; subst. lia.
  - repeat split; vm_compute; reflexivity.
Qed.

(** C1, amended: on every list of todo items, for each of the three filter
    modes and every query, both copies of the script keep the items per
    the mode, then, if the trimmed query is not empty, those whose text
    contains it letter case aside (steps 1 and 2), and show exactly the
    kept items.  The copy without [results.sort] shows them in list
    order, which is the order of the specification's [derive] when the
    list in memory is already newest first.  The copy with
    [results.sort] shows them as [derive] orders them when every kept
    item carries a date: newest first, those created at the same instant
    in their old order (step 3); when a kept item carries none the order
    is the engine's. *)
Theorem C1_derive_steps {P : Platform} (copy : Todo.Copy) (st : Todo.App)
    (l : list Todo.TodoItem) (m : Spec.FilterMode) :
  Todo.todos st = Todo.todoArray l ->
  Todo.currentFilter st = Spec.modeName m ->
  let query := Todo.currentQuery st in
  let kept := Spec.survivors l m query in
  exists shown,
    Todo.results copy st = Return (Todo.todoArray shown)
    /\ Todo.listView (Todo.stateOf (Todo.applyFiltersAndSearch copy st))
       = List.map OnEntities.rowOf shown
    /\ (forall t,
          In t kept
          <-> In t l /\ Spec.keptByMode m t = true
              /\ (JsString.nonEmpty (JsString.trim query) = true ->
                  Spec.containsCI (Todo.todo_text t) (JsString.trim query)))
    /\ Permutation shown kept
    /\ (copy = Todo.SearchCopy -> shown = kept)
    /\ (copy = Todo.SortingCopy -> Forall Spec.hasDate kept ->
        shown = Spec.derive l m query /\ Spec.newestFirst shown)
    /\ Permutation (Spec.derive l m query) kept
    /\ (forall z,
          List.filter (Spec.createdAtInstant z) (Spec.derive l m query)
          = List.filter (Spec.createdAtInstant z) kept)
    /\ (Forall Spec.hasDate l -> Spec.newestFirst (Spec.derive l m query))
    /\ (Spec.newestFirst l ->
        Spec.derive l m query = kept /\ Spec.newestFirst kept).
Proof.
  intros Hl Hf query kept.
  exists (OnEntities.scriptResults copy (Todo.currentFilter st) query l).
  assert (Hs : OnEntities.scriptResults copy (Todo.currentFilter st) query l
               = match copy with
                 | Todo.SortingCopy => OnEntities.sortedByScript kept
                 | Todo.SearchCopy => kept
                 end).
  { rewrite Hf, scriptResults_steps. reflexivity. }
  split; [now rewrite (results_items copy st l Hl) |].
  split; [now rewrite (applyFiltersAndSearch_items copy st l Hl) |].
  split; [intros t; apply survivors_In |].
  rewrite Hs.
  split; [destruct copy; [reflexivity | apply sortedByScript_perm] |].
  split; [now intros -> |].
  split.
  { intros -> Hd. rewrite (sortedByScript_dated kept Hd).
    split; [reflexivity | now apply sortNewest_sorted]. }
  split; [apply sortNewest_perm |].
  split; [intros z; apply sortNewest_stable |].
  split.
  - intros Hd. apply sortNewest_sorted. now apply survivors_hasDate.
  - intros Hn.
    assert (Hk : Spec.newestFirst kept) by now apply survivors_newestFirst.
    split; [now apply sortNewest_id | exact Hk].
Qed.

Lemma C1_derive_steps_witness :
  let st := Examples.app [Examples.older; Examples.newer] "" (Reference.working ∅) in
  let l := [Examples.older; Examples.newer] in
  (Todo.todos st = Todo.todoArray l
   /\ Todo.currentFilter st = Spec.modeName Spec.All
   /\ Forall (Spec.hasDate (P := Reference.platform))
        (Spec.survivors l Spec.All (Todo.currentQuery st)))
  /\ Todo.results (P := Reference.platform) Todo.SortingCopy st
     = Return (Todo.todoArray
                 (Spec.derive (P := Reference.platform) l Spec.All (Todo.currentQuery st))).
Proof.
  intros st l.
  assert (Hd : Forall (Spec.hasDate (P := Reference.platform))
                 (Spec.survivors l Spec.All (Todo.currentQuery st))).
  { repeat constructor; eexists; vm_compute; reflexivity. }
  split; [split; [reflexivity | split; [reflexivity | exact Hd]] |].
  destruct (C1_derive_steps (P := Reference.platform) Todo.SortingCopy st l Spec.All
              eq_refl eq_refl) as (shown & Hr & _ & _ & _ & _ & Hsort & _).
  destruct (Hsort eq_refl Hd) as [<- _]. exact Hr.
Defined.

(** With an item that carries no date among four, the order is the
    engine's: the reference engine reverses the descending run of the
    first two items, then inserts the other two by binary search. *)
Example sorting_copy_with_undated_item :
  Todo.results (P := Reference.platform) Todo.SortingCopy
    (Examples.app [Examples.older; Examples.newer; Examples.undated; Examples.newest] ""
       (Reference.working ∅))
  = Return (Todo.todoArray
              [Examples.newest; Examples.newer; Examples.older; Examples.undated]).
Proof. vm_compute. reflexivity. Qed.

(** On the list of the witness the sorting copy puts the newer item
    first. *)
Example sorting_copy_shows :
  Todo.results (P := Reference.platform) Todo.SortingCopy
    (Examples.app [Examples.older; Examples.newer] "" (Reference.working ∅))
  = Return (Todo.todoArray [Examples.newer; Examples.older]).
Proof. vm_compute. reflexivity. Qed.

(** C6, as the specification words it, fails for a query with white space
  around it: with the query "milk " the completed item "Buy Milk" is
  shown, and its text does not contain "milk " with the trailing
  space. *)
Lemma C6_untrimmed_counterexample :
  JsString.nonEmpty "milk " = true
  /\ Todo.results (P := Reference.platform) Todo.SearchCopy
       (Todo.set_currentQuery "milk "
          (Todo.set_currentFilter "completed"
             (Examples.app [Examples.newer; Examples.older] "" (Reference.working ∅))))
     = Return (Todo.todoArray [Examples.older])
  /\ Todo.todo_completed Examples.older = true
  /\ ~ Spec.containsCI (Todo.todo_text Examples.older) "milk ".
Proof.
  split; [reflexivity |]. split; [vm_compute; reflexivity |].
  split; [reflexivity |].
  intros H. apply containsCIb_spec in H. vm_compute in H. discriminate.
Qed.

(** C6, amended: on every list of todo items and for every query, each
  item that either copy of the script shows under the filter mode
  [completed] is an item of the list whose completed flag is true and
  whose text contains the trimmed query, letter case aside. *)
Theorem C6_completed_search {P : Platform} (copy : Todo.Copy) (st : Todo.App)
    (l : list Todo.TodoItem) :
  Todo.todos st = Todo.todoArray l ->
  Todo.currentFilter st = "completed" ->
  exists out,
    Todo.results copy st = Return (Todo.todoArray out)
    /\ forall t, In t out ->
         In t l
         /\ Todo.todo_completed t = true
         /\ Spec.containsCI (Todo.todo_text t) (JsString.trim (Todo.currentQuery st)).
Proof.
  intros Hl Hf.
  exists (OnEntities.scriptResults copy (Todo.currentFilter st) (Todo.currentQuery st) l).
  split; [now apply results_items |].
  intros t Ht. rewrite Hf in Ht.
  change "completed" with (Spec.modeName Spec.Completed) in Ht.
  rewrite scriptResults_steps in Ht.
  assert (Hin : In t (Spec.survivors l Spec.Completed (Todo.currentQuery st))).
  { destruct copy; [exact Ht |].
    eapply Permutation_in; [apply sortedByScript_perm | exact Ht]. }
  apply survivors_In in Hin as (Hin & Hc & Hq).
  split; [exact Hin |]. split; [exact Hc |].
  destruct (JsString.nonEmpty (JsString.trim (Todo.currentQuery st))) eqn:Hne.
  - now apply Hq.
  - destruct (JsString.trim (Todo.currentQuery st)); [| discriminate].
    exists "", (JsString.toLowerCase (Todo.todo_text t)). reflexivity.
Qed.

Lemma C6_completed_search_witness :
  let st := Todo.set_currentQuery " MILK "
              (Todo.set_currentFilter "completed"
                 (Examples.app [Examples.newer; Examples.older] ""
                    (Reference.working ∅))) in
  (Todo.todos st = Todo.todoArray [Examples.newer; Examples.older]
   /\ Todo.currentFilter st = "completed")
  /\ exists out,
      Todo.results (P := Reference.platform) Todo.SortingCopy st
      = Return (Todo.todoArray out)
      /\ forall t, In t out ->
           In t [Examples.newer; Examples.older]
           /\ Todo.todo_completed t = true
           /\ Spec.containsCI (Todo.todo_text t)
                (JsString.trim (Todo.currentQuery st)).
Proof.
  intros st. split; [split; reflexivity |].
  exact (C6_completed_search (P := Reference.platform) Todo.SortingCopy st
           [Examples.newer; Examples.older] eq_refl eq_refl).
Defined.

(** On that input the one completed item whose text holds "milk" is
  shown. *)
Example completed_search_shows :
  Todo.results (P := Reference.platform) Todo.SortingCopy
    (Todo.set_currentQuery " MILK "
       (Todo.set_currentFilter "completed"
          (Examples.app [Examples.newer; Examples.older] "" (Reference.working ∅))))
  = Return (Todo.todoArray [Examples.older]).
Proof. vm_compute. reflexivity. Qed.

Lemma C5_submit_valid_witness :
  let pg := Examples.page [Examples.hello] " Al " "a@b.co" "Hello there!!"
              (Reference.working (Examples.savedMessages [Examples.hello])) in
  let new := {| Contact.msg_id := "id-8"; Contact.msg_name := "Al";
                Contact.msg_email := "a@b.co"; Contact.msg_message := "Hello there!!";
                Contact.msg_sentAt := 1705400000000 |} in
  let text := JSON_stringify (Platform := Reference.platform)
                (Contact.messageArray [new; Examples.hello]) in
  (Contact.messages pg = Contact.messageArray [Examples.hello]
   /\ Contact.valid (Contact.validateName (Contact.nameInput pg)) = true
   /\ Contact.valid (Contact.validateEmail (Contact.emailInput pg)) = true
   /\ Contact.valid (Contact.validateMessage (Contact.messageInput pg)) = true
   /\ setFails (Contact.storage pg) Contact.STORAGE_KEY text = false)
  /\ exists pg',
      Contact.onSubmit (P := Reference.platform) "id-8" 1705400000000 pg
      = Contact.Done pg'
      /\ Contact.messages pg' = Contact.messageArray [new; Examples.hello]
      /\ entries (Contact.storage pg')
         = <[Contact.STORAGE_KEY := text]> (entries (Contact.storage pg))
      /\ Contact.nameInput pg' = Contact.defaultName pg
      /\ Contact.emailInput pg' = Contact.defaultEmail pg
      /\ Contact.messageInput pg' = Contact.defaultMessage pg
      /\ bannerText (Contact.submitMessage pg') = "Message submitted!".
Proof.
  intros pg new text.
  split; [repeat split; reflexivity |].
  exact (proj1 (proj1 (C5_submit_valid (P := Reference.platform))
                  pg [Examples.hello] "id-8" 1705400000000%Z
                  eq_refl eq_refl eq_refl eq_refl) eq_refl).
Defined.

(* ================================================================== *)
(** * Part III: further properties of the scripts                      *)
(* ================================================================== *)

(** ** Trimming *)
Section TrimFacts.

Lemma trimStart_space (s : string) :
  JsString.allChars JsString.isWhiteSpace s = true -> JsString.trimStart s = "".
Proof.
  induction s as [|c s IH]; simpl; [reflexivity |].
  intros H. apply andb_true_iff in H as [Hc Hs]. rewrite Hc. auto.
Qed.

Lemma trimEnd_space (s : string) :
  JsString.allChars JsString.isWhiteSpace s = true -> JsString.trimEnd s = "".
Proof.
  induction s as [|c s IH]; simpl; [reflexivity |].
  intros H. apply andb_true_iff in H as [Hc Hs]. now rewrite IH, Hc.
Qed.

Lemma trimStart_after_space (pre s : string) :
  JsString.allChars JsString.isWhiteSpace pre = true ->
  JsString.trimStart (pre +:+ s) = JsString.trimStart s.
Proof.
  induction pre as [|c pre IH]; simpl; [reflexivity |].
  intros H. apply andb_true_iff in H as [Hc Hs]. rewrite Hc. auto.
Qed.

Lemma trimEnd_before_space (s post : string) :
  JsString.allChars JsString.isWhiteSpace post = true ->
  JsString.trimEnd (s +:+ post) = JsString.trimEnd s.
Proof.
  intros H. induction s as [|c s IH]; simpl; [now apply trimEnd_space |].
  now rewrite IH.
Qed.

(** [trimStart] returns the empty string or a string that starts with a
    code unit other than white space. *)
Lemma trimStart_head (s : string) :
  JsString.trimStart s = ""
  \/ exists c t, JsString.trimStart s = String c t /\ JsString.isWhiteSpace c = false.
Proof.
  induction s as [|c s IH]; simpl; [left; reflexivity |].
  destruct (JsString.isWhiteSpace c) eqn:Hc; [exact IH |]. right. eauto.
Qed.

Lemma trimEnd_idem (s : string) : JsString.trimEnd (JsString.trimEnd s) = JsString.trimEnd s.
Proof.
  induction s as [|c s IH]; simpl; [reflexivity |].
  destruct (JsString.trimEnd s) as [|d r] eqn:Hr.
  - destruct (JsString.isWhiteSpace c) eqn:Hc; simpl; [reflexivity | now rewrite Hc].
  - cbn [JsString.trimEnd]. cbn [JsString.trimEnd] in IH. now rewrite IH.
Qed.

Lemma trimEnd_keeps_head (c : ascii) (t : string) :
  JsString.isWhiteSpace c = false ->
  exists r, JsString.trimEnd (String c t) = String c r.
Proof.
  intros Hc. simpl. destruct (JsString.trimEnd t); [rewrite Hc |]; eauto.
Qed.

Lemma trim_head (s : string) :
  JsString.trim s = ""
  \/ exists c t, JsString.trim s = String c t /\ JsString.isWhiteSpace c = false.
Proof.
  unfold JsString.trim.
  destruct (trimStart_head s) as [-> | (c & t & -> & Hc)]; [left; reflexivity |].
  right. destruct (trimEnd_keeps_head c t Hc) as [r ->]. eauto.
Qed.

(** Trimming what is trimmed changes nothing. *)
Lemma trim_idem (s : string) : JsString.trim (JsString.trim s) = JsString.trim s.
Proof.
  destruct (trim_head s) as [H | (c & t & H & Hc)].
  - rewrite H. reflexivity.
  - unfold JsString.trim at 1. rewrite H. simpl. rewrite Hc.
    rewrite <- H. unfold JsString.trim. apply trimEnd_idem.
Qed.

(** White space around a text does not reach its trimmed value. *)
Lemma trim_outer (pre s post : string) :
  JsString.allChars JsString.isWhiteSpace pre = true ->
  JsString.allChars JsString.isWhiteSpace post = true ->
  JsString.trim (pre +:+ s +:+ post) = JsString.trim s.
Proof.
  intros Hpre Hpost. unfold JsString.trim. rewrite trimStart_after_space by assumption.
  induction s as [|c s IH]; simpl.
  - now rewrite trimStart_space.
  - destruct (JsString.isWhiteSpace c); [exact IH |].
    change (String c (s +:+ post)) with (String c s +:+ post).
    now apply trimEnd_before_space.
Qed.

End TrimFacts.

(** X1: the three field validators of the contact form look at the trimmed
    value only: white space added before and after a value changes
    neither the verdict nor the message. *)
Theorem X1_validators_ignore_outer_space (f : Contact.Field) (pre value post : string) :
  JsString.allChars JsString.isWhiteSpace pre = true ->
  JsString.allChars JsString.isWhiteSpace post = true ->
  Contact.validateField f (pre +:+ value +:+ post) = Contact.validateField f value.
Proof.
  intros Hpre Hpost.
  destruct f; unfold Contact.validateField, Contact.validateName, Contact.validateEmail,
    Contact.validateMessage; now rewrite trim_outer.
Qed.

Lemma X1_validators_ignore_outer_space_witness :
  (JsString.allChars JsString.isWhiteSpace "  " = true
   /\ JsString.allChars JsString.isWhiteSpace " " = true)
  /\ Contact.validateField Contact.EmailField ("  " +:+ "a@b.co" +:+ " ")
     = Contact.validateField Contact.EmailField "a@b.co".
Proof.
  split; [split; reflexivity |].
  apply (X1_validators_ignore_outer_space Contact.EmailField "  " "a@b.co" " ");
    reflexivity.
Defined.

(** ** The submit handler of the contact form, case by case *)
Section ContactSubmitFacts.
Context {P : Platform}.

Lemma validateName_valid (value : string) :
  Contact.valid (Contact.validateName value) = true
  <-> (2 <= String.length (JsString.trim value))%nat.
Proof.
  unfold Contact.validateName.
  destruct (Nat.eqb_spec (String.length (JsString.trim value)) 0) as [H0|H0]; simpl.
  - split; [discriminate | lia].
  - destruct (Nat.ltb_spec (String.length (JsString.trim value)) 2); simpl;
      split; try discriminate; try reflexivity; lia.
Qed.

Lemma validateMessage_valid (value : string) :
  Contact.valid (Contact.validateMessage value) = true
  <-> (10 <= String.length (JsString.trim value))%nat.
Proof.
  unfold Contact.validateMessage.
  destruct (Nat.eqb_spec (String.length (JsString.trim value)) 0) as [H0|H0]; simpl.
  - split; [discriminate | lia].
  - destruct (Nat.ltb_spec (String.length (JsString.trim value)) 10); simpl;
      split; try discriminate; try reflexivity; lia.
Qed.

Lemma validateEmail_test (value : string) :
  Contact.valid (Contact.validateEmail value) = true
  <-> Regex.test Contact.re (JsString.trim value) = true.
Proof.
  unfold Contact.validateEmail.
  destruct (Nat.eqb_spec (String.length (JsString.trim value)) 0) as [H0|H0]; simpl.
  - destruct (JsString.trim value); [| discriminate]. split; discriminate.
  - destruct (Regex.test Contact.re (JsString.trim value)); simpl;
      split; try discriminate; reflexivity.
Qed.

(** A validator's verdict fixes whether it has a message. *)
Lemma validateField_message (f : Contact.Field) (value : string) :
  Contact.valid (Contact.validateField f value) = true
  <-> Contact.message (Contact.validateField f value) = "".
Proof.
  destruct f; unfold Contact.validateField, Contact.validateName,
    Contact.validateEmail, Contact.validateMessage;
    repeat match goal with |- context [if ?b then _ else _] => destruct b end;
    simpl; split; intros H; try reflexivity; discriminate.
Qed.

(** The page after a valid submission whose write succeeds. *)
Lemma contact_submit_saved (pg : Contact.Page) (l : list Contact.ContactMessage)
    (uuid : string) (now : Z) :
  Contact.messages pg = Contact.messageArray l ->
  Contact.valid (Contact.validateName (Contact.nameInput pg)) = true ->
  Contact.valid (Contact.validateEmail (Contact.emailInput pg)) = true ->
  Contact.valid (Contact.validateMessage (Contact.messageInput pg)) = true ->
  let new := {| Contact.msg_id := uuid;
                Contact.msg_name := JsString.trim (Contact.nameInput pg);
                Contact.msg_email := JsString.trim (Contact.emailInput pg);
                Contact.msg_message := JsString.trim (Contact.messageInput pg);
                Contact.msg_sentAt := now |} in
  setFails (Contact.storage pg) Contact.STORAGE_KEY
    (JSON_stringify (Contact.messageArray (new :: l))) = false ->
  exists pg',
    Contact.onSubmit uuid now pg = Contact.Done pg'
    /\ Contact.messages pg' = Contact.messageArray (new :: l)
    /\ Contact.storage pg'
       = {| entries := <[Contact.STORAGE_KEY :=
                           JSON_stringify (Contact.messageArray (new :: l))]>
                         (entries (Contact.storage pg));
            getFails := getFails (Contact.storage pg);
            setFails := setFails (Contact.storage pg) |}
    /\ Contact.listView pg' = List.map OnEntities.messageRowOf (new :: l)
    /\ (Contact.nameError pg', Contact.emailError pg', Contact.messageError pg')
       = ("", "", "")
    /\ Contact.submitDisabled pg' = false
    /\ Contact.submitMessage pg'
       = {| bannerText := "Message submitted!"; bannerClass := "success";
            bannerAutoHide := Some 3000%Z |}.
Proof.
  intros Hl Hn He Hm new Hset.
  unfold Contact.onSubmit. rewrite Hn, He, Hm. cbn [negb].
  cbn [Contact.messages Contact.set_errors Contact.nameInput Contact.emailInput
       Contact.messageInput].
  rewrite Hl. cbn [Js.unshift Contact.messageArray].
  change (VArr (Contact.message_value
                  {| Contact.msg_id := uuid;
                     Contact.msg_name := JsString.trim (Contact.nameInput pg);
                     Contact.msg_email := JsString.trim (Contact.emailInput pg);
                     Contact.msg_message := JsString.trim (Contact.messageInput pg);
                     Contact.msg_sentAt := now |} :: List.map Contact.message_value l))
    with (Contact.messageArray (new :: l)).
  cbn [Contact.storage Contact.set_submitDisabled Contact.set_messages
       Contact.set_errors].
  unfold Contact.saveMessages, setItem. rewrite Hset. cbn [bind try_catch negb].
  rewrite renderMessagesList_messages.
  eexists. split; [reflexivity |]. repeat split; reflexivity.
Qed.

End ContactSubmitFacts.

(** X2: a submission with an invalid field stores nothing: the handler
    ends normally with the in-memory list, the store, the typed values and
    the rendered list as they were; each field shows the message its own
    validator gives (none for a valid field), as blurring the three fields
    in turn would; the focus goes to the first invalid field in the order
    name, email, message. *)
Theorem X2_invalid_submission_stores_nothing {P : Platform} (pg : Contact.Page)
    (uuid : string) (now : Z) :
  let Name := Contact.validateName (Contact.nameInput pg) in
  let Email := Contact.validateEmail (Contact.emailInput pg) in
  let Message := Contact.validateMessage (Contact.messageInput pg) in
  Contact.valid Name && Contact.valid Email && Contact.valid Message = false ->
  exists pg',
    Contact.onSubmit uuid now pg = Contact.Done pg'
    /\ Contact.messages pg' = Contact.messages pg
    /\ Contact.storage pg' = Contact.storage pg
    /\ Contact.listView pg' = Contact.listView pg
    /\ (Contact.nameInput pg', Contact.emailInput pg', Contact.messageInput pg')
       = (Contact.nameInput pg, Contact.emailInput pg, Contact.messageInput pg)
    /\ (Contact.nameError pg', Contact.emailError pg', Contact.messageError pg')
       = (Contact.message Name, Contact.message Email, Contact.message Message)
    /\ (let blurred := Contact.onBlur Contact.MessageField
                         (Contact.onBlur Contact.EmailField
                            (Contact.onBlur Contact.NameField pg)) in
        (Contact.nameError pg', Contact.emailError pg', Contact.messageError pg')
        = (Contact.nameError blurred, Contact.emailError blurred,
           Contact.messageError blurred))
    /\ Contact.focused pg'
       = Some (if negb (Contact.valid Name) then "name"
               else if negb (Contact.valid Email) then "email" else "message").
Proof.
  intros Name Email Message Hinv.
  assert (Hmsg : forall f v,
    (if Contact.valid (Contact.validateField f v) then ""
     else Contact.message (Contact.validateField f v))
    = Contact.message (Contact.validateField f v)).
  { intros f v. destruct (Contact.valid (Contact.validateField f v)) eqn:Hv; [| reflexivity].
    symmetry. now apply validateField_message. }
  pose proof (Hmsg Contact.NameField (Contact.nameInput pg)) as Hn.
  pose proof (Hmsg Contact.EmailField (Contact.emailInput pg)) as He.
  pose proof (Hmsg Contact.MessageField (Contact.messageInput pg)) as Hm.
  cbn [Contact.validateField] in Hn, He, Hm. fold Name in Hn. fold Email in He.
  fold Message in Hm.
  unfold Contact.onSubmit. fold Name Email Message. rewrite Hn, He, Hm.
  unfold Contact.onBlur, Contact.validateAndShow, Contact.showFieldError.
  cbn [Contact.fieldValue Contact.validateField Contact.set_errors Contact.nameInput
       Contact.emailInput Contact.messageInput Contact.nameError Contact.emailError
       Contact.messageError].
  fold Name Email Message. rewrite Hn, He, Hm.
  destruct (Contact.valid Name); cbn [negb].
  - destruct (Contact.valid Email); cbn [negb].
    + destruct (Contact.valid Message); [discriminate |]. cbn [negb].
      eexists. split; [reflexivity |]. repeat split; reflexivity.
    + eexists. split; [reflexivity |]. repeat split; reflexivity.
  - eexists. split; [reflexivity |]. repeat split; reflexivity.
Qed.

Lemma X2_invalid_submission_stores_nothing_witness :
  let pg := Examples.page [Examples.hello] "Al" "not an email" "Hello there!!"
              (Reference.working (Examples.savedMessages [Examples.hello])) in
  Contact.valid (Contact.validateName (Contact.nameInput pg))
  && Contact.valid (Contact.validateEmail (Contact.emailInput pg))
  && Contact.valid (Contact.validateMessage (Contact.messageInput pg)) = false
  /\ exists pg',
      Contact.onSubmit (P := Reference.platform) "id-8" 1705400000000 pg
      = Contact.Done pg'
      /\ Contact.messages pg' = Contact.messages pg
      /\ Contact.storage pg' = Contact.storage pg
      /\ Contact.emailError pg' = "Enter a valid email."
      /\ Contact.focused pg' = Some "email".
Proof.
  intros pg.
  split; [reflexivity |].
  destruct (X2_invalid_submission_stores_nothing (P := Reference.platform) pg
              "id-8" 1705400000000%Z eq_refl)
    as (pg' & Hdone & Hmsgs & Hstore & _ & _ & Herr & _ & Hfocus).
  exists pg'. split; [exact Hdone |]. split; [exact Hmsgs |]. split; [exact Hstore |].
  split; [now inversion Herr | exact Hfocus].
Defined.

(** ** The contact form, event after event *)
Section ContactRunFacts.
Context {P : Platform}.

(** The page after a submission with an invalid field: only the error
    texts and the focus can differ. *)
Lemma contact_submit_rejected (pg : Contact.Page) (uuid : string) (now : Z) :
  Contact.valid (Contact.validateName (Contact.nameInput pg))
  && Contact.valid (Contact.validateEmail (Contact.emailInput pg))
  && Contact.valid (Contact.validateMessage (Contact.messageInput pg)) = false ->
  exists pg',
    Contact.onSubmit uuid now pg = Contact.Done pg'
    /\ Contact.messages pg' = Contact.messages pg
    /\ Contact.storage pg' = Contact.storage pg.
Proof.
  intros Hinv. unfold Contact.onSubmit.
  destruct (Contact.valid (Contact.validateName (Contact.nameInput pg))); cbn [negb].
  - destruct (Contact.valid (Contact.validateEmail (Contact.emailInput pg))); cbn [negb].
    + destruct (Contact.valid (Contact.validateMessage (Contact.messageInput pg)));
        [discriminate |]. cbn [negb]. eexists. repeat split; reflexivity.
    + eexists. repeat split; reflexivity.
  - eexists. repeat split; reflexivity.
Qed.

(** The page after a confirmed delete whose write succeeds. *)
Lemma contact_delete_saved (pg : Contact.Page) (l : list Contact.ContactMessage)
    (id : string) :
  Contact.messages pg = Contact.messageArray l ->
  JsString.nonEmpty id = true ->
  let l' := List.filter (fun m => negb (String.eqb (Contact.msg_id m) id)) l in
  setFails (Contact.storage pg) Contact.STORAGE_KEY
    (JSON_stringify (Contact.messageArray l')) = false ->
  exists pg',
    Contact.onListClick (Some (Some id)) true pg = Contact.Done pg'
    /\ Contact.messages pg' = Contact.messageArray l'
    /\ Contact.storage pg'
       = {| entries := <[Contact.STORAGE_KEY := JSON_stringify (Contact.messageArray l')]>
                         (entries (Contact.storage pg));
            getFails := getFails (Contact.storage pg);
            setFails := setFails (Contact.storage pg) |}
    /\ Contact.listView pg' = List.map OnEntities.messageRowOf l'
    /\ Contact.submitMessage pg' = Contact.submitMessage pg.
Proof.
  intros Hl Hid l' Hset.
  unfold Contact.onListClick. rewrite Hid, Hl, remove_messages. cbn [negb].
  fold l'. cbn [Contact.storage Contact.set_messages].
  unfold Contact.saveMessages, setItem. rewrite Hset. cbn [bind try_catch negb].
  rewrite renderMessagesList_messages.
  eexists. split; [reflexivity |]. repeat split; reflexivity.
Qed.

Lemma wellFormed_new_message (name email message uuid : string) (now : Z) :
  Contact.valid (Contact.validateName name) = true ->
  Contact.valid (Contact.validateEmail email) = true ->
  Contact.valid (Contact.validateMessage message) = true ->
  OnEntities.wellFormedMessage
    {| Contact.msg_id := uuid; Contact.msg_name := JsString.trim name;
       Contact.msg_email := JsString.trim email;
       Contact.msg_message := JsString.trim message; Contact.msg_sentAt := now |}.
Proof.
  intros Hn He Hm. unfold OnEntities.wellFormedMessage.
  cbn [Contact.msg_name Contact.msg_email Contact.msg_message].
  rewrite !trim_idem.
  apply validateName_valid in Hn. apply validateEmail_test in He.
  apply validateMessage_valid in Hm. auto 7.
Qed.

Lemma filter_Forall {A : Type} (Q : A -> Prop) (f : A -> bool) (l : list A) :
  Forall Q l -> Forall Q (List.filter f l).
Proof.
  intros H. apply List.Forall_forall. intros x Hx. apply filter_In in Hx as [Hx _].
  eapply List.Forall_forall in H; eauto.
Qed.

Lemma contact_handle_kept (e : Contact.Event) (pg : Contact.Page) :
  OnEntities.contactKept pg ->
  exists pg', Contact.handle e pg = Contact.Done pg' /\ OnEntities.contactKept pg'.
Proof.
  intros [(l & Hl & Hwf) Hw].
  assert (Hsame : forall pg',
    Contact.messages pg' = Contact.messages pg ->
    Contact.storage pg' = Contact.storage pg -> OnEntities.contactKept pg').
  { intros pg' Hm Hs. split; [exists l; rewrite Hm; auto | now rewrite Hs]. }
  destruct e as [uuid now | btn confirmed | f | f typed | f]; cbn [Contact.handle].
  - destruct (Contact.valid (Contact.validateName (Contact.nameInput pg))
              && Contact.valid (Contact.validateEmail (Contact.emailInput pg))
              && Contact.valid (Contact.validateMessage (Contact.messageInput pg)))
      eqn:Hv.
    + apply andb_true_iff in Hv as [Hv Hm]. apply andb_true_iff in Hv as [Hn He].
      destruct (contact_submit_saved pg l uuid now Hl Hn He Hm (Hw _ _))
        as (pg' & Hdone & Hmsgs & Hstore & _).
      exists pg'. split; [exact Hdone |]. split.
      * eexists. split; [exact Hmsgs |]. constructor; [| exact Hwf].
        now apply wellFormed_new_message.
      * rewrite Hstore. exact Hw.
    + destruct (contact_submit_rejected pg uuid now Hv) as (pg' & Hdone & Hm & Hs).
      exists pg'. split; [exact Hdone | now apply Hsame].
  - destruct btn as [[id|]|]; try (exists pg; split; [reflexivity | now apply Hsame]).
    destruct (JsString.nonEmpty id) eqn:Hid;
      [| exists pg; split; [cbn; now rewrite Hid | now apply Hsame]].
    destruct confirmed;
      [| exists pg; split; [cbn; now rewrite Hid | now apply Hsame]].
    destruct (contact_delete_saved pg l id Hl Hid (Hw _ _))
      as (pg' & Hdone & Hmsgs & Hstore & _).
    exists pg'. split; [exact Hdone |]. split.
    + eexists. split; [exact Hmsgs | now apply filter_Forall].
    + rewrite Hstore. exact Hw.
  - eexists. split; [reflexivity |]. apply Hsame; destruct f; reflexivity.
  - eexists. split; [reflexivity |]. apply Hsame; destruct f; reflexivity.
  - eexists. split; [reflexivity |]. apply Hsame; destruct f; reflexivity.
Qed.

End ContactRunFacts.

(** X3: in the contact form, as long as the store accepts writes, no
    listener ever raises and the data invariant of the list is kept: from a
    page whose list holds well-formed messages (trimmed texts, a name of 2
    or more, an email the pattern accepts, a message of 10 or more), every
    sequence of submissions, clicks on the list, keystrokes, blurs and
    validator timers ends in such a page, with no exception left uncaught. *)
Theorem X3_contact_list_stays_well_formed {P : Platform} (es : list Contact.Event)
    (pg : Contact.Page) :
  OnEntities.contactKept pg ->
  snd (Contact.run es pg) = [] /\ OnEntities.contactKept (fst (Contact.run es pg)).
Proof.
  revert pg. induction es as [|e es IH]; intros pg Hk; [split; [reflexivity | exact Hk] |].
  destruct (contact_handle_kept e pg Hk) as (pg' & Hdone & Hk').
  cbn [Contact.run]. rewrite Hdone. now apply IH.
Qed.

Lemma X3_contact_list_stays_well_formed_witness :
  let pg := Examples.page [Examples.hello] "" "" ""
              (Reference.working (Examples.savedMessages [Examples.hello])) in
  let es := [Contact.Input Contact.NameField " Al ";
             Contact.Input Contact.EmailField "a@b.co";
             Contact.Submit "id-8" 1705400000000;
             Contact.Input Contact.MessageField "Hello there!!";
             Contact.Blur Contact.MessageField;
             Contact.Submit "id-8" 1705400000000;
             Contact.ListClick (Some (Some "id-7")) true] in
  OnEntities.contactKept pg
  /\ snd (Contact.run (P := Reference.platform) es pg) = []
  /\ OnEntities.contactKept (fst (Contact.run (P := Reference.platform) es pg)).
Proof.
  intros pg es.
  assert (H : OnEntities.contactKept pg).
  { split; [| reflexivity]. exists [Examples.hello]. split; [reflexivity |].
    constructor; [| constructor].
    unfold OnEntities.wellFormedMessage. cbn.
    repeat split; try reflexivity; lia. }
  split; [exact H |].
  exact (X3_contact_list_stays_well_formed (P := Reference.platform) es pg H).
Defined.

(** On that run the list ends with the one submitted message. *)
Example contact_run_result :
  Contact.messages
    (fst (Contact.run (P := Reference.platform)
            [Contact.Input Contact.NameField " Al ";
             Contact.Input Contact.EmailField "a@b.co";
             Contact.Submit "id-8" 1705400000000;
             Contact.Input Contact.MessageField "Hello there!!";
             Contact.Blur Contact.MessageField;
             Contact.Submit "id-8" 1705400000000;
             Contact.ListClick (Some (Some "id-7")) true]
            (Examples.page [Examples.hello] "" "" ""
               (Reference.working (Examples.savedMessages [Examples.hello])))))
  = Contact.messageArray
      [ {| Contact.msg_id := "id-8"; Contact.msg_name := "Al";
           Contact.msg_email := "a@b.co"; Contact.msg_message := "Hello there!!";
           Contact.msg_sentAt := 1705400000000 |} ].
Proof. vm_compute. reflexivity. Qed.

(** ** The todo list, handler by handler *)
Section TodoHandlerFacts.
Context {P : Platform}.
Variable copy : Todo.Copy.

(** A valid submission whose write succeeds. *)
Lemma todo_submit_saved (st : Todo.App) (l : list Todo.TodoItem) (uuid now : string) :
  Todo.todos st = Todo.todoArray l ->
  (3 <= String.length (JsString.trim (Todo.todoInput st)))%nat ->
  let new := {| Todo.todo_id := uuid;
                Todo.todo_text := JsString.trim (Todo.todoInput st);
                Todo.todo_completed := false;
                Todo.todo_createdAt := now |} in
  setFails (Todo.storage st) Todo.STORAGE_KEY
    (JSON_stringify (Todo.todoArray (new :: l))) = false ->
  exists st',
    Todo.onSubmit copy uuid now st = Todo.Done st'
    /\ OnEntities.savedAndShown copy st st' (new :: l)
    /\ Todo.todoInput st' = ""
    /\ Todo.submitMsg st'
       = {| bannerText := "Todo added!"; bannerClass := "success";
            bannerAutoHide := None |}.
Proof.
  intros Hl Hlen new Hset.
  unfold Todo.onSubmit. rewrite nonEmpty_length.
  destruct (Nat.ltb_spec 0 (String.length (JsString.trim (Todo.todoInput st)))) as [_|?];
    [| lia].
  destruct (Nat.ltb_spec (String.length (JsString.trim (Todo.todoInput st))) 3) as [?|_];
    [lia |].
  cbn [negb]. rewrite Hl. cbn [Js.unshift Todo.todoArray].
  change (VArr (Todo.todo_value
                  {| Todo.todo_id := uuid;
                     Todo.todo_text := JsString.trim (Todo.todoInput st);
                     Todo.todo_completed := false;
                     Todo.todo_createdAt := now |} :: List.map Todo.todo_value l))
    with (Todo.todoArray (new :: l)).
  cbn [Todo.storage Todo.set_todos].
  unfold Todo.saveTodos, setItem. rewrite Hset. cbn [bind try_catch negb].
  rewrite (applyFiltersAndSearch_items copy _ (new :: l)) by reflexivity.
  eexists. split; [reflexivity |]. unfold OnEntities.savedAndShown.
  repeat split; reflexivity.
Qed.

(** A submission that the length test turns down. *)
Lemma todo_submit_rejected (st : Todo.App) (uuid now : string) :
  (String.length (JsString.trim (Todo.todoInput st)) < 3)%nat ->
  exists st',
    Todo.onSubmit copy uuid now st = Todo.Done st'
    /\ Todo.todos st' = Todo.todos st
    /\ Todo.storage st' = Todo.storage st
    /\ Todo.listView st' = Todo.listView st
    /\ Todo.counter st' = Todo.counter st
    /\ Todo.todoInput st' = Todo.todoInput st
    /\ bannerClass (Todo.submitMsg st') = "error".
Proof.
  intros Hlen. unfold Todo.onSubmit. rewrite nonEmpty_length.
  destruct (0 <? String.length (JsString.trim (Todo.todoInput st)))%nat; cbn [negb].
  - destruct (Nat.ltb_spec (String.length (JsString.trim (Todo.todoInput st))) 3) as [_|?];
      [| lia].
    eexists. repeat split; reflexivity.
  - eexists. repeat split; reflexivity.
Qed.

(** A confirmed delete whose write succeeds. *)
Lemma todo_delete_saved (st : Todo.App) (l : list Todo.TodoItem) (id : string) :
  Todo.todos st = Todo.todoArray l ->
  JsString.nonEmpty id = true ->
  let l' := List.filter (fun t => negb (String.eqb (Todo.todo_id t) id)) l in
  setFails (Todo.storage st) Todo.STORAGE_KEY
    (JSON_stringify (Todo.todoArray l')) = false ->
  exists st',
    Todo.onListClick copy (Todo.OnDelete (Some id) true) st = Todo.Done st'
    /\ OnEntities.savedAndShown copy st st' l'
    /\ Todo.todoInput st' = Todo.todoInput st
    /\ Todo.submitMsg st' = Todo.submitMsg st.
Proof.
  intros Hl Hid l' Hset.
  unfold Todo.onListClick. rewrite Hid, Hl, remove_items. cbn [negb]. fold l'.
  cbn [Todo.storage Todo.set_todos].
  unfold Todo.saveTodos, setItem. rewrite Hset. cbn [bind try_catch negb].
  rewrite (applyFiltersAndSearch_items copy _ l') by reflexivity.
  eexists. split; [reflexivity |]. unfold OnEntities.savedAndShown.
  repeat split; reflexivity.
Qed.

(** [find] and the assignment to [completed], on a list of items. *)
Lemma toggleFirst_items (id : string) (b : bool) (l : list Todo.TodoItem) :
  Todo.toggleFirst id b (List.map Todo.todo_value l)
  = Return (match OnEntities.toggleItems id b l with
            | Some l' => Some (List.map Todo.todo_value l')
            | None => None
            end).
Proof.
  induction l as [|t l IH]; [reflexivity |].
  cbn [List.map Todo.toggleFirst OnEntities.toggleItems].
  change (Js.get (Todo.todo_value t) "id") with (Return (Some (VStr (Todo.todo_id t)))).
  cbn [bind Js.strictEqStr].
  destruct (String.eqb (Todo.todo_id t) id); [reflexivity |].
  rewrite IH. cbn [bind]. destruct (OnEntities.toggleItems id b l); reflexivity.
Qed.

(** A toggle that finds its item and whose write succeeds. *)
Lemma todo_toggle_saved (st : Todo.App) (l l' : list Todo.TodoItem) (id : string)
    (checked : bool) :
  Todo.todos st = Todo.todoArray l ->
  JsString.nonEmpty id = true ->
  OnEntities.toggleItems id checked l = Some l' ->
  setFails (Todo.storage st) Todo.STORAGE_KEY
    (JSON_stringify (Todo.todoArray l')) = false ->
  exists st',
    Todo.onListClick copy (Todo.OnToggle (Some id) checked) st = Todo.Done st'
    /\ OnEntities.savedAndShown copy st st' l'
    /\ Todo.todoInput st' = Todo.todoInput st
    /\ Todo.submitMsg st' = Todo.submitMsg st.
Proof.
  intros Hl Hid Ht Hset.
  unfold Todo.onListClick. rewrite Hid, Hl. cbn [negb]. unfold Todo.todoArray at 1.
  rewrite toggleFirst_items, Ht.
  change (VArr (List.map Todo.todo_value l')) with (Todo.todoArray l').
  cbn [Todo.storage Todo.set_todos].
  unfold Todo.saveTodos, setItem. rewrite Hset. cbn [bind try_catch negb].
  rewrite (applyFiltersAndSearch_items copy _ l') by reflexivity.
  eexists. split; [reflexivity |]. unfold OnEntities.savedAndShown.
  repeat split; reflexivity.
Qed.

(** A toggle whose identifier no item carries changes nothing and writes
    nothing. *)
Lemma todo_toggle_unknown (st : Todo.App) (l : list Todo.TodoItem) (id : string)
    (checked : bool) :
  Todo.todos st = Todo.todoArray l ->
  OnEntities.toggleItems id checked l = None ->
  Todo.onListClick copy (Todo.OnToggle (Some id) checked) st = Todo.Done st.
Proof.
  intros Hl Ht. unfold Todo.onListClick.
  destruct (JsString.nonEmpty id); cbn [negb]; [| reflexivity].
  rewrite Hl. unfold Todo.todoArray. now rewrite toggleFirst_items, Ht.
Qed.

(** What [toggleItems] does to a list. *)
Lemma toggleItems_Some (id : string) (b : bool) (l l' : list Todo.TodoItem) :
  OnEntities.toggleItems id b l = Some l' ->
  exists (before : list Todo.TodoItem) (t : Todo.TodoItem) (after : list Todo.TodoItem),
    l = (before ++ t :: after)%list
    /\ Todo.todo_id t = id
    /\ (forall u, In u before -> Todo.todo_id u <> id)
    /\ l' = (before ++ {| Todo.todo_id := Todo.todo_id t;
                         Todo.todo_text := Todo.todo_text t;
                         Todo.todo_completed := b;
                         Todo.todo_createdAt := Todo.todo_createdAt t |} :: after)%list.
Proof.
  revert l'. induction l as [|t l IH]; intros l' H; [discriminate |].
  cbn [OnEntities.toggleItems] in H.
  destruct (String.eqb_spec (Todo.todo_id t) id) as [Heq|Hne].
  - inversion H; subst l'. exists [], t, l. repeat split; auto; intros u [].
  - destruct (OnEntities.toggleItems id b l) as [r|] eqn:Hr; [| discriminate].
    inversion H; subst l'.
    destruct (IH r eq_refl) as (before & u & after & -> & Hid & Hbefore & ->).
    exists (t :: before), u, after. repeat split; auto; intros w [<- | Hw]; auto.
Qed.

Lemma toggleItems_None (id : string) (b : bool) (l : list Todo.TodoItem) :
  OnEntities.toggleItems id b l = None <-> forall t, In t l -> Todo.todo_id t <> id.
Proof.
  induction l as [|t l IH]; cbn [OnEntities.toggleItems].
  - split; [intros _ t [] | reflexivity].
  - destruct (String.eqb_spec (Todo.todo_id t) id) as [Heq|Hne].
    + split; [discriminate |]. intros H. exfalso. apply (H t); [left; reflexivity | exact Heq].
    + destruct (OnEntities.toggleItems id b l) as [r|].
      * split; [discriminate |]. intros H.
        assert (Hr : Some r = None) by (apply IH; intros u Hu; apply H; now right).
        discriminate.
      * split; [| reflexivity]. intros _ u [<- | Hu]; [exact Hne |].
        now apply (proj1 IH).
Qed.

End TodoHandlerFacts.

(** ** The todo list, event after event *)
Section TodoRunFacts.
Context {P : Platform}.
Variable copy : Todo.Copy.

Lemma toggleItems_wellFormed (id : string) (b : bool) (l l' : list Todo.TodoItem) :
  OnEntities.toggleItems id b l = Some l' ->
  Forall OnEntities.wellFormedTodo l -> Forall OnEntities.wellFormedTodo l'.
Proof.
  intros Ht Hwf.
  destruct (toggleItems_Some id b l l' Ht) as (before & t & after & -> & _ & _ & ->).
  apply Forall_app in Hwf as [Hb Ha]. apply List.Forall_cons_iff in Ha as [Ht' Ha].
  apply Forall_app. split; [exact Hb |]. constructor; [exact Ht' | exact Ha].
Qed.

Lemma todo_handle_kept (e : Todo.Event) (st : Todo.App) :
  OnEntities.todoKept st ->
  exists st', Todo.handle copy e st = Todo.Done st' /\ OnEntities.todoKept st'.
Proof.
  intros [(l & Hl & Hwf) Hw].
  assert (Hsame : forall st',
    Todo.todos st' = Todo.todos st ->
    Todo.storage st' = Todo.storage st -> OnEntities.todoKept st').
  { intros st' Hm Hs. split; [exists l; rewrite Hm; auto | now rewrite Hs]. }
  assert (Hsaved : forall st' l',
    OnEntities.savedAndShown copy st st' l' ->
    Forall OnEntities.wellFormedTodo l' -> OnEntities.todoKept st').
  { intros st' l' (Ht & Hs & _) Hwf'. split; [eauto | rewrite Hs; exact Hw]. }
  assert (Hrender : forall s, Todo.todos s = Todo.todos st ->
    Todo.storage s = Todo.storage st ->
    exists st', Todo.applyFiltersAndSearch copy s = Todo.Done st'
                /\ OnEntities.todoKept st').
  { intros s Ht Hs. rewrite (applyFiltersAndSearch_items copy s l) by congruence.
    eexists. split; [reflexivity |]. apply Hsame; cbn; assumption. }
  destruct e as [uuid now | target | f | typed | typed |]; cbn [Todo.handle].
  - destruct (Nat.ltb_spec (String.length (JsString.trim (Todo.todoInput st))) 3)
      as [Hlt|Hge].
    + destruct (todo_submit_rejected copy st uuid now Hlt) as (st' & Hdone & Ht & Hs & _).
      exists st'. split; [exact Hdone | now apply Hsame].
    + destruct (todo_submit_saved copy st l uuid now Hl Hge (Hw _ _))
        as (st' & Hdone & Hsv & _).
      exists st'. split; [exact Hdone |]. eapply Hsaved; [exact Hsv |].
      constructor; [| exact Hwf]. split; [apply trim_idem | exact Hge].
  - destruct target as [[id|] confirmed | [id|] checked |];
      try (exists st; split; [reflexivity | now apply Hsame]).
    + destruct (JsString.nonEmpty id) eqn:Hid;
        [| exists st; split; [cbn; now rewrite Hid | now apply Hsame]].
      destruct confirmed;
        [| exists st; split; [cbn; now rewrite Hid | now apply Hsame]].
      destruct (todo_delete_saved copy st l id Hl Hid (Hw _ _))
        as (st' & Hdone & Hsv & _).
      exists st'. split; [exact Hdone |]. eapply Hsaved; [exact Hsv |].
      now apply filter_Forall.
    + destruct (JsString.nonEmpty id) eqn:Hid;
        [| exists st; split; [cbn; now rewrite Hid | now apply Hsame]].
      destruct (OnEntities.toggleItems id checked l) as [l'|] eqn:Ht.
      * destruct (todo_toggle_saved copy st l l' id checked Hl Hid Ht (Hw _ _))
          as (st' & Hdone & Hsv & _).
        exists st'. split; [exact Hdone |]. eapply Hsaved; [exact Hsv |].
        eapply toggleItems_wellFormed; eauto.
      * exists st. split; [now apply (todo_toggle_unknown copy st l) | now apply Hsame].
  - unfold Todo.onFilterClick. apply Hrender; reflexivity.
  - eexists. split; [reflexivity |]. apply Hsame; reflexivity.
  - eexists. split; [reflexivity |]. apply Hsame; reflexivity.
  - unfold Todo.debouncedSearch. apply Hrender; reflexivity.
Qed.

End TodoRunFacts.

(** X4: in both copies of the todo list, as long as the store accepts
    writes, no listener ever raises and the list keeps its data invariant:
    from a state whose list holds items with a trimmed text of 3 code units
    or more, every sequence of submissions, deletes, toggles, filter
    clicks, keystrokes and search timers ends in such a state, with no
    exception left uncaught. *)
Theorem X4_todo_list_stays_well_formed {P : Platform} (copy : Todo.Copy)
    (es : list Todo.Event) (st : Todo.App) :
  OnEntities.todoKept st ->
  snd (Todo.run copy es st) = [] /\ OnEntities.todoKept (fst (Todo.run copy es st)).
Proof.
  revert st. induction es as [|e es IH]; intros st Hk; [split; [reflexivity | exact Hk] |].
  destruct (todo_handle_kept copy e st Hk) as (st' & Hdone & Hk').
  cbn [Todo.run]. rewrite Hdone. now apply IH.
Qed.

Lemma X4_todo_list_stays_well_formed_witness :
  let st := Examples.app [Examples.newer; Examples.older] ""
              (Reference.working
                 (Examples.savedTodos [Examples.newer; Examples.older])) in
  let es := [Todo.TypeTodo " ok "; Todo.Submit "id-3" "2024-01-17T08:00:00.000Z";
             Todo.TypeTodo " Call Ann "; Todo.Submit "id-3" "2024-01-17T08:00:05.000Z";
             Todo.ListClick (Todo.OnToggle (Some "id-2") true);
             Todo.FilterClick (Some "active");
             Todo.TypeSearch "CALL"; Todo.SearchExpired;
             Todo.ListClick (Todo.OnDelete (Some "id-1") true)] in
  OnEntities.todoKept st
  /\ snd (Todo.run (P := Reference.platform) Todo.SortingCopy es st) = []
  /\ OnEntities.todoKept (fst (Todo.run (P := Reference.platform) Todo.SortingCopy es st)).
Proof.
  intros st es.
  assert (H : OnEntities.todoKept st).
  { split; [| reflexivity]. exists [Examples.newer; Examples.older].
    split; [reflexivity |].
    repeat constructor; cbn; lia. }
  split; [exact H |].
  exact (X4_todo_list_stays_well_formed (P := Reference.platform) Todo.SortingCopy es st H).
Defined.

(** On that run one row is visible at the end: the new item. *)
Example todo_run_result :
  let final :=
    fst (Todo.run (P := Reference.platform) Todo.SortingCopy
           [Todo.TypeTodo " ok "; Todo.Submit "id-3" "2024-01-17T08:00:00.000Z";
            Todo.TypeTodo " Call Ann "; Todo.Submit "id-3" "2024-01-17T08:00:05.000Z";
            Todo.ListClick (Todo.OnToggle (Some "id-2") true);
            Todo.FilterClick (Some "active");
            Todo.TypeSearch "CALL"; Todo.SearchExpired;
            Todo.ListClick (Todo.OnDelete (Some "id-1") true)]
           (Examples.app [Examples.newer; Examples.older] ""
              (Reference.working
                 (Examples.savedTodos [Examples.newer; Examples.older])))) in
  List.map Todo.row_id (Todo.listView final) = ["id-3"]
  /\ Todo.counter final = (2, 1)%nat.
Proof. vm_compute. split; reflexivity. Qed.

(** X5: in both scripts, a confirmed delete whose write the store accepts
    ends normally; the list is then the old one without the entries that
    carry the identifier, in the old order; the store holds the text of
    that list; the rendered rows are those of what the script derives
    from that list under the filter and the query (in the copy that
    sorts: newest first when every shown item carries a date, the
    engine's order otherwise) and the counter (todo list) is that of the
    list; the message element is left as it was. *)
Theorem X5_delete_removes_and_saves {P : Platform} (id : string) :
  JsString.nonEmpty id = true ->
  (forall (copy : Todo.Copy) (st : Todo.App) (l : list Todo.TodoItem),
      Todo.todos st = Todo.todoArray l ->
      let l' := List.filter (fun t => negb (String.eqb (Todo.todo_id t) id)) l in
      setFails (Todo.storage st) Todo.STORAGE_KEY
        (JSON_stringify (Todo.todoArray l')) = false ->
      exists st',
        Todo.onListClick copy (Todo.OnDelete (Some id) true) st = Todo.Done st'
        /\ OnEntities.savedAndShown copy st st' l'
        /\ Todo.submitMsg st' = Todo.submitMsg st
        /\ (forall t, In t l' <-> In t l /\ Todo.todo_id t <> id))
  /\ (forall (pg : Contact.Page) (l : list Contact.ContactMessage),
        Contact.messages pg = Contact.messageArray l ->
        let l' := List.filter (fun m => negb (String.eqb (Contact.msg_id m) id)) l in
        setFails (Contact.storage pg) Contact.STORAGE_KEY
          (JSON_stringify (Contact.messageArray l')) = false ->
        exists pg',
          Contact.onListClick (Some (Some id)) true pg = Contact.Done pg'
          /\ Contact.messages pg' = Contact.messageArray l'
          /\ entries (Contact.storage pg')
             = <[Contact.STORAGE_KEY := JSON_stringify (Contact.messageArray l')]>
                 (entries (Contact.storage pg))
          /\ Contact.listView pg' = List.map OnEntities.messageRowOf l'
          /\ Contact.submitMessage pg' = Contact.submitMessage pg
          /\ (forall m, In m l' <-> In m l /\ Contact.msg_id m <> id)).
Proof.
  intros Hid. split.
  - intros copy st l Hl l' Hset.
    destruct (todo_delete_saved copy st l id Hl Hid Hset) as (st' & Hdone & Hsv & _ & Hm).
    exists st'. split; [exact Hdone |]. split; [exact Hsv |]. split; [exact Hm |].
    intros t. unfold l'. rewrite filter_In, negb_true_iff, String.eqb_neq. tauto.
  - intros pg l Hl l' Hset.
    destruct (contact_delete_saved pg l id Hl Hid Hset)
      as (pg' & Hdone & Hmsgs & Hstore & Hview & Hm).
    exists pg'. rewrite Hstore.
    split; [exact Hdone |]. split; [exact Hmsgs |]. split; [reflexivity |].
    split; [exact Hview |]. split; [exact Hm |].
    intros m. unfold l'. rewrite filter_In, negb_true_iff, String.eqb_neq. tauto.
Qed.

Lemma X5_delete_removes_and_saves_witness :
  let st := Examples.app [Examples.newer; Examples.older] ""
              (Reference.working
                 (Examples.savedTodos [Examples.newer; Examples.older])) in
  (JsString.nonEmpty "id-1" = true
   /\ Todo.todos st = Todo.todoArray [Examples.newer; Examples.older]
   /\ setFails (Todo.storage st) Todo.STORAGE_KEY
        (JSON_stringify (Platform := Reference.platform)
           (Todo.todoArray [Examples.newer])) = false)
  /\ exists st',
      Todo.onListClick (P := Reference.platform) Todo.SearchCopy
        (Todo.OnDelete (Some "id-1") true) st = Todo.Done st'
      /\ Todo.todos st' = Todo.todoArray [Examples.newer].
Proof.
  intros st. split; [repeat split; reflexivity |].
  destruct (proj1 (X5_delete_removes_and_saves (P := Reference.platform) "id-1" eq_refl)
              Todo.SearchCopy st [Examples.newer; Examples.older] eq_refl eq_refl)
    as (st' & Hdone & (Htodos & _) & _).
  exists st'. split; [exact Hdone | exact Htodos].
Defined.

(** X6: a toggle changes the first item that carries the identifier and
    no other: with the store accepting the write, the handler ends
    normally, that item's completed flag is the state of the checkbox, its
    identifier, text and date and every other item are as before, the
    store holds the text of the new list, the view is what the script
    derives from the new list (in the copy that sorts: newest first when
    every shown item carries a date, the engine's order otherwise) and
    the counter is that of the new list.  When no item carries the
    identifier the handler ends normally with the whole state as it was,
    the store included. *)
Theorem X6_toggle_first_match {P : Platform} (copy : Todo.Copy) (st : Todo.App)
    (id : string) (checked : bool) :
  JsString.nonEmpty id = true ->
  (forall (before : list Todo.TodoItem) (t : Todo.TodoItem) (after : list Todo.TodoItem),
      Todo.todos st = Todo.todoArray (before ++ t :: after)%list ->
      Todo.todo_id t = id ->
      (forall u, In u before -> Todo.todo_id u <> id) ->
      let t' := {| Todo.todo_id := Todo.todo_id t; Todo.todo_text := Todo.todo_text t;
                   Todo.todo_completed := checked;
                   Todo.todo_createdAt := Todo.todo_createdAt t |} in
      setFails (Todo.storage st) Todo.STORAGE_KEY
        (JSON_stringify (Todo.todoArray (before ++ t' :: after)%list)) = false ->
      exists st',
        Todo.onListClick copy (Todo.OnToggle (Some id) checked) st = Todo.Done st'
        /\ OnEntities.savedAndShown copy st st' (before ++ t' :: after)%list
        /\ Todo.submitMsg st' = Todo.submitMsg st)
  /\ (forall l : list Todo.TodoItem,
        Todo.todos st = Todo.todoArray l ->
        (forall u, In u l -> Todo.todo_id u <> id) ->
        Todo.onListClick copy (Todo.OnToggle (Some id) checked) st = Todo.Done st).
Proof.
  intros Hid. split.
  - intros before t after Hl Ht Hbefore t' Hset.
    assert (Htog : OnEntities.toggleItems id checked (before ++ t :: after)%list
                   = Some (before ++ t' :: after)%list).
    { clear Hl Hset. induction before as [|u before IH]; cbn [app OnEntities.toggleItems].
      - destruct (String.eqb_spec (Todo.todo_id t) id); [reflexivity | contradiction].
      - destruct (String.eqb_spec (Todo.todo_id u) id) as [Heq|_].
        + exfalso. apply (Hbefore u); [left; reflexivity | exact Heq].
        + rewrite IH; [reflexivity |]. intros w Hw. apply Hbefore. now right. }
    destruct (todo_toggle_saved copy st _ _ id checked Hl Hid Htog Hset)
      as (st' & Hdone & Hsv & _ & Hm).
    exists st'. auto.
  - intros l Hl Hnone. apply (todo_toggle_unknown copy st l id checked Hl).
    now apply toggleItems_None.
Qed.

Lemma X6_toggle_first_match_witness :
  let st := Examples.app [Examples.newer; Examples.older] ""
              (Reference.working
                 (Examples.savedTodos [Examples.newer; Examples.older])) in
  (JsString.nonEmpty "id-1" = true
   /\ Todo.todos st = Todo.todoArray ([Examples.newer] ++ Examples.older :: [])%list
   /\ Todo.todo_id Examples.older = "id-1")
  /\ exists st',
      Todo.onListClick (P := Reference.platform) Todo.SearchCopy
        (Todo.OnToggle (Some "id-1") false) st = Todo.Done st'
      /\ Todo.counter st' = (2, 0)%nat.
Proof.
  intros st. split; [repeat split; reflexivity |].
  assert (Hb : forall u, In u [Examples.newer] -> Todo.todo_id u <> "id-1").
  { intros u [<- | []]. discriminate. }
  destruct (proj1 (X6_toggle_first_match (P := Reference.platform) Todo.SearchCopy st
                     "id-1" false eq_refl)
              [Examples.newer] Examples.older [] eq_refl eq_refl Hb eq_refl)
    as (st' & Hdone & (_ & _ & _ & Hc & _) & _).
  exists st'. split; [exact Hdone | exact Hc].
Defined.

(** ** What is visible *)
Section VisibleListFacts.
Context {P : Platform}.

Lemma scriptResults_In (copy : Todo.Copy) (m : Spec.FilterMode) (query : string)
    (l : list Todo.TodoItem) (u : Todo.TodoItem) :
  In u (OnEntities.scriptResults copy (Spec.modeName m) query l)
  <-> In u (Spec.survivors l m query).
Proof.
  rewrite scriptResults_steps. destruct copy; [reflexivity |].
  unfold Spec.derive. split; intros H.
  - eapply Permutation_in; [apply sortedByScript_perm | exact H].
  - eapply Permutation_in; [symmetry; apply sortedByScript_perm | exact H].
Qed.

Lemma trim_blank (s : string) :
  JsString.allChars JsString.isWhiteSpace s = true -> JsString.trim s = "".
Proof. intros H. unfold JsString.trim. now rewrite trimStart_space. Qed.

Lemma lowerChar_idem (c : ascii) :
  JsString.lowerChar (JsString.lowerChar c) = JsString.lowerChar c.
Proof. destruct c as [[] [] [] [] [] [] [] []]; reflexivity. Qed.

Lemma lowerChar_space (c : ascii) :
  JsString.isWhiteSpace (JsString.lowerChar c) = JsString.isWhiteSpace c.
Proof. destruct c as [[] [] [] [] [] [] [] []]; reflexivity. Qed.

Lemma toLowerCase_idem (s : string) :
  JsString.toLowerCase (JsString.toLowerCase s) = JsString.toLowerCase s.
Proof.
  induction s as [|c s IH]; cbn [JsString.toLowerCase]; [reflexivity |].
  now rewrite lowerChar_idem, IH.
Qed.

Lemma trimStart_toLowerCase (s : string) :
  JsString.trimStart (JsString.toLowerCase s) = JsString.toLowerCase (JsString.trimStart s).
Proof.
  induction s as [|c s IH]; cbn [JsString.toLowerCase JsString.trimStart]; [reflexivity |].
  rewrite lowerChar_space. destruct (JsString.isWhiteSpace c); [exact IH | reflexivity].
Qed.

Lemma trimEnd_toLowerCase (s : string) :
  JsString.trimEnd (JsString.toLowerCase s) = JsString.toLowerCase (JsString.trimEnd s).
Proof.
  induction s as [|c s IH]; cbn [JsString.toLowerCase JsString.trimEnd]; [reflexivity |].
  rewrite IH, lowerChar_space.
  destruct (JsString.trimEnd s); cbn [JsString.toLowerCase]; [| reflexivity].
  destruct (JsString.isWhiteSpace c); reflexivity.
Qed.

Lemma trim_toLowerCase (s : string) :
  JsString.trim (JsString.toLowerCase s) = JsString.toLowerCase (JsString.trim s).
Proof. unfold JsString.trim. now rewrite trimStart_toLowerCase, trimEnd_toLowerCase. Qed.

End VisibleListFacts.

(** X7: with distinct identifiers in the list and a store that accepts
    writes, checking the box of an item and then choosing the filter
    "active" raises nothing and leaves no row of that item in the rendered
    list, in both copies and whatever the search query. *)
Theorem X7_checked_item_not_active {P : Platform} (copy : Todo.Copy) (st : Todo.App)
    (l : list Todo.TodoItem) (id : string) :
  Todo.todos st = Todo.todoArray l ->
  List.NoDup (List.map Todo.todo_id l) ->
  JsString.nonEmpty id = true ->
  (forall k v, setFails (Todo.storage st) k v = false) ->
  let out := Todo.run copy [Todo.ListClick (Todo.OnToggle (Some id) true);
                            Todo.FilterClick (Some "active")] st in
  snd out = []
  /\ Todo.currentFilter (fst out) = "active"
  /\ forall row, In row (Todo.listView (fst out)) -> Todo.row_id row <> id.
Proof.
  intros Hl Hnd Hid Hw.
  assert (Hshow : forall s l',
    Todo.todos s = Todo.todoArray l' ->
    (forall u, In u l' -> Todo.todo_id u = id -> Todo.todo_completed u = true) ->
    let out := Todo.run copy [Todo.FilterClick (Some "active")] s in
    snd out = [] /\ Todo.currentFilter (fst out) = "active"
    /\ forall row, In row (Todo.listView (fst out)) -> Todo.row_id row <> id).
  { intros s l' Hs Hdone. cbn [Todo.run Todo.handle]. unfold Todo.onFilterClick.
    cbn [JsString.nonEmpty].
    rewrite (applyFiltersAndSearch_items copy _ l') by exact Hs.
    cbn [fst snd Todo.currentFilter Todo.listView Todo.set_counter Todo.set_listView
         Todo.set_currentFilter Todo.currentQuery].
    split; [reflexivity |]. split; [reflexivity |].
    intros row Hrow. apply in_map_iff in Hrow as (u & <- & Hu).
    change "active" with (Spec.modeName Spec.Active) in Hu.
    apply scriptResults_In, survivors_In in Hu as (Hin & Hact & _).
    cbn [OnEntities.rowOf Todo.row_id]. intros Heq.
    cbn [Spec.keptByMode] in Hact.
    rewrite (Hdone u Hin Heq) in Hact. discriminate. }
  destruct (OnEntities.toggleItems id true l) as [l'|] eqn:Ht.
  - destruct (todo_toggle_saved copy st l l' id true Hl Hid Ht (Hw _ _))
      as (st1 & Hdone & (Htodos & _) & _).
    cbn [Todo.run Todo.handle]. rewrite Hdone.
    apply (Hshow st1 l' Htodos).
    destruct (toggleItems_Some id true l l' Ht) as (before & t & after & -> & Htid & Hb & ->).
    intros u Hu Heq. apply in_app_or in Hu as [Hu | [<- | Hu]].
    + exfalso. now apply (Hb u).
    + reflexivity.
    + exfalso. rewrite map_app in Hnd. cbn [List.map] in Hnd.
      apply NoDup_remove_2 in Hnd. apply Hnd. apply in_or_app. right.
      rewrite Htid, <- Heq. now apply in_map.
  - cbn [Todo.run Todo.handle]. rewrite (todo_toggle_unknown copy st l id true Hl Ht).
    apply (Hshow st l Hl).
    intros u Hu Heq. exfalso.
    now apply (proj1 (toggleItems_None id true l) Ht u).
Qed.

Lemma X7_checked_item_not_active_witness :
  let st := Examples.app [Examples.newer; Examples.older] ""
              (Reference.working
                 (Examples.savedTodos [Examples.newer; Examples.older])) in
  (Todo.todos st = Todo.todoArray [Examples.newer; Examples.older]
   /\ List.NoDup (List.map Todo.todo_id [Examples.newer; Examples.older])
   /\ JsString.nonEmpty "id-2" = true
   /\ (forall k v, setFails (Todo.storage st) k v = false))
  /\ forall row,
      In row (Todo.listView
                (fst (Todo.run (P := Reference.platform) Todo.SearchCopy
                        [Todo.ListClick (Todo.OnToggle (Some "id-2") true);
                         Todo.FilterClick (Some "active")] st))) ->
      Todo.row_id row <> "id-2".
Proof.
  intros st.
  assert (Hnd : List.NoDup (List.map Todo.todo_id [Examples.newer; Examples.older])).
  { cbn. constructor; [intros [H | []]; discriminate |].
    constructor; [intros [] | constructor]. }
  split; [split; [reflexivity | split; [exact Hnd | split; reflexivity]] |].
  exact (proj2 (proj2 (X7_checked_item_not_active (P := Reference.platform)
                         Todo.SearchCopy st [Examples.newer; Examples.older] "id-2"
                         eq_refl Hnd eq_refl (fun _ _ => eq_refl)))).
Defined.

(** X8: the counter always counts the whole list, not the visible part:
    after [applyFiltersAndSearch] on a list of items it shows the length
    of the list and the number of its completed items, and it shows the
    same two numbers under every other filter and query. *)
Theorem X8_counter_counts_whole_list {P : Platform} (copy : Todo.Copy) (st : Todo.App)
    (l : list Todo.TodoItem) :
  Todo.todos st = Todo.todoArray l ->
  exists st',
    Todo.applyFiltersAndSearch copy st = Todo.Done st'
    /\ Todo.counter st' = (length l, length (List.filter Todo.todo_completed l))
    /\ (snd (Todo.counter st') <= fst (Todo.counter st'))%nat
    /\ forall filter query,
         Todo.counter
           (Todo.stateOf
              (Todo.applyFiltersAndSearch copy
                 (Todo.set_currentQuery query (Todo.set_currentFilter filter st))))
         = Todo.counter st'.
Proof.
  intros Hl. rewrite (applyFiltersAndSearch_items copy st l Hl).
  eexists. split; [reflexivity |].
  cbn [Todo.counter Todo.listView Todo.set_counter Todo.set_listView fst snd].
  split; [reflexivity |]. split; [apply List.filter_length_le |].
  intros filter query.
  now rewrite (applyFiltersAndSearch_items copy _ l) by exact Hl.
Qed.

Lemma X8_counter_counts_whole_list_witness :
  let st := Todo.set_currentFilter "completed"
              (Examples.app [Examples.newer; Examples.older] "" (Reference.working ∅)) in
  Todo.todos st = Todo.todoArray [Examples.newer; Examples.older]
  /\ exists st',
      Todo.applyFiltersAndSearch (P := Reference.platform) Todo.SearchCopy st
      = Todo.Done st'
      /\ Todo.counter st' = (2, 1)%nat
      /\ Todo.counter
           (Todo.stateOf
              (Todo.applyFiltersAndSearch (P := Reference.platform) Todo.SearchCopy
                 (Todo.set_currentQuery "report" (Todo.set_currentFilter "active" st))))
         = (2, 1)%nat.
Proof.
  intros st. split; [reflexivity |].
  destruct (X8_counter_counts_whole_list (P := Reference.platform) Todo.SearchCopy st
              [Examples.newer; Examples.older] eq_refl)
    as (st' & Hdone & Hc & _ & Hany).
  exists st'. split; [exact Hdone |]. split; [exact Hc |].
  rewrite (Hany "active" "report"). exact Hc.
Defined.

(** X9: a filter name other than "active" and "completed" filters
    nothing, and a query of white space only searches nothing: then the
    copy without sort shows the whole list in list order and the sorting
    copy shows the whole list in the order its sort leaves, which is
    newest first when every item carries a date and the engine's
    otherwise.  A filter button without a [data-filter] value, or with an
    empty one, selects "all". *)
Theorem X9_unknown_filter_blank_query_show_all {P : Platform} (copy : Todo.Copy)
    (st : Todo.App) (l : list Todo.TodoItem) :
  Todo.todos st = Todo.todoArray l ->
  Todo.currentFilter st <> "active" ->
  Todo.currentFilter st <> "completed" ->
  JsString.allChars JsString.isWhiteSpace (Todo.currentQuery st) = true ->
  Todo.results copy st
  = Return (Todo.todoArray (match copy with
                            | Todo.SortingCopy => OnEntities.sortedByScript l
                            | Todo.SearchCopy => l
                            end))
  /\ Permutation (OnEntities.sortedByScript l) l
  /\ (Forall Spec.hasDate l ->
      OnEntities.sortedByScript l = Spec.sortNewest l
      /\ Spec.newestFirst (OnEntities.sortedByScript l))
  /\ Todo.currentFilter (Todo.stateOf (Todo.onFilterClick copy None st)) = "all"
  /\ Todo.currentFilter (Todo.stateOf (Todo.onFilterClick copy (Some "") st)) = "all".
Proof.
  intros Hl Ha Hc Hq. split; [| split; [apply sortedByScript_perm | split]].
  - rewrite (results_items copy st l Hl). unfold OnEntities.scriptResults.
    rewrite (trim_blank _ Hq). cbn [JsString.toLowerCase String.length Nat.ltb Nat.leb].
    apply String.eqb_neq in Ha, Hc. rewrite Ha, Hc. reflexivity.
  - intros Hd. rewrite (sortedByScript_dated l Hd).
    split; [reflexivity | now apply sortNewest_sorted].
  - unfold Todo.onFilterClick. cbn [JsString.nonEmpty].
    destruct (applyFiltersAndSearch_frame copy (Todo.set_currentFilter "all" st))
      as (_ & _ & _ & _ & Hf & _).
    cbn zeta in Hf. rewrite Hf. split; reflexivity.
Qed.

Lemma X9_unknown_filter_blank_query_show_all_witness :
  let st := Todo.set_currentQuery "   "
              (Todo.set_currentFilter "done"
                 (Examples.app [Examples.older; Examples.newer] ""
                    (Reference.working ∅))) in
  (Todo.todos st = Todo.todoArray [Examples.older; Examples.newer]
   /\ Todo.currentFilter st <> "active"
   /\ Todo.currentFilter st <> "completed"
   /\ JsString.allChars JsString.isWhiteSpace (Todo.currentQuery st) = true)
  /\ Todo.results (P := Reference.platform) Todo.SearchCopy st
     = Return (Todo.todoArray [Examples.older; Examples.newer]).
Proof.
  intros st.
  assert (Ha : Todo.currentFilter st <> "active") by discriminate.
  assert (Hc : Todo.currentFilter st <> "completed") by discriminate.
  split; [split; [reflexivity | split; [exact Ha | split; [exact Hc | reflexivity]]] |].
  exact (proj1 (X9_unknown_filter_blank_query_show_all (P := Reference.platform)
                  Todo.SearchCopy st [Examples.older; Examples.newer]
                  eq_refl Ha Hc eq_refl)).
Defined.

(** X10: the search does not see letter case, on either side: writing the
    query in lower case changes nothing in what [applyFiltersAndSearch]
    hands to the renderer, whatever the in-memory value, and an item is
    kept by a query exactly when the item with its text in lower case
    is. *)
Theorem X10_search_ignores_letter_case {P : Platform} (copy : Todo.Copy) (st : Todo.App)
    (query : string) :
  Todo.results copy (Todo.set_currentQuery (JsString.toLowerCase query) st)
  = Todo.results copy (Todo.set_currentQuery query st)
  /\ forall (q : string) (t : Todo.TodoItem),
       Todo.textIncludes q
         (Todo.todo_value {| Todo.todo_id := Todo.todo_id t;
                             Todo.todo_text := JsString.toLowerCase (Todo.todo_text t);
                             Todo.todo_completed := Todo.todo_completed t;
                             Todo.todo_createdAt := Todo.todo_createdAt t |})
       = Todo.textIncludes q (Todo.todo_value t).
Proof.
  split.
  - unfold Todo.results.
    cbn [Todo.currentQuery Todo.set_currentQuery Todo.todos Todo.currentFilter].
    now rewrite trim_toLowerCase, toLowerCase_idem.
  - intros q t. rewrite !textIncludes_item. cbn [Todo.todo_text].
    now rewrite toLowerCase_idem.
Qed.

(** X11: a todo text that is empty or white space only is refused with
    "Please enter a todo.": the submit handler ends normally, and the
    list, the store, the rendered list, the counter and the field are as
    they were. *)
Theorem X11_blank_todo_refused {P : Platform} (copy : Todo.Copy)
    (st : Todo.App) (uuid now : string) :
  JsString.allChars JsString.isWhiteSpace (Todo.todoInput st) = true ->
  exists st',
    Todo.onSubmit copy uuid now st = Todo.Done st'
    /\ bannerText (Todo.submitMsg st') = "Please enter a todo."
    /\ bannerClass (Todo.submitMsg st') = "error"
    /\ Todo.todos st' = Todo.todos st
    /\ Todo.storage st' = Todo.storage st
    /\ Todo.listView st' = Todo.listView st
    /\ Todo.counter st' = Todo.counter st
    /\ Todo.todoInput st' = Todo.todoInput st.
Proof.
  intros Hblank. unfold Todo.onSubmit. rewrite (trim_blank _ Hblank).
  cbn [JsString.nonEmpty negb]. eexists. repeat split; reflexivity.
Qed.

Lemma X11_blank_todo_refused_witness :
  let st := Examples.app [Examples.newer; Examples.older] "   "
              (Reference.working
                 (Examples.savedTodos [Examples.newer; Examples.older])) in
  JsString.allChars JsString.isWhiteSpace (Todo.todoInput st) = true
  /\ exists st',
      Todo.onSubmit (P := Reference.platform) Todo.SearchCopy
        "id-3" "2024-01-17T08:00:00.000Z" st = Todo.Done st'
      /\ bannerText (Todo.submitMsg st') = "Please enter a todo."
      /\ Todo.todos st' = Todo.todos st.
Proof.
  intros st. split; [reflexivity |].
  destruct (X11_blank_todo_refused (P := Reference.platform)
              Todo.SearchCopy st "id-3" "2024-01-17T08:00:00.000Z" eq_refl)
    as (st' & Hdone & Hb & _ & Ht & _).
  exists st'. split; [exact Hdone |]. split; [exact Hb | exact Ht].
Defined.

(** ** What escaping and date formatting keep *)
Section EscapeKeepsFacts.

Ltac by_code c :=
  destruct (Ascii.eqb_spec c "&") as [->|?];
  [| destruct (Ascii.eqb_spec c "<") as [->|?];
     [| destruct (Ascii.eqb_spec c ">") as [->|?];
        [| destruct (Ascii.eqb_spec c dquote) as [->|?];
           [| destruct (Ascii.eqb_spec c squote) as [->|?]]]]];
  repeat match goal with H : _ <> _ |- _ => apply Ascii.eqb_neq in H end.

Lemma passes_length (s : string) :
  (String.length s <= String.length (Spec.passes s))%nat.
Proof.
  induction s as [|c s IH]; [reflexivity |].
  rewrite passes_cons. by_code c; simpl; lia.
Qed.

(** The five replacements are a prefix code: the output determines the
    input. *)
Lemma passes_inj (s t : string) : Spec.passes s = Spec.passes t -> s = t.
Proof.
  revert t. induction s as [|c s IH]; intros [|d t].
  - reflexivity.
  - rewrite passes_cons. by_code d; simpl; discriminate.
  - rewrite passes_cons. by_code c; simpl; discriminate.
  - rewrite !passes_cons.
    by_code c; by_code d; simpl; intros H; try discriminate H;
      injection H as; subst;
      try match goal with
          | E : Ascii.eqb ?a ?a = false |- _ => rewrite Ascii.eqb_refl in E; discriminate E
          end;
      f_equal; apply IH; assumption.
Qed.

(** A code unit [escapeHtml] leaves alone. *)
Lemma plain_unit (c : ascii) :
  negb (Ascii.eqb c "&" || Spec.forbidden c) = true <->
  Ascii.eqb c "&" = false /\ Ascii.eqb c "<" = false /\ Ascii.eqb c ">" = false
  /\ Ascii.eqb c dquote = false /\ Ascii.eqb c squote = false.
Proof.
  unfold Spec.forbidden. rewrite negb_true_iff, !orb_false_iff. tauto.
Qed.

Lemma passes_fixed (s : string) :
  Spec.passes s = s <->
  JsString.allChars (fun c => negb (Ascii.eqb c "&" || Spec.forbidden c)) s = true.
Proof.
  induction s as [|c s IH]; [simpl; tauto |].
  cbn [JsString.allChars]. rewrite andb_true_iff, <- IH, plain_unit, passes_cons.
  pose proof (passes_length s) as Hlen.
  split.
  - by_code c; simpl; intros H;
      try (apply (f_equal String.length) in H; simpl in H; lia).
    injection H as H. tauto.
  - intros ((H1 & H2 & H3 & H4 & H5) & ->). now rewrite H1, H2, H3, H4, H5.
Qed.

Lemma replaceFirst_at (pat : ascii) (rep pre post : string) :
  JsString.allChars (fun c => negb (Ascii.eqb c pat)) pre = true ->
  Js.replaceFirst pat rep (pre +:+ String pat post) = pre +:+ rep +:+ post.
Proof.
  induction pre as [|c pre IH]; simpl.
  - intros _. now rewrite Ascii.eqb_refl.
  - rewrite andb_true_iff, negb_true_iff. intros [-> H]. now rewrite IH.
Qed.

Lemma replaceFirst_absent (pat : ascii) (rep s : string) :
  JsString.allChars (fun c => negb (Ascii.eqb c pat)) s = true ->
  Js.replaceFirst pat rep s = s.
Proof.
  induction s as [|c s IH]; simpl; [reflexivity |].
  rewrite andb_true_iff, negb_true_iff. intros [-> H]. now rewrite IH.
Qed.

End EscapeKeepsFacts.

(** X12: [escapeHtml] loses nothing of a string: two strings with the
    same escaped text are the same string; the escaped text is never
    shorter than the string; and it is the string itself exactly when the
    string holds none of [&], [<], [>], the double quote and the single
    quote. *)
Theorem X12_escapeHtml_loses_nothing {P : Platform} (s t : string) :
  (escapeHtml (Some (VStr s)) = escapeHtml (Some (VStr t)) <-> s = t)
  /\ (String.length s <= String.length (escapeHtml (Some (VStr s))))%nat
  /\ (escapeHtml (Some (VStr s)) = s <->
      JsString.allChars (fun c => negb (Ascii.eqb c "&" || Spec.forbidden c)) s = true).
Proof.
  assert (He : forall u, escapeHtml (Some (VStr u)) = Spec.passes u).
  { intros u. unfold escapeHtml, stringOrEmpty, Spec.passes. now rewrite ToString_string. }
  rewrite !He. split; [| split].
  - split; [apply passes_inj | now intros ->].
  - apply passes_length.
  - apply passes_fixed.
Qed.

(** X13: [formatDate] rewrites the first comma of the localized text and
    nothing else: the text before it and everything after it, further
    commas included, are kept; a text without a comma is returned as it
    is. *)
Theorem X13_formatDate_first_comma_only {P : Platform} (x : option value)
    (pre post : string) :
  JsString.allChars (fun c => negb (Ascii.eqb c ",")) pre = true ->
  (Date_toLocaleString x = pre +:+ String "," post ->
   formatDate x = pre +:+ " at" +:+ post)
  /\ (Date_toLocaleString x = pre -> formatDate x = pre).
Proof.
  intros Hpre. unfold formatDate. split; intros ->.
  - now apply replaceFirst_at.
  - now apply replaceFirst_absent.
Qed.

Lemma X13_formatDate_first_comma_only_witness :
  formatDate (P := Reference.platform) (Some (VStr "Jan 15, 2024, 2:30 PM"))
  = "Jan 15 at 2024, 2:30 PM".
Proof.
  exact (proj1 (X13_formatDate_first_comma_only (P := Reference.platform)
                  (Some (VStr "Jan 15, 2024, 2:30 PM")) "Jan 15" " 2024, 2:30 PM"
                  eq_refl) eq_refl).
Defined.

(** ** A stored value that is not an array *)
Section NonArrayFacts.
Context {P : Platform}.

Lemma unshift_non_array (v x : value) :
  (forall l, v <> VArr l) -> Js.unshift v x = Throw TypeError.
Proof. intros H. destruct v; try reflexivity. now destruct (H elems). Qed.

Lemma filter_non_array (v : value) (p : value -> Result bool) :
  (forall l, v <> VArr l) -> Js.filter v p = Throw TypeError.
Proof. intros H. destruct v; try reflexivity. now destruct (H elems). Qed.

Lemma sort_non_array (v : value) (cmp : value -> value -> Result (option Z)) :
  (forall l, v <> VArr l) -> Js.sort v cmp = Throw TypeError.
Proof. intros H. destruct v; try reflexivity. now destruct (H elems). Qed.

(** [applyFiltersAndSearch] raises on every value that is not an array;
    on the empty string it has emptied the view by then. *)
Lemma applyFiltersAndSearch_non_array (copy : Todo.Copy) (st : Todo.App) :
  (forall l, Todo.todos st <> VArr l) ->
  exists rows,
    Todo.applyFiltersAndSearch copy st
    = Todo.Uncaught TypeError (Todo.set_listView rows st).
Proof.
  intros H.
  assert (Hid : Todo.set_listView (Todo.listView st) st = st) by (destruct st; reflexivity).
  assert (Hs : exists rows,
             Todo.Uncaught TypeError st
             = Todo.Uncaught TypeError (Todo.set_listView rows st))
    by (exists (Todo.listView st); now rewrite Hid).
  unfold Todo.applyFiltersAndSearch, Todo.results.
  destruct (Todo.todos st) as [| | |s|els|] eqn:E; try exact Hs;
    [| now destruct (H els)].
  cbn [Js.slice bind].
  assert (Hn : forall l, VStr s <> VArr l) by discriminate.
  destruct (String.eqb (Todo.currentFilter st) "active");
    [rewrite filter_non_array by exact Hn; exact Hs |].
  destruct (String.eqb (Todo.currentFilter st) "completed");
    [rewrite filter_non_array by exact Hn; exact Hs |].
  cbn [bind].
  destruct (0 <? _)%nat; [rewrite filter_non_array by exact Hn; exact Hs |].
  cbn [bind]. destruct copy; [| exact Hs].
  unfold Todo.renderTodoList. cbn [Js.truthy].
  destruct s as [|c s]; cbn [JsString.nonEmpty negb]; [| exact Hs].
  unfold Todo.updateCounter. cbn [Todo.todos Todo.set_listView]. rewrite E. eauto.
Qed.

(** No listener of the todo page repairs such a value. *)
Lemma todo_handle_non_array (copy : Todo.Copy) (e : Todo.Event) (st : Todo.App) :
  (forall l, Todo.todos st <> VArr l) ->
  exists st',
    (Todo.handle copy e st = Todo.Done st'
     \/ Todo.handle copy e st = Todo.Uncaught TypeError st')
    /\ Todo.todos st' = Todo.todos st
    /\ Todo.storage st' = Todo.storage st
    /\ Todo.counter st' = Todo.counter st.
Proof.
  intros H.
  assert (Hst : exists st',
             (Todo.Done st = Todo.Done st' \/ Todo.Done st = Todo.Uncaught TypeError st')
             /\ Todo.todos st' = Todo.todos st
             /\ Todo.storage st' = Todo.storage st
             /\ Todo.counter st' = Todo.counter st) by (exists st; auto).
  assert (Hun : exists st',
             (Todo.Uncaught TypeError st = Todo.Done st'
              \/ Todo.Uncaught TypeError st = Todo.Uncaught TypeError st')
             /\ Todo.todos st' = Todo.todos st
             /\ Todo.storage st' = Todo.storage st
             /\ Todo.counter st' = Todo.counter st) by (exists st; auto).
  assert (Hap : forall s, Todo.todos s = Todo.todos st ->
             Todo.storage s = Todo.storage st -> Todo.counter s = Todo.counter st ->
             exists st',
               (Todo.applyFiltersAndSearch copy s = Todo.Done st'
                \/ Todo.applyFiltersAndSearch copy s = Todo.Uncaught TypeError st')
               /\ Todo.todos st' = Todo.todos st
               /\ Todo.storage st' = Todo.storage st
               /\ Todo.counter st' = Todo.counter st).
  { intros s Ht Hs Hc.
    destruct (applyFiltersAndSearch_non_array copy s) as [rows ->];
      [now rewrite Ht |].
    eexists. split; [right; reflexivity |]. auto. }
  destruct e as [uuid now | [id conf | id chk |] | f | typed | typed |];
    cbn [Todo.handle].
  - unfold Todo.onSubmit.
    destruct (negb _); [eexists; split; [left; reflexivity | auto] |].
    destruct (_ <? 3)%nat; [eexists; split; [left; reflexivity | auto] |].
    rewrite unshift_non_array by exact H. exact Hun.
  - unfold Todo.onListClick. destruct id as [id|]; [| exact Hst].
    destruct (negb _); [exact Hst |]. destruct (negb conf); [exact Hst |].
    rewrite filter_non_array by exact H. exact Hun.
  - unfold Todo.onListClick. destruct id as [id|]; [| exact Hst].
    destruct (negb _); [exact Hst |].
    destruct (Todo.todos st) as [| | | |els|]; try exact Hun. now destruct (H els).
  - exact Hst.
  - unfold Todo.onFilterClick. apply Hap; reflexivity.
  - eexists. split; [left; reflexivity | auto].
  - eexists. split; [left; reflexivity | auto].
  - unfold Todo.debouncedSearch. apply Hap; reflexivity.
Qed.

Lemma todo_run_non_array (copy : Todo.Copy) (es : list Todo.Event) (st : Todo.App) :
  (forall l, Todo.todos st <> VArr l) ->
  Todo.todos (fst (Todo.run copy es st)) = Todo.todos st
  /\ Todo.storage (fst (Todo.run copy es st)) = Todo.storage st
  /\ Todo.counter (fst (Todo.run copy es st)) = Todo.counter st
  /\ Forall (eq TypeError) (snd (Todo.run copy es st)).
Proof.
  revert st. induction es as [|e es IH]; intros st H.
  - cbn. auto.
  - destruct (todo_handle_non_array copy e st H) as (st' & Hh & Ht & Hs & Hc).
    assert (H' : forall l, Todo.todos st' <> VArr l) by (now rewrite Ht).
    destruct (IH st' H') as (IH1 & IH2 & IH3 & IH4).
    cbn [Todo.run].
    destruct Hh as [-> | ->].
    + rewrite IH1, IH2, IH3. auto.
    + destruct (Todo.run copy es st') as [final xs]. cbn [fst snd] in *.
      rewrite IH1, IH2, IH3. auto.
Qed.




End NonArrayFacts.

(** X14: a stored text that parses to something other than an array
    breaks the todo page for good.  Loading the script raises TypeError
    with that value in memory; after any sequence of events the value in
    memory is still that value, the store and the counter are untouched,
    every exception raised is a TypeError, and a filter click or the
    expiry of the search timer raises again. *)
Theorem X14_todo_non_array_never_repaired {P : Platform} (copy : Todo.Copy)
    (markup : Todo.App) (v : value) (es : list Todo.Event) :
  Todo.loadTodos (Todo.storage markup) = Return v ->
  (forall l, v <> VArr l) ->
  exists st0,
    Todo.init copy markup = Todo.Uncaught TypeError st0
    /\ Todo.todos st0 = v
    /\ Todo.todos (fst (Todo.run copy es st0)) = v
    /\ Todo.storage (fst (Todo.run copy es st0)) = Todo.storage markup
    /\ Todo.counter (fst (Todo.run copy es st0)) = Todo.counter markup
    /\ Forall (eq TypeError) (snd (Todo.run copy es st0))
    /\ (forall f, exists st',
          Todo.handle copy (Todo.FilterClick f) (fst (Todo.run copy es st0))
          = Todo.Uncaught TypeError st')
    /\ exists st',
         Todo.handle copy Todo.SearchExpired (fst (Todo.run copy es st0))
         = Todo.Uncaught TypeError st'.
Proof.
  intros Hload Hv. unfold Todo.init. rewrite Hload.
  destruct (applyFiltersAndSearch_non_array copy
              (Todo.set_currentQuery "" (Todo.set_currentFilter "all"
                 (Todo.set_todos v markup)))) as [rows ->]; [exact Hv |].
  eexists. split; [reflexivity |]. split; [reflexivity |].
  match goal with |- context [Todo.run copy es ?s] => set (st0 := s) end.
  assert (H0 : forall l, Todo.todos st0 <> VArr l) by exact Hv.
  destruct (todo_run_non_array copy es st0 H0) as (H1 & H2 & H3 & H4).
  assert (Hf : forall l, Todo.todos (fst (Todo.run copy es st0)) <> VArr l)
    by (now rewrite H1).
  split; [exact H1 |]. split; [exact H2 |]. split; [exact H3 |]. split; [exact H4 |].
  split.
  - intros f. cbn [Todo.handle]. unfold Todo.onFilterClick.
    destruct (applyFiltersAndSearch_non_array copy
                (Todo.set_currentFilter
                   match f with
                   | Some f0 => if JsString.nonEmpty f0 then f0 else "all"
                   | None => "all"
                   end (fst (Todo.run copy es st0)))) as [rows' ->]; [exact Hf | eauto].
  - cbn [Todo.handle]. unfold Todo.debouncedSearch.
    destruct (applyFiltersAndSearch_non_array copy
                (Todo.set_currentQuery (Todo.searchInput (fst (Todo.run copy es st0)))
                   (fst (Todo.run copy es st0)))) as [rows' ->]; [exact Hf | eauto].
Qed.

Lemma X14_todo_non_array_never_repaired_witness :
  let markup := Examples.app [] "" (Reference.working (<[Todo.STORAGE_KEY := "{}"]> ∅)) in
  let es := [Todo.TypeTodo "Buy milk"; Todo.Submit "id-1" "2024-01-15T10:30:00.000Z";
             Todo.FilterClick (Some "active")] in
  exists st0,
    Todo.init (P := Reference.platform) Todo.SearchCopy markup = Todo.Uncaught TypeError st0
    /\ Todo.todos (fst (Todo.run (P := Reference.platform) Todo.SearchCopy es st0)) = VObj []
    /\ Todo.storage (fst (Todo.run (P := Reference.platform) Todo.SearchCopy es st0))
       = Todo.storage markup.
Proof.
  intros markup es.
  assert (Hload : Todo.loadTodos (P := Reference.platform) (Todo.storage markup)
                  = Return (VObj [])) by (vm_compute; reflexivity).
  assert (Hv : forall l, VObj [] <> VArr l) by discriminate.
  destruct (X14_todo_non_array_never_repaired (P := Reference.platform) Todo.SearchCopy
              markup (VObj []) es Hload Hv)
    as (st0 & Hinit & _ & Ht & Hs & _).
  exists st0. split; [exact Hinit |]. split; [exact Ht | exact Hs].
Defined.



(** Over the stored text "5" the load raises, and nothing runs after it:
    the valid submission of the same events is not heard. *)
Example contact_load_stops_script :
  Contact.session (P := Reference.platform)
    (Examples.page [] "Al" "a@b.co" "Hello there!!"
       (Reference.working (<[Contact.STORAGE_KEY := "5"]> ∅)))
    [Contact.Blur Contact.NameField; Contact.Submit "id-8" 1705400000000]
  = (Contact.set_messages (VNum 5)
       (Examples.page [] "Al" "a@b.co" "Hello there!!"
          (Reference.working (<[Contact.STORAGE_KEY := "5"]> ∅))),
     [TypeError]).
Proof. vm_compute. reflexivity. Qed.

(** ** The store mirrors the list *)
Section MirrorFacts.
Context {P : Platform}.

(** What a listener of the todo page does to the list and the store,
    whatever they hold and however it ends: nothing, or a successful
    write of the list it leaves in memory, or a return to the stored
    list after a write that failed. *)
Lemma todo_handle_shape (copy : Todo.Copy) (e : Todo.Event) (st : Todo.App) :
  (Todo.todos (Todo.stateOf (Todo.handle copy e st)) = Todo.todos st
   /\ Todo.storage (Todo.stateOf (Todo.handle copy e st)) = Todo.storage st)
  \/ setItem (Todo.storage st) Todo.STORAGE_KEY
       (JSON_stringify (Todo.todos (Todo.stateOf (Todo.handle copy e st))))
     = Return (Todo.storage (Todo.stateOf (Todo.handle copy e st)))
  \/ (Todo.storage (Todo.stateOf (Todo.handle copy e st)) = Todo.storage st
      /\ Todo.loadTodos (Todo.storage st)
         = Return (Todo.todos (Todo.stateOf (Todo.handle copy e st)))).
Proof.
  assert (Hap : forall s,
    Todo.todos (Todo.stateOf (Todo.applyFiltersAndSearch copy s)) = Todo.todos s
    /\ Todo.storage (Todo.stateOf (Todo.applyFiltersAndSearch copy s)) = Todo.storage s).
  { intros s. destruct (applyFiltersAndSearch_frame copy s) as (Ht & Hs & _). auto. }
  assert (Htail : forall (s : Todo.App) (items : value) (msg : string)
                         (g : Todo.App -> Todo.App),
    Todo.storage s = Todo.storage st ->
    Todo.todos s = items ->
    (forall x, Todo.todos (g x) = Todo.todos x /\ Todo.storage (g x) = Todo.storage x) ->
    let o := match Todo.saveTodos (Todo.storage s) items with
             | Throw e0 => Todo.Uncaught e0 s
             | Return (ok, ls) =>
                 if negb ok then
                   match Todo.loadTodos
                           (Todo.storage
                              (Todo.showSubmitMessage msg "error" (Todo.set_storage ls s)))
                   with
                   | Throw e0 =>
                       Todo.Uncaught e0
                         (Todo.showSubmitMessage msg "error" (Todo.set_storage ls s))
                   | Return reloaded =>
                       Todo.applyFiltersAndSearch copy
                         (Todo.set_todos reloaded
                            (Todo.showSubmitMessage msg "error" (Todo.set_storage ls s)))
                   end
                 else Todo.applyFiltersAndSearch copy (g (Todo.set_storage ls s))
             end in
    setItem (Todo.storage st) Todo.STORAGE_KEY
      (JSON_stringify (Todo.todos (Todo.stateOf o)))
    = Return (Todo.storage (Todo.stateOf o))
    \/ (Todo.storage (Todo.stateOf o) = Todo.storage st
        /\ Todo.loadTodos (Todo.storage st) = Return (Todo.todos (Todo.stateOf o)))).
  { intros s items msg g Hs Ht Hg o. subst o.
    destruct (saveTodos_cases (Todo.storage s) items)
      as [[Hf ->] | [Hf (ls' & Hset & ->)]]; cbn [negb].
    - cbn [Todo.storage Todo.showSubmitMessage Todo.set_submitMsg Todo.set_storage].
      destruct (loadTodos_total (Todo.storage s)) as [r Hr]. rewrite Hr.
      destruct (Hap (Todo.set_todos r
                       (Todo.showSubmitMessage msg "error"
                          (Todo.set_storage (Todo.storage s) s)))) as [Ht' Hs'].
      right. rewrite Ht', Hs'. cbn. rewrite <- Hs. auto.
    - destruct (Hap (g (Todo.set_storage ls' s))) as [Ht' Hs'].
      destruct (Hg (Todo.set_storage ls' s)) as [Hg1 Hg2].
      left. rewrite Ht', Hs', Hg1, Hg2. cbn. rewrite Ht, <- Hs. exact Hset. }
  destruct e as [uuid now | [id conf | id chk |] | f | typed | typed |];
    cbn [Todo.handle].
  - unfold Todo.onSubmit. cbv zeta.
    destruct (negb _); [left; split; reflexivity |].
    destruct (_ <? 3)%nat; [left; split; reflexivity |].
    destruct (Js.unshift _ _) as [items|x]; [| left; split; reflexivity].
    right.
    apply (Htail (Todo.set_todos items st) items
             "Could not save todo locally. Check storage settings."
             (fun x => Todo.showSubmitMessage "Todo added!" "success"
                         (Todo.set_todoInput "" x))); auto.
  - unfold Todo.onListClick. destruct id as [id|]; [| left; split; reflexivity].
    destruct (negb _); [left; split; reflexivity |].
    destruct (negb conf); [left; split; reflexivity |].
    destruct (Js.filter _ _) as [items|x]; [| left; split; reflexivity].
    right.
    apply (Htail (Todo.set_todos items st) items
             "Could not delete todo (storage error)." (fun x => x)); auto.
  - unfold Todo.onListClick. destruct id as [id|]; [| left; split; reflexivity].
    destruct (negb _); [left; split; reflexivity |].
    destruct (Todo.todos st) as [| | | |els|] eqn:E;
      try (left; split; [exact E | reflexivity]).
    destruct (Todo.toggleFirst id chk els) as [[l'|]|x];
      try (left; split; [exact E | reflexivity]).
    right.
    apply (Htail (Todo.set_todos (VArr l') st) (VArr l')
             "Could not update todo (storage error)." (fun x => x)); auto.
  - left; split; reflexivity.
  - left. unfold Todo.onFilterClick. cbv zeta.
    match goal with |- context [Todo.applyFiltersAndSearch copy ?s] =>
      destruct (Hap s) as [-> ->]
    end. split; reflexivity.
  - left; split; reflexivity.
  - left; split; reflexivity.
  - left. unfold Todo.debouncedSearch.
    match goal with |- context [Todo.applyFiltersAndSearch copy ?s] =>
      destruct (Hap s) as [-> ->]
    end. split; reflexivity.
Qed.

Lemma todo_load_after_write (ls ls' : localStorage) (v : value) :
  getFails ls = false ->
  setItem ls Todo.STORAGE_KEY (JSON_stringify v) = Return ls' ->
  OnEntities.roundTrips v ->
  getFails ls' = false /\ Todo.loadTodos ls' = Return v.
Proof.
  intros Hg Hset [Hne Hp]. unfold setItem in Hset.
  destruct (setFails ls _ _); [discriminate |]. injection Hset as <-.
  split; [exact Hg |].
  unfold Todo.loadTodos, getItem. cbn [getFails entries]. rewrite Hg. cbn [bind].
  rewrite lookup_insert_eq, Hne, Hp. reflexivity.
Qed.

Lemma todo_handle_sync (copy : Todo.Copy) (e : Todo.Event) (st : Todo.App) :
  OnEntities.todoInSync st ->
  OnEntities.roundTrips (Todo.todos (Todo.stateOf (Todo.handle copy e st))) ->
  OnEntities.todoInSync (Todo.stateOf (Todo.handle copy e st)).
Proof.
  intros [Hg Hl] Hrt. unfold OnEntities.todoInSync.
  destruct (todo_handle_shape copy e st) as [[Ht Hs] | [Hset | [Hs Hr]]].
  - rewrite Hs, Ht. auto.
  - exact (todo_load_after_write _ _ _ Hg Hset Hrt).
  - rewrite Hs. auto.
Qed.

Lemma todo_run_step (copy : Todo.Copy) (e : Todo.Event) (es : list Todo.Event)
    (st : Todo.App) :
  fst (Todo.run copy (e :: es) st)
  = fst (Todo.run copy es (Todo.stateOf (Todo.handle copy e st))).
Proof.
  cbn [Todo.run]. destruct (Todo.handle copy e st) as [st'|x st']; cbn [Todo.stateOf];
    [reflexivity |].
  now destruct (Todo.run copy es st').
Qed.

(** The same for the contact page. *)
Lemma contact_handle_shape (e : Contact.Event) (pg : Contact.Page) :
  (Contact.messages (Contact.stateOf (Contact.handle e pg)) = Contact.messages pg
   /\ Contact.storage (Contact.stateOf (Contact.handle e pg)) = Contact.storage pg)
  \/ setItem (Contact.storage pg) Contact.STORAGE_KEY
       (JSON_stringify (Contact.messages (Contact.stateOf (Contact.handle e pg))))
     = Return (Contact.storage (Contact.stateOf (Contact.handle e pg)))
  \/ (Contact.storage (Contact.stateOf (Contact.handle e pg)) = Contact.storage pg
      /\ Contact.loadMessages (Contact.storage pg)
         = Return (Contact.messages (Contact.stateOf (Contact.handle e pg)))).
Proof.
  assert (Hr : forall v s,
    Contact.messages (Contact.stateOf (Contact.renderMessagesList v s))
    = Contact.messages s
    /\ Contact.storage (Contact.stateOf (Contact.renderMessagesList v s))
       = Contact.storage s).
  { intros v s. destruct (renderMessagesList_shape v s) as [rows ->]. auto. }
  destruct e as [uuid now | [[id|]|] conf | f | f typed | f]; cbn [Contact.handle];
    try (left; split; reflexivity);
    try (left; destruct f; split; reflexivity).
  - unfold Contact.onSubmit. cbv zeta.
    destruct (negb _); [left; split; reflexivity |].
    destruct (negb _); [left; split; reflexivity |].
    destruct (negb _); [left; split; reflexivity |].
    destruct (Js.unshift _ _) as [msgs|x]; [| left; split; reflexivity].
    right.
    match goal with |- context [Contact.saveMessages ?ls msgs] =>
      destruct (saveMessages_cases ls msgs) as [[Hf ->] | [Hf (ls' & Hset & ->)]]
    end; cbn [negb].
    + match goal with |- context [Contact.loadMessages ?ls] =>
        destruct (loadMessages_total ls) as [r Hl]; rewrite Hl
      end.
      right.
      match goal with |- context [Contact.renderMessagesList r ?s] =>
        destruct (Hr r s) as [Hm Hs]
      end.
      rewrite Hm, Hs. split; [reflexivity | exact Hl].
    + left.
      match goal with |- context [Contact.renderMessagesList msgs ?s] =>
        pose proof (Hr msgs s) as [Hm Hs];
        destruct (Contact.renderMessagesList msgs s) as [s'|x s']
      end; cbn [Contact.stateOf] in *.
      * cbn. cbn in Hm, Hs. rewrite Hm, Hs. exact Hset.
      * rewrite Hm, Hs. exact Hset.
  - unfold Contact.onListClick.
    destruct (negb _); [left; split; reflexivity |].
    destruct (negb conf); [left; split; reflexivity |].
    destruct (Js.filter _ _) as [msgs|x]; [| left; split; reflexivity].
    right.
    match goal with |- context [Contact.saveMessages ?ls msgs] =>
      destruct (saveMessages_cases ls msgs) as [[Hf ->] | [Hf (ls' & Hset & ->)]]
    end; cbn [negb].
    + match goal with |- context [Contact.loadMessages ?ls] =>
        destruct (loadMessages_total ls) as [r Hl]; rewrite Hl
      end.
      right.
      match goal with |- context [Contact.renderMessagesList r ?s] =>
        destruct (Hr r s) as [Hm Hs]
      end.
      rewrite Hm, Hs. split; [reflexivity | exact Hl].
    + left.
      match goal with |- context [Contact.renderMessagesList msgs ?s] =>
        destruct (Hr msgs s) as [Hm Hs]
      end.
      rewrite Hm, Hs. exact Hset.
Qed.

Lemma contact_load_after_write (ls ls' : localStorage) (v : value) :
  getFails ls = false ->
  setItem ls Contact.STORAGE_KEY (JSON_stringify v) = Return ls' ->
  OnEntities.roundTrips v ->
  getFails ls' = false /\ Contact.loadMessages ls' = Return v.
Proof.
  intros Hg Hset [Hne Hp]. unfold setItem in Hset.
  destruct (setFails ls _ _); [discriminate |]. injection Hset as <-.
  split; [exact Hg |].
  unfold Contact.loadMessages, getItem. cbn [getFails entries]. rewrite Hg. cbn [bind].
  rewrite lookup_insert_eq, Hne, Hp. reflexivity.
Qed.

Lemma contact_handle_sync (e : Contact.Event) (pg : Contact.Page) :
  OnEntities.contactInSync pg ->
  OnEntities.roundTrips (Contact.messages (Contact.stateOf (Contact.handle e pg))) ->
  OnEntities.contactInSync (Contact.stateOf (Contact.handle e pg)).
Proof.
  intros [Hg Hl] Hrt. unfold OnEntities.contactInSync.
  destruct (contact_handle_shape e pg) as [[Ht Hs] | [Hset | [Hs Hr]]].
  - rewrite Hs, Ht. auto.
  - exact (contact_load_after_write _ _ _ Hg Hset Hrt).
  - rewrite Hs. auto.
Qed.

Lemma contact_run_step (e : Contact.Event) (es : list Contact.Event) (pg : Contact.Page) :
  fst (Contact.run (e :: es) pg)
  = fst (Contact.run es (Contact.stateOf (Contact.handle e pg))).
Proof.
  cbn [Contact.run]. destruct (Contact.handle e pg) as [pg'|x pg']; cbn [Contact.stateOf];
    [reflexivity |].
  now destruct (Contact.run es pg').
Qed.

End MirrorFacts.

(** X16: the store mirrors the todo list all along a run.  Start with a
    store that can be read and from which [loadTodos] returns the value
    in memory, and let the platform give back every list the run leaves
    in memory from its own text; then after every prefix of the events,
    whatever writes failed and whatever listeners raised, [loadTodos]
    returns the value in memory. *)
Theorem X16_todo_store_mirrors_list {P : Platform} (copy : Todo.Copy)
    (es : list Todo.Event) (st : Todo.App) :
  OnEntities.todoInSync st ->
  (forall n, OnEntities.roundTrips
               (Todo.todos (fst (Todo.run copy (List.firstn (S n) es) st)))) ->
  forall n, OnEntities.todoInSync (fst (Todo.run copy (List.firstn n es) st)).
Proof.
  revert st. induction es as [|e es IH]; intros st Hsync Hrt n.
  - now destruct n.
  - destruct n as [|n]; [exact Hsync |].
    cbn [List.firstn]. rewrite todo_run_step. apply IH.
    + apply todo_handle_sync; [exact Hsync |].
      specialize (Hrt 0%nat). cbn [List.firstn] in Hrt.
      now rewrite todo_run_step in Hrt.
    + intros m. specialize (Hrt (S m)). cbn [List.firstn] in Hrt.
      now rewrite todo_run_step in Hrt.
Qed.

Lemma X16_todo_store_mirrors_list_witness :
  let st := Examples.app [Examples.older] "Write report"
              (Reference.working (Examples.savedTodos [Examples.older])) in
  let es := [Todo.Submit "id-2" "2024-01-16T09:00:00.000Z";
             Todo.ListClick (Todo.OnToggle (Some "id-2") true);
             Todo.ListClick (Todo.OnDelete (Some "id-1") true)] in
  OnEntities.todoInSync (P := Reference.platform) st
  /\ OnEntities.todoInSync (P := Reference.platform)
       (fst (Todo.run (P := Reference.platform) Todo.SortingCopy es st)).
Proof.
  intros st es.
  assert (Hsync : OnEntities.todoInSync (P := Reference.platform) st)
    by (split; vm_compute; reflexivity).
  split; [exact Hsync |].
  apply (X16_todo_store_mirrors_list (P := Reference.platform) Todo.SortingCopy es st
           Hsync) with (n := 3%nat).
  intros n. do 3 (destruct n as [|n]; [split; vm_compute; reflexivity |]).
  split; vm_compute; reflexivity.
Defined.

(** X17: the store mirrors the list of messages all along a run of the
    contact page, under the same conditions: after every prefix of the
    events [loadMessages] returns the value in memory. *)
Theorem X17_contact_store_mirrors_list {P : Platform} (es : list Contact.Event)
    (pg : Contact.Page) :
  OnEntities.contactInSync pg ->
  (forall n, OnEntities.roundTrips
               (Contact.messages (fst (Contact.run (List.firstn (S n) es) pg)))) ->
  forall n, OnEntities.contactInSync (fst (Contact.run (List.firstn n es) pg)).
Proof.
  revert pg. induction es as [|e es IH]; intros pg Hsync Hrt n.
  - now destruct n.
  - destruct n as [|n]; [exact Hsync |].
    cbn [List.firstn]. rewrite contact_run_step. apply IH.
    + apply contact_handle_sync; [exact Hsync |].
      specialize (Hrt 0%nat). cbn [List.firstn] in Hrt.
      now rewrite contact_run_step in Hrt.
    + intros m. specialize (Hrt (S m)). cbn [List.firstn] in Hrt.
      now rewrite contact_run_step in Hrt.
Qed.

Lemma X17_contact_store_mirrors_list_witness :
  let pg := Examples.page [Examples.hello] " Al " "a@b.co" "Hello there!!"
              (Reference.working (Examples.savedMessages [Examples.hello])) in
  let es := [Contact.Submit "id-8" 1705400000000;
             Contact.ListClick (Some (Some "id-7")) true] in
  OnEntities.contactInSync (P := Reference.platform) pg
  /\ OnEntities.contactInSync (P := Reference.platform)
       (fst (Contact.run (P := Reference.platform) es pg)).
Proof.
  intros pg es.
  assert (Hsync : OnEntities.contactInSync (P := Reference.platform) pg)
    by (split; vm_compute; reflexivity).
  split; [exact Hsync |].
  apply (X17_contact_store_mirrors_list (P := Reference.platform) es pg Hsync)
    with (n := 2%nat).
  intros n. do 2 (destruct n as [|n]; [split; vm_compute; reflexivity |]).
  split; vm_compute; reflexivity.
Defined.

(** X18: a reload restores the list.  When the store mirrors the value
    in memory, loading the script again over that store starts from the
    same value, in both scripts; if the value is a list of items, the
    todo page then shows all of them under the filter "all" and an empty
    query, in list order in the copy without sort and in the order its
    sort leaves in the other (newest first when every item carries a
    date, the engine's order otherwise), with the counter over the whole
    list, and the contact page shows all the messages in list order. *)
Theorem X18_reload_restores_list {P : Platform} (copy : Todo.Copy) :
  (forall st markup,
     OnEntities.todoInSync st -> Todo.storage markup = Todo.storage st ->
     Todo.todos (Todo.stateOf (Todo.init copy markup)) = Todo.todos st
     /\ forall l, Todo.todos st = Todo.todoArray l ->
          exists st',
            Todo.init copy markup = Todo.Done st'
            /\ Todo.listView st'
               = List.map OnEntities.rowOf
                   (match copy with
                    | Todo.SortingCopy => OnEntities.sortedByScript l
                    | Todo.SearchCopy => l
                    end)
            /\ Permutation (OnEntities.sortedByScript l) l
            /\ (Forall Spec.hasDate l ->
                OnEntities.sortedByScript l = Spec.sortNewest l)
            /\ Todo.counter st' = (length l, length (List.filter Todo.todo_completed l))
            /\ Todo.currentFilter st' = "all"
            /\ Todo.currentQuery st' = "")
  /\ (forall pg markup,
        OnEntities.contactInSync pg -> Contact.storage markup = Contact.storage pg ->
        Contact.messages (Contact.stateOf (Contact.init markup)) = Contact.messages pg
        /\ forall l, Contact.messages pg = Contact.messageArray l ->
             exists pg',
               Contact.init markup = Contact.Done pg'
               /\ Contact.listView pg' = List.map OnEntities.messageRowOf l).
Proof.
  split.
  - intros st markup [_ Hl] Hs. unfold Todo.init. rewrite Hs, Hl. split.
    + destruct (applyFiltersAndSearch_frame copy
                  (Todo.set_currentQuery "" (Todo.set_currentFilter "all"
                     (Todo.set_todos (Todo.todos st) markup)))) as (Ht & _).
      cbn zeta in Ht. now rewrite Ht.
    + intros l Hv. rewrite Hv.
      rewrite (applyFiltersAndSearch_items copy _ l) by reflexivity.
      eexists. split; [reflexivity |]. split; [reflexivity |].
      split; [apply sortedByScript_perm |].
      split; [apply sortedByScript_dated |]. repeat split.
  - intros pg markup [_ Hl] Hs. unfold Contact.init. rewrite Hs, Hl. split.
    + now destruct (renderMessagesList_shape (Contact.messages pg)
                      (Contact.set_messages (Contact.messages pg) markup)) as [rows ->].
    + intros l Hv. rewrite Hv, renderMessagesList_messages. eauto.
Qed.

Lemma X18_reload_restores_list_witness :
  let st := Todo.stateOf
              (Todo.onSubmit (P := Reference.platform) Todo.SortingCopy
                 "id-2" "2024-01-16T09:00:00.000Z"
                 (Examples.app [Examples.older] "Write report"
                    (Reference.working (Examples.savedTodos [Examples.older])))) in
  let markup := Examples.app [] "" (Todo.storage st) in
  OnEntities.todoInSync (P := Reference.platform) st
  /\ Todo.todos (Todo.stateOf (Todo.init (P := Reference.platform) Todo.SortingCopy markup))
     = Todo.todos st.
Proof.
  intros st markup.
  assert (Hsync : OnEntities.todoInSync (P := Reference.platform) st)
    by (split; vm_compute; reflexivity).
  split; [exact Hsync |].
  exact (proj1 (proj1 (X18_reload_restores_list (P := Reference.platform) Todo.SortingCopy)
                  st markup Hsync eq_refl)).
Defined.

(** ** [debounce] *)
Section DebounceFacts.
Context {A : Type}.
Variable wait : Z.

Lemma delay_nonneg : (0 <= Debounce.delay wait)%Z.
Proof. unfold Debounce.delay. lia. Qed.

(** A run of calls in time order leaves the timer of the last one. *)
Lemma run_calls (calls : list (Z * A)) (c : Debounce.Closure) (t : Z) (a : A)
    (rest : list Debounce.Event) :
  Sorted Z.le (Debounce.clock c :: (List.map fst calls ++ [t])%list) ->
  Debounce.run wait c
    (List.map (fun p => Debounce.Call (fst p) (snd p)) calls
       ++ Debounce.Call t a :: rest)%list
  = Debounce.run wait
      {| Debounce.clock := t;
         Debounce.timer := Some ((t + Debounce.delay wait)%Z, a) |} rest.
Proof.
  revert c. induction calls as [|[t1 a1] calls IH]; intros c Hs;
    cbn [List.map List.app fst snd Debounce.run Debounce.step] in *.
  - inversion Hs as [|? ? _ Hhd]; subst. inversion Hhd; subst.
    destruct (Z.leb_spec (Debounce.clock c) t); [| lia].
    now destruct (Debounce.run wait _ rest) as [[? ?]|].
  - inversion Hs as [|? ? Hs' Hhd]; subst. inversion Hhd; subst.
    destruct (Z.leb_spec (Debounce.clock c) t1); [| lia].
    rewrite IH by exact Hs'.
    now destruct (Debounce.run wait _ rest) as [[? ?]|].
Qed.

(** What a run applies [fn] to, from any closure. *)
Lemma run_fired (es : list Debounce.Event) (c c' : Debounce.Closure) (out : list A) :
  Debounce.run wait c es = Some (c', out) ->
  out = (match es, Debounce.timer c with
         | Debounce.Expire _ :: _, Some (_, a) => [a]
         | _, _ => []
         end ++ Debounce.fired es)%list.
Proof.
  revert c c' out. induction es as [|e es IH]; intros c c' out H.
  - cbn in H. now injection H as _ <-.
  - cbn [Debounce.run] in H.
    destruct (Debounce.step wait c e) as [[c1 applied]|] eqn:Hstep; [| discriminate].
    destruct (Debounce.run wait c1 es) as [[c2 rest]|] eqn:Hrun; [| discriminate].
    injection H as _ <-. apply IH in Hrun.
    destruct e as [t a|t]; cbn [Debounce.step] in Hstep.
    + destruct (_ <=? _)%Z; [| discriminate]. injection Hstep as <- <-.
      cbn [Debounce.timer] in Hrun. rewrite Hrun.
      now destruct es as [|[|] es].
    + destruct (Debounce.timer c) as [[due a]|]; [| discriminate].
      destruct (_ && _); [| discriminate]. injection Hstep as <- <-.
      cbn [Debounce.timer] in Hrun. rewrite Hrun.
      now destruct es as [|[|] es].
Qed.

Lemma run_app (pre post : list Debounce.Event) (c c' : Debounce.Closure) (out : list A) :
  Debounce.run wait c (pre ++ post)%list = Some (c', out) ->
  exists c1 out1 out2,
    Debounce.run wait c pre = Some (c1, out1)
    /\ Debounce.run wait c1 post = Some (c', out2).
Proof.
  revert c out. induction pre as [|e pre IH]; intros c out H.
  - cbn in *. eauto.
  - cbn [List.app Debounce.run] in *.
    destruct (Debounce.step wait c e) as [[c1 applied]|]; [| discriminate].
    destruct (Debounce.run wait c1 (pre ++ post)%list) as [[c2 rest]|] eqn:Hrun;
      [| discriminate].
    injection H as -> _.
    destruct (IH _ _ Hrun) as (c3 & o1 & o2 & H1 & H2).
    rewrite H1. eauto.
Qed.

(** An expiry needs a pending timer, and its time has come. *)
Lemma run_expire (c c' : Debounce.Closure) (t : Z) (post : list Debounce.Event)
    (out : list A) :
  Debounce.run wait c (Debounce.Expire t :: post) = Some (c', out) ->
  exists due a, Debounce.timer c = Some (due, a) /\ (due <= t)%Z.
Proof.
  cbn [Debounce.run Debounce.step].
  destruct (Debounce.timer c) as [[due a]|]; [| discriminate].
  destruct (Z.leb_spec due t); [eauto |].
  now rewrite andb_false_r.
Qed.

Lemma run_last_call (pre : list Debounce.Event) (c c1 : Debounce.Closure) (out : list A) :
  Debounce.run wait c pre = Some (c1, out) ->
  match Debounce.timer c1 with
  | None => True
  | Some (due, a) =>
      (pre = [] /\ Debounce.timer c = Some (due, a))
      \/ exists pre' t, pre = (pre' ++ [Debounce.Call t a])%list
                        /\ due = (t + Debounce.delay wait)%Z
  end.
Proof.
  revert c out. induction pre as [|e pre IH]; intros c out H.
  - cbn in H. injection H as <- _. destruct (Debounce.timer c) as [[due a]|]; auto.
  - cbn [Debounce.run] in H.
    destruct (Debounce.step wait c e) as [[c2 applied]|] eqn:Hstep; [| discriminate].
    destruct (Debounce.run wait c2 pre) as [[c3 rest]|] eqn:Hrun; [| discriminate].
    injection H as <- _. specialize (IH _ _ Hrun).
    destruct (Debounce.timer c3) as [[due a]|]; [| exact I].
    right. destruct IH as [[-> Ht] | (pre' & t & -> & ->)].
    + destruct e as [t b|t]; cbn [Debounce.step] in Hstep.
      * destruct (_ <=? _)%Z; [| discriminate]. injection Hstep as <- _.
        cbn in Ht. injection Ht as <- <-. now exists [], t.
      * destruct (Debounce.timer c) as [[? ?]|]; [| discriminate].
        destruct (_ && _); [| discriminate]. injection Hstep as <- _. discriminate Ht.
    + now exists (e :: pre'), t.
Qed.

End DebounceFacts.

(** X19: a burst of calls ends in one application.  From an idle
    closure, calls made in time order and followed by the expiry of the
    timer at [te] apply [fn] once, to the arguments of the last call,
    when [te] is no earlier than [wait] milliseconds (0 for a negative
    [wait]) after the last call; an earlier expiry cannot happen. *)
Theorem X19_debounce_last_call_wins {A : Type} (wait t0 : Z) (calls : list (Z * A))
    (t : Z) (a : A) (te : Z) :
  Sorted Z.le (t0 :: (List.map fst calls ++ [t])%list) ->
  Debounce.run wait (Debounce.idle t0)
    (List.map (fun p => Debounce.Call (fst p) (snd p)) calls
       ++ [Debounce.Call t a; Debounce.Expire te])%list
  = if (t + Z.max 0 wait <=? te)%Z then Some (Debounce.idle te, [a]) else None.
Proof.
  intros Hs. rewrite (run_calls wait calls (Debounce.idle t0) t a) by exact Hs.
  cbn [Debounce.run Debounce.step Debounce.timer Debounce.clock].
  unfold Debounce.delay.
  destruct (Z.leb_spec (t + Z.max 0 wait) te).
  - destruct (Z.leb_spec t te); [reflexivity | lia].
  - now rewrite andb_false_r.
Qed.

Lemma X19_debounce_last_call_wins_witness :
  Debounce.run Todo.SEARCH_DEBOUNCE_MS (Debounce.idle 0)
    [Debounce.Call 10 "m"; Debounce.Call 150 "mi"; Debounce.Call 300 "mil";
     Debounce.Expire 700]%Z
  = Some (Debounce.idle 700, ["mil"]).
Proof.
  apply (X19_debounce_last_call_wins Todo.SEARCH_DEBOUNCE_MS 0
           [(10, "m"); (150, "mi")]%Z 300 "mil" 700).
  repeat constructor; cbn [fst]; lia.
Defined.

(** X20: in every run of a debounced function that starts with no timer
    pending, [fn] is applied exactly to the arguments of the calls that
    no later call cancelled, in order, and each expiry comes directly
    after the call whose arguments it uses, no earlier than [wait]
    milliseconds after it. *)
Theorem X20_debounce_applies_uncancelled_calls {A : Type} (wait : Z)
    (es : list (Debounce.Event (A := A))) (t0 : Z) (c' : Debounce.Closure) (out : list A) :
  Debounce.run wait (Debounce.idle t0) es = Some (c', out) ->
  out = Debounce.fired es
  /\ forall pre te post,
       es = (pre ++ Debounce.Expire te :: post)%list ->
       exists pre' t a,
         pre = (pre' ++ [Debounce.Call t a])%list /\ (t + Z.max 0 wait <= te)%Z.
Proof.
  intros H. split.
  - rewrite (run_fired wait es _ _ _ H). now destruct es as [|[|] es].
  - intros pre te post ->.
    destruct (run_app wait _ _ _ _ _ H) as (c1 & o1 & o2 & H1 & H2).
    destruct (run_expire wait _ _ _ _ _ H2) as (due & a & Ht & Hdue).
    pose proof (run_last_call wait _ _ _ _ H1) as Hl. rewrite Ht in Hl.
    destruct Hl as [[_ Hidle] | (pre' & t & -> & ->)]; [discriminate Hidle |].
    exists pre', t, a. split; [reflexivity | exact Hdue].
Qed.

Lemma X20_debounce_applies_uncancelled_calls_witness :
  let es := [Debounce.Call 10 "m"; Debounce.Call 150 "mi"; Debounce.Expire 600;
             Debounce.Call 900 "milk"; Debounce.Expire 1300]%Z in
  Debounce.run Todo.SEARCH_DEBOUNCE_MS (Debounce.idle 0) es
  = Some (Debounce.idle 1300, ["mi"; "milk"])
  /\ ["mi"; "milk"] = Debounce.fired es.
Proof.
  intros es.
  assert (H : Debounce.run Todo.SEARCH_DEBOUNCE_MS (Debounce.idle 0) es
              = Some (Debounce.idle 1300, ["mi"; "milk"])) by reflexivity.
  split; [exact H |].
  exact (proj1 (X20_debounce_applies_uncancelled_calls Todo.SEARCH_DEBOUNCE_MS es 0
                  _ _ H)).
Defined.

(** X21: typing into the search field changes neither the query nor
    what is shown; when the timer of the debounced search then expires,
    the query becomes the text the field holds at that time, and the page
    is what one search for that text would give, whatever was typed in
    between. *)
Theorem X21_search_uses_text_at_expiry {P : Platform} (copy : Todo.Copy) (st : Todo.App)
    (typed : list string) (last : string) :
  let keys := List.map Todo.TypeSearch (typed ++ [last])%list in
  Todo.run copy keys st = (Todo.set_searchInput last st, [])
  /\ fst (Todo.run copy (keys ++ [Todo.SearchExpired])%list st)
     = Todo.stateOf
         (Todo.applyFiltersAndSearch copy
            (Todo.set_currentQuery last (Todo.set_searchInput last st)))
  /\ Todo.currentQuery (fst (Todo.run copy (keys ++ [Todo.SearchExpired])%list st)) = last.
Proof.
  cbv zeta.
  assert (Hrun : forall rest s,
    Todo.run copy (List.map Todo.TypeSearch (typed ++ [last]) ++ rest)%list s
    = Todo.run copy rest (Todo.set_searchInput last s)).
  { induction typed as [|q typed IH]; intros rest s;
      cbn [List.app List.map Todo.run Todo.handle]; [reflexivity |].
    rewrite IH. reflexivity. }
  assert (Hfst :
    fst (Todo.run copy (List.map Todo.TypeSearch (typed ++ [last])
                          ++ [Todo.SearchExpired])%list st)
    = Todo.stateOf
        (Todo.applyFiltersAndSearch copy
           (Todo.set_currentQuery last (Todo.set_searchInput last st)))).
  { rewrite Hrun. cbn [Todo.run Todo.handle]. unfold Todo.debouncedSearch.
    cbn [Todo.searchInput Todo.set_searchInput].
    now destruct (Todo.applyFiltersAndSearch copy _). }
  split; [| split].
  - rewrite <- (app_nil_r (List.map Todo.TypeSearch (typed ++ [last]))).
    now rewrite Hrun.
  - exact Hfst.
  - rewrite Hfst.
    destruct (applyFiltersAndSearch_frame copy
                (Todo.set_currentQuery last (Todo.set_searchInput last st)))
      as (_ & _ & _ & _ & _ & Hq).
    cbn zeta in Hq. now rewrite Hq.
Qed.

(** ** A store that refuses writes *)
Section RefusedWriteFacts.
Context {P : Platform}.

Lemma todo_handle_refused (copy : Todo.Copy) (e : Todo.Event) (st : Todo.App) :
  (forall k v, setFails (Todo.storage st) k v = true) ->
  Todo.loadTodos (Todo.storage st) = Return (Todo.todos st) ->
  Todo.todos (Todo.stateOf (Todo.handle copy e st)) = Todo.todos st
  /\ Todo.storage (Todo.stateOf (Todo.handle copy e st)) = Todo.storage st.
Proof.
  intros Hf Hl.
  destruct (todo_handle_shape copy e st) as [H | [Hset | [Hs Hr]]]; [exact H | |].
  - unfold setItem in Hset. rewrite Hf in Hset. discriminate.
  - rewrite Hl in Hr. injection Hr as <-. auto.
Qed.

Lemma contact_handle_refused (e : Contact.Event) (pg : Contact.Page) :
  (forall k v, setFails (Contact.storage pg) k v = true) ->
  Contact.loadMessages (Contact.storage pg) = Return (Contact.messages pg) ->
  Contact.messages (Contact.stateOf (Contact.handle e pg)) = Contact.messages pg
  /\ Contact.storage (Contact.stateOf (Contact.handle e pg)) = Contact.storage pg.
Proof.
  intros Hf Hl.
  destruct (contact_handle_shape e pg) as [H | [Hset | [Hs Hr]]]; [exact H | |].
  - unfold setItem in Hset. rewrite Hf in Hset. discriminate.
  - rewrite Hl in Hr. injection Hr as <-. auto.
Qed.

End RefusedWriteFacts.

(** X22: over a store that refuses every write, and from which loading
    returns the value in memory, no sequence of events changes the list in
    memory or the store, in either script: every addition, removal and
    toggle is taken back. *)
Theorem X22_refused_writes_change_nothing {P : Platform} (copy : Todo.Copy) :
  (forall es st,
     (forall k v, setFails (Todo.storage st) k v = true) ->
     Todo.loadTodos (Todo.storage st) = Return (Todo.todos st) ->
     Todo.todos (fst (Todo.run copy es st)) = Todo.todos st
     /\ Todo.storage (fst (Todo.run copy es st)) = Todo.storage st)
  /\ (forall es pg,
        (forall k v, setFails (Contact.storage pg) k v = true) ->
        Contact.loadMessages (Contact.storage pg) = Return (Contact.messages pg) ->
        Contact.messages (fst (Contact.run es pg)) = Contact.messages pg
        /\ Contact.storage (fst (Contact.run es pg)) = Contact.storage pg).
Proof.
  split.
  - induction es as [|e es IH]; intros st Hf Hl; [split; reflexivity |].
    destruct (todo_handle_refused copy e st Hf Hl) as [Ht Hs].
    rewrite todo_run_step.
    destruct (IH (Todo.stateOf (Todo.handle copy e st))) as [IH1 IH2].
    + now rewrite Hs.
    + now rewrite Hs, Ht.
    + now rewrite IH1, IH2.
  - induction es as [|e es IH]; intros pg Hf Hl; [split; reflexivity |].
    destruct (contact_handle_refused e pg Hf Hl) as [Ht Hs].
    rewrite contact_run_step.
    destruct (IH (Contact.stateOf (Contact.handle e pg))) as [IH1 IH2].
    + now rewrite Hs.
    + now rewrite Hs, Ht.
    + now rewrite IH1, IH2.
Qed.

Lemma X22_refused_writes_change_nothing_witness :
  let st := Examples.app [Examples.older; Examples.newer] "Call home"
              (Reference.readOnly (Examples.savedTodos [Examples.older; Examples.newer])) in
  let es := [Todo.Submit "id-3" "2024-01-17T08:00:00.000Z";
             Todo.ListClick (Todo.OnToggle (Some "id-2") true);
             Todo.ListClick (Todo.OnDelete (Some "id-1") true)] in
  Todo.loadTodos (P := Reference.platform) (Todo.storage st) = Return (Todo.todos st)
  /\ Todo.todos (fst (Todo.run (P := Reference.platform) Todo.SearchCopy es st))
     = Todo.todoArray [Examples.older; Examples.newer].
Proof.
  intros st es.
  assert (Hl : Todo.loadTodos (P := Reference.platform) (Todo.storage st)
               = Return (Todo.todos st)) by (vm_compute; reflexivity).
  split; [exact Hl |].
  exact (proj1 (proj1 (X22_refused_writes_change_nothing (P := Reference.platform)
                         Todo.SearchCopy) es st (fun _ _ => eq_refl) Hl)).
Defined.

(** X23: a todo added while the filter "completed" is on is stored but
    not shown.  The list in memory gets the new item in front and the
    total of the counter goes up by one, while the rendered list is what
    the script derives from the list without the new item (the new item
    is filtered out before any sort) and the count of completed items
    stays. *)
Theorem X23_new_todo_hidden_by_completed_filter {P : Platform} (copy : Todo.Copy)
    (st : Todo.App) (l : list Todo.TodoItem) (uuid now : string) :
  Todo.todos st = Todo.todoArray l ->
  (3 <= String.length (JsString.trim (Todo.todoInput st)))%nat ->
  Todo.currentFilter st = "completed" ->
  let new := {| Todo.todo_id := uuid;
                Todo.todo_text := JsString.trim (Todo.todoInput st);
                Todo.todo_completed := false;
                Todo.todo_createdAt := now |} in
  setFails (Todo.storage st) Todo.STORAGE_KEY
    (JSON_stringify (Todo.todoArray (new :: l))) = false ->
  exists st',
    Todo.onSubmit copy uuid now st = Todo.Done st'
    /\ Todo.todos st' = Todo.todoArray (new :: l)
    /\ bannerText (Todo.submitMsg st') = "Todo added!"
    /\ Todo.listView st'
       = List.map OnEntities.rowOf
           (OnEntities.scriptResults copy "completed" (Todo.currentQuery st) l)
    /\ Todo.counter st' = (S (length l), length (List.filter Todo.todo_completed l)).
Proof.
  intros Hl Hlen Hfilter new Hset.
  destruct (todo_submit_saved copy st l uuid now Hl Hlen Hset)
    as (st' & Hdone & (Ht & _ & Hv & Hc & _) & _ & Hmsg).
  exists st'. split; [exact Hdone |]. split; [exact Ht |].
  split; [now rewrite Hmsg |]. split.
  - rewrite Hv, Hfilter. reflexivity.
  - rewrite Hc. reflexivity.
Qed.

Lemma X23_new_todo_hidden_by_completed_filter_witness :
  let st := Todo.set_currentFilter "completed"
              (Examples.app [Examples.older] "Write report"
                 (Reference.working (Examples.savedTodos [Examples.older]))) in
  exists st',
    Todo.onSubmit (P := Reference.platform) Todo.SearchCopy
      "id-2" "2024-01-16T09:00:00.000Z" st = Todo.Done st'
    /\ Todo.todos st' = Todo.todoArray [Examples.newer; Examples.older]
    /\ Todo.listView st' = [OnEntities.rowOf (P := Reference.platform) Examples.older]
    /\ Todo.counter st' = (2, 1)%nat.
Proof.
  intros st.
  destruct (X23_new_todo_hidden_by_completed_filter (P := Reference.platform)
              Todo.SearchCopy st [Examples.older] "id-2" "2024-01-16T09:00:00.000Z"
              eq_refl ltac:(vm_compute; lia) eq_refl eq_refl)
    as (st' & Hdone & Ht & _ & Hv & Hc).
  exists st'. split; [exact Hdone |]. split; [exact Ht |]. split; [exact Hv | exact Hc].
Defined.
